(** * txgbe virtual-function control plane

    A shallow embedding of [drivers/net/txgbe/txgbe_ethdev_vf.c]: the
    mailbox API negotiation, the device init path (primary and secondary
    process), the capability report, the interrupt mask mirror and the
    unicast address table operations.

    The driver talks to three collaborators that are not part of the file:
    the PF behind the mailbox, the hardware abstraction operations reached
    through [hw->mac], and the EAL (allocator, random numbers, logging).
    Every call to one of them is recorded, with the answer it gave, as an
    [event] in the device's [trace]; the answers come from an [environment]
    that sees the whole history, so a theorem quantified over the
    environment covers every sequence of outcomes. *)

From Stdlib Require Import ZArith List Bool Lia Sorted.
From Stdlib Require Import Strings.Byte.
Import ListNotations.
Open Scope Z_scope.

Set Implicit Arguments.

(** ** Fixed-width integers *)

Definition u8  (z : Z) : Z := z mod 2 ^ 8.
Definition u16 (z : Z) : Z := z mod 2 ^ 16.
Definition u32 (z : Z) : Z := z mod 2 ^ 32.
Definition u64 (z : Z) : Z := z mod 2 ^ 64.

Definition byte_of_Z (z : Z) : byte :=
  match Byte.of_N (Z.to_N (u8 z)) with
  | Some b => b
  | None => x00
  end.

Definition Z_of_byte (b : byte) : Z := Z.of_N (Byte.to_N b).

(** ** Ethernet addresses *)

(** [struct rte_ether_addr]: [uint8_t addr_bytes[6]]. *)
Record rte_ether_addr := EtherAddr {
  byte0 : byte; byte1 : byte; byte2 : byte;
  byte3 : byte; byte4 : byte; byte5 : byte
}.

Definition addr_bytes (a : rte_ether_addr) : list byte :=
  [byte0 a; byte1 a; byte2 a; byte3 a; byte4 a; byte5 a].

(** [sizeof(struct rte_ether_addr)] *)
Definition sizeof_rte_ether_addr : nat := 6.

Definition RTE_ETHER_ADDR_LEN : Z := 6.

(** [memcmp] over the first [n] bytes of two buffers: zero when they agree,
    otherwise the sign of the first difference, bytes read as unsigned. *)
Fixpoint memcmp (s1 s2 : list byte) (n : nat) : Z :=
  match n, s1, s2 with
  | S n', b1 :: t1, b2 :: t2 =>
      if Byte.eqb b1 b2 then memcmp t1 t2 n'
      else if Z_of_byte b1 <? Z_of_byte b2 then -1 else 1
  | _, _, _ => 0
  end.

(** [rte_is_zero_ether_addr] (rte_ether.h): every byte of the address is 0. *)
Definition rte_is_zero_ether_addr (a : rte_ether_addr) : bool :=
  forallb (Byte.eqb x00) (addr_bytes a).

Definition zero_ether_addr : rte_ether_addr :=
  EtherAddr x00 x00 x00 x00 x00 x00.

(** ** Mailbox protocol versions *)

(** The four levels of [enum txgbe_pfvf_api_rev] the driver negotiates. *)
Inductive mbox_api :=
| txgbe_mbox_api_10
| txgbe_mbox_api_11
| txgbe_mbox_api_12
| txgbe_mbox_api_13.

(** ** Calls to the collaborators *)

(** Requests carried to the PF by the VF mailbox helpers of [base/]. *)
Inductive mbx_req :=
| NegotiateApi (api : mbox_api)
    (* txgbevf_negotiate_api_version(hw, api) *)
| GetQueues
    (* txgbevf_get_queues(hw, &tcs, &tc) *)
| SetRarVf (index : Z) (addr : rte_ether_addr) (vmdq enable_addr : Z)
    (* txgbe_set_rar_vf(hw, index, addr, vmdq, enable_addr) *)
| SetUcAddr (index : Z) (addr : option rte_ether_addr).
    (* txgbevf_set_uc_addr_vf(hw, index, addr); addr = NULL is None *)

(** The two uses of [SetUcAddr] in this file. *)
Definition clear_all_unicast : mbx_req := SetUcAddr 0 None.
Definition add_unicast (a : rte_ether_addr) : mbx_req := SetUcAddr 2 (Some a).

(** An opaque handle on a transmit queue ([struct txgbe_tx_queue *]). *)
Inductive txgbe_tx_queue := TxQueue (id : Z).

Inductive log_level := ERR | NOTICE | INFO | DEBUG.

Inductive log_msg :=
| FuncTrace                                 (* PMD_INIT_FUNC_TRACE() *)
| NoTxQueuesConfigured
| SharedCodeInitFailed (err : Z)
| VfInitializationFailure (err : Z)
| MacAllocFailed (bytes : Z)
| MacNotAssignedByPf
| AssignRandomMac (a : rte_ether_addr)
| PortDescription (port vendor device : Z)
| UnableToAddMac (a : rte_ether_addr) (err : Z)
| AddingAgainFailed (a : rte_ether_addr) (err : Z).

Inductive event :=
| Log (lvl : log_level) (m : log_msg)
| Wr32 (reg val : Z)                        (* wr32(hw, reg, val) *)
| Flush                                     (* txgbe_flush(hw) *)
| Mbx (req : mbx_req) (rc : Z)              (* a mailbox helper and its result *)
| InitSharedCode (rc : Z)                   (* txgbe_init_shared_code(hw) *)
| InitMbxParams                             (* hw->mbx.init_params(hw) *)
| ResetHw (rc : Z) (perm : rte_ether_addr)  (* hw->mac.reset_hw(hw) *)
| StartHw (rc : Z)                          (* hw->mac.start_hw(hw) *)
| SetRar (index : Z) (addr : rte_ether_addr) (vmdq enable_addr rc : Z)
                                            (* hw->mac.set_rar(hw, ...) *)
| RteZmalloc (size : Z) (ok : bool)         (* rte_zmalloc("txgbevf", size, 0) *)
| RteFree                                   (* rte_free(dev->data->mac_addrs) *)
| RteRand (v : Z)                           (* rte_rand() *)
| CopyPciInfo                               (* rte_eth_copy_pci_info *)
| SetTxFunction (txq : txgbe_tx_queue)      (* txgbe_set_tx_function *)
| SetRxFunction                             (* txgbe_set_rx_function *)
| FreeQueues.                               (* txgbe_dev_free_queues *)

(** The mailbox requests among a list of events, in the order issued. *)
Fixpoint mbx_requests (evs : list event) : list mbx_req :=
  match evs with
  | [] => []
  | Mbx req _ :: rest => req :: mbx_requests rest
  | _ :: rest => mbx_requests rest
  end.

(** Does an event reach the adapter or the PF (register access, mailbox,
    hardware abstraction operation)? *)
Definition touches_hardware (e : event) : bool :=
  match e with
  | Wr32 _ _ | Flush | Mbx _ _ | InitSharedCode _ | InitMbxParams
  | ResetHw _ _ | StartHw _ | SetRar _ _ _ _ _ => true
  | _ => false
  end.

(** ** Device state *)

(** [struct rte_pci_device], the fields init reads. *)
Record rte_pci_device := {
  pci_vendor_id : Z;
  pci_device_id : Z;
  pci_subsystem_vendor_id : Z;
  pci_subsystem_device_id : Z;
  pci_mem_resource0_addr : Z;
  pci_max_vfs : Z
}.

(** [struct txgbe_hw], the fields this file reads or writes. *)
Record txgbe_hw := {
  device_id : Z;
  vendor_id : Z;
  subsystem_device_id : Z;
  subsystem_vendor_id : Z;
  hw_addr : Z;
  perm_addr : rte_ether_addr;               (* hw->mac.perm_addr *)
  num_rar_entries : Z;                      (* hw->mac.num_rar_entries, u32 *)
  max_rx_queues : Z;                        (* hw->mac.max_rx_queues *)
  max_tx_queues : Z;                        (* hw->mac.max_tx_queues *)
  api_version : mbox_api                    (* hw->api_version *)
}.

Inductive dev_ops_table := txgbevf_eth_dev_ops.

(** [struct rte_eth_dev] with its private data ([txgbe_hw],
    [txgbe_interrupt]) and [dev->data]; [trace] is what the collaborators
    have seen so far, oldest event first. *)
Record rte_eth_dev := {
  hw : txgbe_hw;
  mask_misc : Z;                            (* TXGBE_DEV_INTR(dev)->mask_misc *)
  mac_addrs : option (list rte_ether_addr); (* dev->data->mac_addrs, None = NULL *)
  nb_tx_queues : Z;                         (* dev->data->nb_tx_queues, u16 *)
  tx_queues : option (list txgbe_tx_queue); (* dev->data->tx_queues, None = NULL *)
  port_id : Z;
  dev_ops : option dev_ops_table;
  pci_dev : rte_pci_device;
  trace : list event
}.

Definition set_hw (h : txgbe_hw) (d : rte_eth_dev) : rte_eth_dev :=
  {| hw := h; mask_misc := mask_misc d; mac_addrs := mac_addrs d;
     nb_tx_queues := nb_tx_queues d; tx_queues := tx_queues d;
     port_id := port_id d; dev_ops := dev_ops d; pci_dev := pci_dev d;
     trace := trace d |}.

Definition set_mask_misc (m : Z) (d : rte_eth_dev) : rte_eth_dev :=
  {| hw := hw d; mask_misc := m; mac_addrs := mac_addrs d;
     nb_tx_queues := nb_tx_queues d; tx_queues := tx_queues d;
     port_id := port_id d; dev_ops := dev_ops d; pci_dev := pci_dev d;
     trace := trace d |}.

Definition set_mac_addrs (t : option (list rte_ether_addr)) (d : rte_eth_dev)
  : rte_eth_dev :=
  {| hw := hw d; mask_misc := mask_misc d; mac_addrs := t;
     nb_tx_queues := nb_tx_queues d; tx_queues := tx_queues d;
     port_id := port_id d; dev_ops := dev_ops d; pci_dev := pci_dev d;
     trace := trace d |}.

Definition set_dev_ops (o : option dev_ops_table) (d : rte_eth_dev)
  : rte_eth_dev :=
  {| hw := hw d; mask_misc := mask_misc d; mac_addrs := mac_addrs d;
     nb_tx_queues := nb_tx_queues d; tx_queues := tx_queues d;
     port_id := port_id d; dev_ops := o; pci_dev := pci_dev d;
     trace := trace d |}.

Definition set_trace (t : list event) (d : rte_eth_dev) : rte_eth_dev :=
  {| hw := hw d; mask_misc := mask_misc d; mac_addrs := mac_addrs d;
     nb_tx_queues := nb_tx_queues d; tx_queues := tx_queues d;
     port_id := port_id d; dev_ops := dev_ops d; pci_dev := pci_dev d;
     trace := t |}.

Definition set_perm_addr (a : rte_ether_addr) (h : txgbe_hw) : txgbe_hw :=
  {| device_id := device_id h; vendor_id := vendor_id h;
     subsystem_device_id := subsystem_device_id h;
     subsystem_vendor_id := subsystem_vendor_id h; hw_addr := hw_addr h;
     perm_addr := a; num_rar_entries := num_rar_entries h;
     max_rx_queues := max_rx_queues h; max_tx_queues := max_tx_queues h;
     api_version := api_version h |}.

Definition set_num_rar_entries (n : Z) (h : txgbe_hw) : txgbe_hw :=
  {| device_id := device_id h; vendor_id := vendor_id h;
     subsystem_device_id := subsystem_device_id h;
     subsystem_vendor_id := subsystem_vendor_id h; hw_addr := hw_addr h;
     perm_addr := perm_addr h; num_rar_entries := n;
     max_rx_queues := max_rx_queues h; max_tx_queues := max_tx_queues h;
     api_version := api_version h |}.

Definition set_api_version (v : mbox_api) (h : txgbe_hw) : txgbe_hw :=
  {| device_id := device_id h; vendor_id := vendor_id h;
     subsystem_device_id := subsystem_device_id h;
     subsystem_vendor_id := subsystem_vendor_id h; hw_addr := hw_addr h;
     perm_addr := perm_addr h; num_rar_entries := num_rar_entries h;
     max_rx_queues := max_rx_queues h; max_tx_queues := max_tx_queues h;
     api_version := v |}.

Definition set_queue_limits (rx tx : Z) (h : txgbe_hw) : txgbe_hw :=
  {| device_id := device_id h; vendor_id := vendor_id h;
     subsystem_device_id := subsystem_device_id h;
     subsystem_vendor_id := subsystem_vendor_id h; hw_addr := hw_addr h;
     perm_addr := perm_addr h; num_rar_entries := num_rar_entries h;
     max_rx_queues := rx; max_tx_queues := tx;
     api_version := api_version h |}.

(** The queue limits after a queue query that reported [lim]. *)
Definition refresh_queue_limits (lim : option (Z * Z)) (h : txgbe_hw)
  : txgbe_hw :=
  match lim with
  | Some (rx, tx) => set_queue_limits rx tx h
  | None => h
  end.

(** The permanent address after a reset in which the PF assigned [a]. *)
Definition assign_perm_addr (a : option rte_ether_addr) (h : txgbe_hw)
  : txgbe_hw :=
  match a with
  | Some x => set_perm_addr x h
  | None => h
  end.

(** Lines 135-139 of init: identity fields copied from the PCI device. *)
Definition set_identity (p : rte_pci_device) (h : txgbe_hw) : txgbe_hw :=
  {| device_id := pci_device_id p; vendor_id := pci_vendor_id p;
     subsystem_device_id := pci_subsystem_device_id p;
     subsystem_vendor_id := pci_subsystem_vendor_id p;
     hw_addr := pci_mem_resource0_addr p;
     perm_addr := perm_addr h; num_rar_entries := num_rar_entries h;
     max_rx_queues := max_rx_queues h; max_tx_queues := max_tx_queues h;
     api_version := api_version h |}.

(** ** The computation monad

    A driver function runs on the device state and either finishes with a
    value and a new state, or performs a read the C standard leaves
    undefined. *)

Inductive fault :=
| NullDereference
| OutOfBounds (index : Z) (len : nat).

Inductive result (A : Type) :=
| Done (a : A) (d : rte_eth_dev)
| Undefined (f : fault).

Arguments Undefined {A} f.

(** What a finished run returned, with its final state seen through [f]. *)
Definition observe {A B} (f : rte_eth_dev -> B) (r : result A)
  : option (A * B) :=
  match r with
  | Done a d => Some (a, f d)
  | Undefined _ => None
  end.

Definition M (A : Type) : Type := rte_eth_dev -> result A.

Definition ret {A} (a : A) : M A := fun d => Done a d.

Definition bind {A B} (c : M A) (k : A -> M B) : M B :=
  fun d => match c d with
           | Done a d' => k a d'
           | Undefined f => Undefined f
           end.

Notation "x <- c ;; k" := (bind c (fun x => k))
  (at level 61, c at next level, right associativity).
Notation "c ;;; k" := (bind c (fun _ => k))
  (at level 61, right associativity).

Definition gets {A} (f : rte_eth_dev -> A) : M A := fun d => Done (f d) d.
Definition modify (f : rte_eth_dev -> rte_eth_dev) : M unit :=
  fun d => Done tt (f d).
Definition undefined {A} (f : fault) : M A := fun _ => Undefined f.

Definition emit (e : event) : M unit :=
  modify (fun d => set_trace (trace d ++ [e]) d).

Definition modify_hw (f : txgbe_hw -> txgbe_hw) : M unit :=
  modify (fun d => set_hw (f (hw d)) d).

(** Read element [i] of a C array reached through a pointer. *)
Definition load {A} (arr : option (list A)) (i : Z) : M A :=
  match arr with
  | None => undefined NullDereference
  | Some l =>
      if i <? 0 then undefined (OutOfBounds i (length l))
      else match nth_error l (Z.to_nat i) with
           | Some x => ret x
           | None => undefined (OutOfBounds i (length l))
           end
  end.

(** [for (i = start; i < start + n; i++) body(i)]: the body runs for [n]
    consecutive values of the counter. *)
Fixpoint for_loop (n : nat) (i : Z) (body : Z -> M unit) : M unit :=
  match n with
  | O => ret tt
  | S n' => body i ;;; for_loop n' (i + 1) body
  end.

(** ** Platform constants and the environment *)

Inductive byte_order := RTE_LITTLE_ENDIAN | RTE_BIG_ENDIAN.

(** Values of the macros and enumerators the file uses but does not define
    ([errno.h], [rte_ether.h], [rte_ethdev.h], [base/txgbe_*.h]). *)
Record platform := {
  EIO : Z;
  EAGAIN : Z;
  ENOMEM : Z;
  TXGBE_ERR_INVALID_MAC_ADDR : Z;
  RTE_ETHER_LOCAL_ADMIN_ADDR : Z;
  RTE_BYTE_ORDER : byte_order;
  TXGBE_VFIMS : Z;
  TXGBE_VFIMS_MASK : Z;
  TXGBE_VFIMC : Z;
  TXGBE_VFIMC_MASK : Z;
  TXGBE_FRAME_SIZE_MAX : Z;
  TXGBE_VMDQ_NUM_UC_MAC : Z;
  ETH_64_POOLS : Z;
  TXGBE_HKEY_MAX_INDEX : Z;
  ETH_RSS_RETA_SIZE_128 : Z;
  TXGBE_RSS_OFFLOAD_ALL : Z;
  TXGBE_DEFAULT_RX_PTHRESH : Z;
  TXGBE_DEFAULT_RX_HTHRESH : Z;
  TXGBE_DEFAULT_RX_WTHRESH : Z;
  TXGBE_DEFAULT_RX_FREE_THRESH : Z;
  TXGBE_DEFAULT_TX_PTHRESH : Z;
  TXGBE_DEFAULT_TX_HTHRESH : Z;
  TXGBE_DEFAULT_TX_WTHRESH : Z;
  TXGBE_DEFAULT_TX_FREE_THRESH : Z;
  TXGBE_RING_DESC_MAX : Z;
  TXGBE_RING_DESC_MIN : Z;
  TXGBE_RXD_ALIGN : Z;
  TXGBE_TXD_ALIGN : Z;
  TXGBE_TX_MAX_SEG : Z
}.

(** [rte_eal_process_type()]: the driver only asks whether the process is
    the primary one. *)
Inductive rte_proc_type := RTE_PROC_PRIMARY | RTE_PROC_SECONDARY.

(** What the collaborators answer.  Every answer may depend on the whole
    history of events. *)
Record environment := {
  rte_eal_process_type : rte_proc_type;
  mbx_reply : list event -> mbx_req -> Z;
  queue_limits : list event -> option (Z * Z);
  init_shared_code_reply : list event -> Z;
  reset_hw_reply : list event -> Z * option rte_ether_addr;
  start_hw_reply : list event -> Z;
  set_rar_reply : list event -> Z;
  rte_zmalloc_reply : list event -> bool;
  rte_rand_reply : list event -> Z;
  txgbe_get_rx_queue_offloads : rte_eth_dev -> Z;
  txgbe_get_rx_port_offloads : rte_eth_dev -> Z;
  txgbe_get_tx_queue_offloads : rte_eth_dev -> Z;
  txgbe_get_tx_port_offloads : rte_eth_dev -> Z
}.

(** [struct rte_eth_dev_info], the fields [txgbevf_dev_info_get] assigns. *)
Record rte_eth_thresh := { pthresh : Z; hthresh : Z; wthresh : Z }.

Record rte_eth_rxconf := {
  rx_thresh : rte_eth_thresh;
  rx_free_thresh : Z;
  rx_drop_en : Z;
  rx_deferred_start : Z;
  rx_offloads : Z
}.

Record rte_eth_txconf := {
  tx_thresh : rte_eth_thresh;
  tx_rs_thresh : Z;
  tx_free_thresh : Z;
  tx_deferred_start : Z;
  tx_offloads : Z
}.

Record rte_eth_desc_lim := {
  nb_max : Z; nb_min : Z; nb_align : Z; nb_seg_max : Z; nb_mtu_seg_max : Z
}.

Record rte_eth_dev_info := {
  info_max_rx_queues : Z;
  info_max_tx_queues : Z;
  min_rx_bufsize : Z;
  max_rx_pktlen : Z;
  max_mac_addrs : Z;
  max_hash_mac_addrs : Z;
  max_vfs : Z;
  max_vmdq_pools : Z;
  rx_queue_offload_capa : Z;
  rx_offload_capa : Z;
  tx_queue_offload_capa : Z;
  tx_offload_capa : Z;
  hash_key_size : Z;
  reta_size : Z;
  flow_type_rss_offloads : Z;
  default_rxconf : rte_eth_rxconf;
  default_txconf : rte_eth_txconf;
  info_rx_desc_lim : rte_eth_desc_lim;
  info_tx_desc_lim : rte_eth_desc_lim
}.

(** Replace element [i] of a list; [None] when [i] is out of range. *)
Fixpoint list_store {A} (l : list A) (i : nat) (x : A) : option (list A) :=
  match l, i with
  | [], _ => None
  | _ :: t, O => Some (x :: t)
  | h :: t, S i' =>
      match list_store t i' x with
      | Some t' => Some (h :: t')
      | None => None
      end
  end.

(** ** Sample platform, environments and devices

    Concrete inputs on which the model is run at the end of the file.  The
    theorems hold for every platform and every environment. *)
Module Sample.

Definition K : platform :=
  {| EIO := 5; EAGAIN := 11; ENOMEM := 12;
     TXGBE_ERR_INVALID_MAC_ADDR := -266;
     RTE_ETHER_LOCAL_ADMIN_ADDR := 0x02;
     RTE_BYTE_ORDER := RTE_LITTLE_ENDIAN;
     TXGBE_VFIMS := 0x108; TXGBE_VFIMS_MASK := 0x7;
     TXGBE_VFIMC := 0x10C; TXGBE_VFIMC_MASK := 0x7;
     TXGBE_FRAME_SIZE_MAX := 9728;
     TXGBE_VMDQ_NUM_UC_MAC := 4096;
     ETH_64_POOLS := 64;
     TXGBE_HKEY_MAX_INDEX := 10;
     ETH_RSS_RETA_SIZE_128 := 128;
     TXGBE_RSS_OFFLOAD_ALL := 0x38d34;
     TXGBE_DEFAULT_RX_PTHRESH := 8;
     TXGBE_DEFAULT_RX_HTHRESH := 8;
     TXGBE_DEFAULT_RX_WTHRESH := 0;
     TXGBE_DEFAULT_RX_FREE_THRESH := 32;
     TXGBE_DEFAULT_TX_PTHRESH := 32;
     TXGBE_DEFAULT_TX_HTHRESH := 0;
     TXGBE_DEFAULT_TX_WTHRESH := 0;
     TXGBE_DEFAULT_TX_FREE_THRESH := 32;
     TXGBE_RING_DESC_MAX := 8192;
     TXGBE_RING_DESC_MIN := 128;
     TXGBE_RXD_ALIGN := 8;
     TXGBE_TXD_ALIGN := 8;
     TXGBE_TX_MAX_SEG := 40 |}.

(** An environment whose answers do not depend on the history, except for
    the mailbox. *)
Definition env (proc : rte_proc_type) (mbx : list event -> mbx_req -> Z)
  (shared : Z) (reset : Z * option rte_ether_addr) (start : Z) (alloc : bool)
  (rand : Z) (tx_queue_capa tx_port_capa : Z) : environment :=
  {| rte_eal_process_type := proc;
     mbx_reply := mbx;
     queue_limits := fun _ => Some (4, 4);
     init_shared_code_reply := fun _ => shared;
     reset_hw_reply := fun _ => reset;
     start_hw_reply := fun _ => start;
     set_rar_reply := fun _ => 0;
     rte_zmalloc_reply := fun _ => alloc;
     rte_rand_reply := fun _ => rand;
     txgbe_get_rx_queue_offloads := fun _ => 0x1;
     txgbe_get_rx_port_offloads := fun _ => 0xe;
     txgbe_get_tx_queue_offloads := fun _ => tx_queue_capa;
     txgbe_get_tx_port_offloads := fun _ => tx_port_capa |}.

(** 02:09:c0:00:00:nn *)
Definition mac (last : byte) : rte_ether_addr :=
  EtherAddr x02 x09 xc0 x00 x00 last.

Definition mbx_ok : list event -> mbx_req -> Z := fun _ _ => 0.

Definition mbx_down : list event -> mbx_req -> Z := fun _ _ => -100.

(** A PF that knows mailbox API 1.1 but neither 1.3 nor 1.2. *)
Definition mbx_api_11 : list event -> mbx_req -> Z :=
  fun _ req =>
    match req with
    | NegotiateApi txgbe_mbox_api_13 | NegotiateApi txgbe_mbox_api_12 => -100
    | _ => 0
    end.

(** A PF that refuses every second request it sees. *)
Definition mbx_flaky : list event -> mbx_req -> Z :=
  fun history _ => if Nat.even (length (mbx_requests history)) then 0 else -100.

(** Primary process, the PF assigned 02:09:c0:00:00:01. *)
Definition primary_ok : environment :=
  env RTE_PROC_PRIMARY mbx_ok 0 (0, Some (mac x01)) 0 true 0 0 0x1f.

(** Primary process, the PF assigned no address. *)
Definition primary_no_mac : environment :=
  env RTE_PROC_PRIMARY mbx_ok 0 (-266, None) 0 true 0x1122334455abcdef 0 0x1f.

(** Same, and the PF refuses every request. *)
Definition primary_no_mac_pf_down : environment :=
  env RTE_PROC_PRIMARY mbx_down 0 (-266, None) 0 true 0x1122334455abcdef 0 0x1f.

Definition primary_shared_code_fails : environment :=
  env RTE_PROC_PRIMARY mbx_ok (-1) (0, Some (mac x01)) 0 true 0 0 0x1f.

Definition primary_reset_fails : environment :=
  env RTE_PROC_PRIMARY mbx_ok 0 (-3, None) 0 true 0 0 0x1f.

Definition primary_no_memory : environment :=
  env RTE_PROC_PRIMARY mbx_ok 0 (0, Some (mac x01)) 0 false 0 0 0x1f.

Definition primary_start_fails : environment :=
  env RTE_PROC_PRIMARY mbx_ok 0 (0, Some (mac x01)) (-2) true 0 0 0x1f.

Definition primary_api_11 : environment :=
  env RTE_PROC_PRIMARY mbx_api_11 0 (0, Some (mac x01)) 0 true 0 0 0x1f.

Definition primary_flaky : environment :=
  env RTE_PROC_PRIMARY mbx_flaky 0 (0, Some (mac x01)) 0 true 0 0 0x1f.

Definition secondary : environment :=
  env RTE_PROC_SECONDARY mbx_ok 0 (0, None) 0 true 0 0 0x1f.

Definition pci : rte_pci_device :=
  {| pci_vendor_id := 0x8088; pci_device_id := 0x1000;
     pci_subsystem_vendor_id := 0x8088; pci_subsystem_device_id := 0x1000;
     pci_mem_resource0_addr := 0x7f0000000000; pci_max_vfs := 0 |}.

(** The zeroed private data of a freshly probed device. *)
Definition fresh_hw : txgbe_hw :=
  {| device_id := 0; vendor_id := 0; subsystem_device_id := 0;
     subsystem_vendor_id := 0; hw_addr := 0;
     perm_addr := zero_ether_addr; num_rar_entries := 0;
     max_rx_queues := 0; max_tx_queues := 0;
     api_version := txgbe_mbox_api_10 |}.

Definition fresh : rte_eth_dev :=
  {| hw := fresh_hw; mask_misc := 0; mac_addrs := None;
     nb_tx_queues := 0; tx_queues := None; port_id := 0;
     dev_ops := None; pci_dev := pci; trace := [] |}.

(** Slots 0, 2 and 5 in use, slot 0 holding the permanent address. *)
Definition table : list rte_ether_addr :=
  [mac x01; zero_ether_addr; mac x02; zero_ether_addr; zero_ether_addr;
   mac x05] ++ repeat zero_ether_addr 122.

Definition running : rte_eth_dev :=
  {| hw := set_num_rar_entries 128 (set_perm_addr (mac x01) fresh_hw);
     mask_misc := 0; mac_addrs := Some table;
     nb_tx_queues := 0; tx_queues := None; port_id := 0;
     dev_ops := Some txgbevf_eth_dev_ops; pci_dev := pci; trace := [] |}.

Definition two_tx_queues : rte_eth_dev :=
  {| hw := fresh_hw; mask_misc := 0; mac_addrs := None;
     nb_tx_queues := 2; tx_queues := Some [TxQueue 0; TxQueue 1];
     port_id := 0; dev_ops := None; pci_dev := pci; trace := [] |}.

(** The queue count is one more than the queues the array holds. *)
Definition three_tx_queues_counted : rte_eth_dev :=
  {| hw := fresh_hw; mask_misc := 0; mac_addrs := None;
     nb_tx_queues := 3; tx_queues := Some [TxQueue 0; TxQueue 1];
     port_id := 0; dev_ops := None; pci_dev := pci; trace := [] |}.

(** [running] after its address list was released. *)
Definition closed : rte_eth_dev :=
  {| hw := set_num_rar_entries 128 (set_perm_addr (mac x01) fresh_hw);
     mask_misc := 0x7; mac_addrs := None;
     nb_tx_queues := 0; tx_queues := None; port_id := 0;
     dev_ops := Some txgbevf_eth_dev_ops; pci_dev := pci; trace := [] |}.

End Sample.

Section Driver.

Variable K : platform.
Variable E : environment.

(** ** Collaborators *)

Definition log (lvl : log_level) (m : log_msg) : M unit := emit (Log lvl m).

Definition wr32 (reg val : Z) : M unit := emit (Wr32 reg (u32 val)).

Definition txgbe_flush : M unit := emit Flush.

(** A mailbox helper: the request goes to the PF, the exchange is traced
    and the helper's return code comes back. *)
Definition mailbox (req : mbx_req) : M Z :=
  fun d =>
    let rc := mbx_reply E (trace d) req in
    Done rc (set_trace (trace d ++ [Mbx req rc]) d).

(** Modelled from the spec: [txgbevf_negotiate_api_version] of
    [base/txgbe_vf.c] is not part of the file.  It issues one negotiation
    request for [api]; the mailbox state changes only when the request
    succeeds, and then [api] becomes the active version. *)
Definition txgbevf_negotiate_api_version (api : mbox_api) : M Z :=
  rc <- mailbox (NegotiateApi api) ;;
  (if rc =? 0 then modify_hw (set_api_version api) else ret tt) ;;;
  ret rc.

(** Modelled from the spec: [txgbevf_get_queues] asks the PF for the
    traffic-class and queue counts; the limits it may refresh in [hw->mac]
    are the environment's. *)
Definition txgbevf_get_queues : M Z :=
  lim <- gets (fun d => queue_limits E (trace d)) ;;
  rc <- mailbox GetQueues ;;
  modify_hw (refresh_queue_limits lim) ;;;
  ret rc.

Definition txgbevf_set_uc_addr_vf (index : Z) (addr : option rte_ether_addr)
  : M Z :=
  mailbox (SetUcAddr index addr).

Definition txgbe_set_rar_vf (index : Z) (addr : rte_ether_addr)
  (vmdq enable_addr : Z) : M Z :=
  mailbox (SetRarVf index addr vmdq enable_addr).

Definition txgbe_init_shared_code : M Z :=
  rc <- gets (fun d => init_shared_code_reply E (trace d)) ;;
  emit (InitSharedCode rc) ;;;
  ret rc.

Definition mbx_init_params : M unit := emit InitMbxParams.

(** Modelled from the spec: [hw->mac.reset_hw] puts the mailbox state back
    to the baseline version and leaves in [perm_addr] the address the PF
    assigned, when the environment gives one; otherwise [perm_addr] keeps
    its content.  The event records the address present after the reset. *)
Definition mac_reset_hw : M Z :=
  reply <- gets (fun d => reset_hw_reply E (trace d)) ;;
  modify_hw (set_api_version txgbe_mbox_api_10) ;;;
  modify_hw (assign_perm_addr (snd reply)) ;;;
  perm <- gets (fun d => perm_addr (hw d)) ;;
  emit (ResetHw (fst reply) perm) ;;;
  ret (fst reply).

Definition mac_start_hw : M Z :=
  rc <- gets (fun d => start_hw_reply E (trace d)) ;;
  emit (StartHw rc) ;;;
  ret rc.

(** [hw->mac.set_rar]: programs one receive address slot of the adapter.
    The call and its result are traced; the hardware abstraction keeps its
    hands off [perm_addr] and the address list, which belong to the
    driver. *)
Definition mac_set_rar (index : Z) (addr : rte_ether_addr)
  (vmdq enable_addr : Z) : M Z :=
  rc <- gets (fun d => set_rar_reply E (trace d)) ;;
  emit (SetRar index addr vmdq enable_addr rc) ;;;
  ret rc.

(** [rte_zmalloc]: a zeroed array of [size / 6] addresses, or NULL. *)
Definition rte_zmalloc (size : Z) : M (option (list rte_ether_addr)) :=
  ok <- gets (fun d => rte_zmalloc_reply E (trace d)) ;;
  emit (RteZmalloc size ok) ;;;
  ret (if ok
       then Some (repeat zero_ether_addr (Z.to_nat (size / RTE_ETHER_ADDR_LEN)))
       else None).

Definition rte_rand : M Z :=
  v <- gets (fun d => u64 (rte_rand_reply E (trace d))) ;;
  emit (RteRand v) ;;;
  ret v.

Definition txgbe_set_tx_function (txq : txgbe_tx_queue) : M unit :=
  emit (SetTxFunction txq).

Definition txgbe_set_rx_function : M unit := emit SetRxFunction.

Definition txgbe_dev_free_queues : M unit := emit FreeQueues.

(** [dev->data->mac_addrs[i] = a] *)
Definition store_mac (i : Z) (a : rte_ether_addr) : M unit :=
  tbl <- gets mac_addrs ;;
  match tbl with
  | None => undefined NullDereference
  | Some l =>
      if i <? 0 then undefined (OutOfBounds i (length l))
      else match list_store l (Z.to_nat i) a with
           | Some l' => modify (set_mac_addrs (Some l'))
           | None => undefined (OutOfBounds i (length l))
           end
  end.

(** ** API version negotiation (lines 57-74) *)

Definition sup_ver : list mbox_api :=
  [txgbe_mbox_api_13; txgbe_mbox_api_12; txgbe_mbox_api_11; txgbe_mbox_api_10].

(** The loop over the remaining candidates; [break] on the first success. *)
Fixpoint negotiate_from (candidates : list mbox_api) : M unit :=
  match candidates with
  | [] => ret tt
  | v :: rest =>
      rc <- txgbevf_negotiate_api_version v ;;
      if rc =? 0 then ret tt else negotiate_from rest
  end.

Definition txgbevf_negotiate_api : M unit := negotiate_from sup_ver.

(** ** Random address (lines 76-90) *)

(** The object representation of a [uint64_t]. *)
Definition u64_object_bytes (v : Z) : list byte :=
  let le := map (fun k => byte_of_Z (Z.shiftr v (8 * k))) [0; 1; 2; 3; 4; 5; 6; 7] in
  match RTE_BYTE_ORDER K with
  | RTE_LITTLE_ENDIAN => le
  | RTE_BIG_ENDIAN => rev le
  end.

(** The address built by lines 82-89 from the random number: all six bytes
    of [*mac_addr] are overwritten. *)
Definition random_mac_addr (random : Z) : rte_ether_addr :=
  let b0 := byte_of_Z 0x00 in
  let b1 := byte_of_Z 0x09 in
  let b2 := byte_of_Z 0xC0 in
  let b0 := byte_of_Z (Z.lor (Z_of_byte b0) (RTE_ETHER_LOCAL_ADMIN_ADDR K)) in
  let r := firstn 3 (u64_object_bytes random) in
  EtherAddr b0 b1 b2 (nth 0 r x00) (nth 1 r x00) (nth 2 r x00).

Definition generate_random_mac_addr : M rte_ether_addr :=
  random <- rte_rand ;;
  ret (random_mac_addr random).

(** ** Interrupt mask (lines 319-350) *)

(** Both functions are straight-line code over four kinds of statement.
    Their bodies are kept as the list of these statements in program order,
    which [exec] runs one after the other, so that the point of the run at
    which the mirror is stored can be told from the register traffic. *)
Inductive intr_stmt :=
| TraceStmt                          (* PMD_INIT_FUNC_TRACE(); *)
| Wr32Stmt (reg val : Z)             (* wr32(hw, reg, val); *)
| FlushStmt                          (* txgbe_flush(hw); *)
| MaskMiscStmt (val : Z).            (* intr->mask_misc = val; *)

Definition exec_stmt (s : intr_stmt) : M unit :=
  match s with
  | TraceStmt => log DEBUG FuncTrace
  | Wr32Stmt reg val => wr32 reg val
  | FlushStmt => txgbe_flush
  | MaskMiscStmt val => modify (set_mask_misc (u32 val))
  end.

Fixpoint exec (body : list intr_stmt) : M unit :=
  match body with
  | [] => ret tt
  | s :: rest => exec_stmt s ;;; exec rest
  end.

(** Lines 319-334. *)
Definition txgbevf_intr_disable_body : list intr_stmt :=
  [TraceStmt;
   Wr32Stmt (TXGBE_VFIMS K) (TXGBE_VFIMS_MASK K);
   FlushStmt;
   MaskMiscStmt (TXGBE_VFIMS_MASK K)].

Definition txgbevf_intr_disable : M unit := exec txgbevf_intr_disable_body.

(** Lines 336-350. *)
Definition txgbevf_intr_enable_body : list intr_stmt :=
  [TraceStmt;
   Wr32Stmt (TXGBE_VFIMC K) (TXGBE_VFIMC_MASK K);
   FlushStmt;
   MaskMiscStmt 0].

Definition txgbevf_intr_enable : M unit := exec txgbevf_intr_enable_body.

(** ** Address table (lines 380-469) *)

Definition txgbevf_add_mac_addr (mac_addr : rte_ether_addr) (index pool : Z)
  : M Z :=
  perm <- gets (fun d => perm_addr (hw d)) ;;
  if memcmp (addr_bytes perm) (addr_bytes mac_addr) sizeof_rte_ether_addr =? 0
  then ret (-1)
  else
    err <- txgbevf_set_uc_addr_vf 2 (Some mac_addr) ;;
    (if negb (err =? 0) then log ERR (UnableToAddMac mac_addr err) else ret tt) ;;;
    ret err.

(** The body of the replay loop for slot [i] (lines 434-456). *)
Definition replay_slot (index i : Z) : M unit :=
  if i =? index then ret tt
  else
    tbl <- gets mac_addrs ;;
    mac_addr <- load tbl i ;;
    if rte_is_zero_ether_addr mac_addr then ret tt
    else
      perm <- gets (fun d => perm_addr (hw d)) ;;
      if memcmp (addr_bytes perm) (addr_bytes mac_addr) sizeof_rte_ether_addr =? 0
      then ret tt
      else
        err <- txgbevf_set_uc_addr_vf 2 (Some mac_addr) ;;
        if negb (err =? 0) then log ERR (AddingAgainFailed mac_addr err)
        else ret tt.

Definition txgbevf_remove_mac_addr (index : Z) : M unit :=
  _ <- txgbevf_set_uc_addr_vf 0 None ;;
  n <- gets (fun d => num_rar_entries (hw d)) ;;
  for_loop (Z.to_nat n) 0 (replay_slot index).

Definition txgbevf_set_default_mac_addr (addr : rte_ether_addr) : M Z :=
  _ <- mac_set_rar 0 addr 0 0 ;;
  ret 0.

(** ** Device init (lines 95-227) *)

(** Lines 113-131: a secondary process only selects the data-path
    functions. *)
Definition init_secondary : M Z :=
  nb <- gets nb_tx_queues ;;
  txqs <- gets tx_queues ;;
  match txqs with
  | Some _ =>
      txq <- load txqs (nb - 1) ;;
      txgbe_set_tx_function txq
  | None => log NOTICE NoTxQueuesConfigured
  end ;;;
  txgbe_set_rx_function ;;;
  ret 0.

(** Lines 210-226: publish the permanent address and start the hardware. *)
Definition init_start : M Z :=
  perm <- gets (fun d => perm_addr (hw d)) ;;
  store_mac 0 perm ;;;
  err <- mac_start_hw ;;
  if negb (err =? 0) then
    log ERR (VfInitializationFailure err) ;;;
    ret (- EIO K)
  else
    txgbevf_intr_enable ;;;
    port <- gets port_id ;;
    pci <- gets pci_dev ;;
    log DEBUG (PortDescription port (pci_vendor_id pci) (pci_device_id pci)) ;;;
    ret 0.

(** Lines 190-208: a random permanent address when the PF assigned none. *)
Definition init_resolve_address : M Z :=
  perm <- gets (fun d => perm_addr (hw d)) ;;
  if rte_is_zero_ether_addr perm then
    new <- generate_random_mac_addr ;;
    modify_hw (set_perm_addr new) ;;;
    err <- txgbe_set_rar_vf 1 new 0 1 ;;
    if negb (err =? 0) then
      emit RteFree ;;;
      modify (set_mac_addrs None) ;;;
      ret err
    else
      log INFO MacNotAssignedByPf ;;;
      log INFO (AssignRandomMac new) ;;;
      init_start
  else init_start.

(** Lines 173-188: negotiation, queue counts, address table allocation. *)
Definition init_after_reset : M Z :=
  txgbevf_negotiate_api ;;;
  _ <- txgbevf_get_queues ;;
  n <- gets (fun d => num_rar_entries (hw d)) ;;
  tbl <- rte_zmalloc (u32 (RTE_ETHER_ADDR_LEN * n)) ;;
  modify (set_mac_addrs tbl) ;;;
  match tbl with
  | None =>
      log ERR (MacAllocFailed (u32 (RTE_ETHER_ADDR_LEN * n))) ;;;
      ret (- ENOMEM K)
  | Some _ => init_resolve_address
  end.

(** Lines 133-171: identity, shared code, mailbox, reset. *)
Definition init_primary : M Z :=
  pci <- gets pci_dev ;;
  emit CopyPciInfo ;;;
  modify_hw (set_identity pci) ;;;
  err <- txgbe_init_shared_code ;;
  if negb (err =? 0) then
    log ERR (SharedCodeInitFailed err) ;;;
    ret (- EIO K)
  else
    mbx_init_params ;;;
    txgbevf_intr_disable ;;;
    modify_hw (set_num_rar_entries 128) ;;;
    err <- mac_reset_hw ;;
    if negb (err =? 0) && negb (err =? TXGBE_ERR_INVALID_MAC_ADDR K) then
      log ERR (VfInitializationFailure err) ;;;
      ret (- EAGAIN K)
    else init_after_reset.

Definition eth_txgbevf_dev_init : M Z :=
  log DEBUG FuncTrace ;;;
  modify (set_dev_ops (Some txgbevf_eth_dev_ops)) ;;;
  match rte_eal_process_type E with
  | RTE_PROC_PRIMARY => init_primary
  | RTE_PROC_SECONDARY => init_secondary
  end.

(** ** Device close (lines 352-378) *)

Definition txgbevf_dev_close : M Z :=
  log DEBUG FuncTrace ;;;
  match rte_eal_process_type E with
  | RTE_PROC_SECONDARY => ret 0
  | RTE_PROC_PRIMARY =>
      _ <- mac_reset_hw ;;
      txgbe_dev_free_queues ;;;
      txgbevf_remove_mac_addr 0 ;;;
      txgbevf_intr_disable ;;;
      emit RteFree ;;;
      modify (set_mac_addrs None) ;;;
      ret 0
  end.

(** ** Capability report (lines 265-314) *)

Definition rx_desc_lim : rte_eth_desc_lim :=
  {| nb_max := u16 (TXGBE_RING_DESC_MAX K);
     nb_min := u16 (TXGBE_RING_DESC_MIN K);
     nb_align := u16 (TXGBE_RXD_ALIGN K);
     nb_seg_max := 0;
     nb_mtu_seg_max := 0 |}.

Definition tx_desc_lim : rte_eth_desc_lim :=
  {| nb_max := u16 (TXGBE_RING_DESC_MAX K);
     nb_min := u16 (TXGBE_RING_DESC_MIN K);
     nb_align := u16 (TXGBE_TXD_ALIGN K);
     nb_seg_max := u16 (TXGBE_TX_MAX_SEG K);
     nb_mtu_seg_max := u16 (TXGBE_TX_MAX_SEG K) |}.

Definition txgbevf_dev_info_get : M (Z * rte_eth_dev_info) :=
  pci <- gets pci_dev ;;
  h <- gets hw ;;
  rxq <- gets (txgbe_get_rx_queue_offloads E) ;;
  rxp <- gets (txgbe_get_rx_port_offloads E) ;;
  txq <- gets (txgbe_get_tx_queue_offloads E) ;;
  txp <- gets (txgbe_get_tx_port_offloads E) ;;
  ret (0,
       {| info_max_rx_queues := u16 (max_rx_queues h);
          info_max_tx_queues := u16 (max_tx_queues h);
          min_rx_bufsize := 1024;
          max_rx_pktlen := u32 (TXGBE_FRAME_SIZE_MAX K);
          max_mac_addrs := num_rar_entries h;
          max_hash_mac_addrs := u32 (TXGBE_VMDQ_NUM_UC_MAC K);
          max_vfs := pci_max_vfs pci;
          max_vmdq_pools := u16 (ETH_64_POOLS K);
          rx_queue_offload_capa := rxq;
          rx_offload_capa := Z.lor rxp rxq;
          tx_queue_offload_capa := txq;
          tx_offload_capa := txp;
          hash_key_size := u8 (TXGBE_HKEY_MAX_INDEX K * 4);
          reta_size := u16 (ETH_RSS_RETA_SIZE_128 K);
          flow_type_rss_offloads := u64 (TXGBE_RSS_OFFLOAD_ALL K);
          default_rxconf :=
            {| rx_thresh :=
                 {| pthresh := u8 (TXGBE_DEFAULT_RX_PTHRESH K);
                    hthresh := u8 (TXGBE_DEFAULT_RX_HTHRESH K);
                    wthresh := u8 (TXGBE_DEFAULT_RX_WTHRESH K) |};
               rx_free_thresh := u16 (TXGBE_DEFAULT_RX_FREE_THRESH K);
               rx_drop_en := 0;
               rx_deferred_start := 0;
               rx_offloads := 0 |};
          default_txconf :=
            {| tx_thresh :=
                 {| pthresh := u8 (TXGBE_DEFAULT_TX_PTHRESH K);
                    hthresh := u8 (TXGBE_DEFAULT_TX_HTHRESH K);
                    wthresh := u8 (TXGBE_DEFAULT_TX_WTHRESH K) |};
               tx_rs_thresh := 0;
               tx_free_thresh := u16 (TXGBE_DEFAULT_TX_FREE_THRESH K);
               tx_deferred_start := 0;
               tx_offloads := 0 |};
          info_rx_desc_lim := rx_desc_lim;
          info_tx_desc_lim := tx_desc_lim |}).

(** ** Views of a run used by the statements *)

(** Events an add leaves behind: the exchange, and a log line on failure. *)
Definition add_events (a : rte_ether_addr) (rc : Z) : list event :=
  Mbx (add_unicast a) rc ::
  (if negb (rc =? 0) then [Log ERR (UnableToAddMac a rc)] else []).

(** Is slot [i], holding [a], submitted again when [index] is removed? *)
Definition replays (perm : rte_ether_addr) (index i : Z) (a : rte_ether_addr)
  : bool :=
  negb (i =? index)
  && negb (rte_is_zero_ether_addr a)
  && negb (memcmp (addr_bytes perm) (addr_bytes a) sizeof_rte_ether_addr =? 0).

(** The slots of [l], numbered from [i], that a removal of [index] submits
    again, in table order. *)
Fixpoint replayed_from (perm : rte_ether_addr) (index i : Z)
  (l : list rte_ether_addr) : list (Z * rte_ether_addr) :=
  match l with
  | [] => []
  | a :: t =>
      (if replays perm index i a then [(i, a)] else [])
      ++ replayed_from perm index (i + 1) t
  end.

(** Element [j] of the table, as the C expression [mac_addrs[j]] reads it
    when [j] is in range. *)
Definition slot (tbl : list rte_ether_addr) (j : Z) : rte_ether_addr :=
  nth (Z.to_nat j) tbl zero_ether_addr.

(** The events of a negotiation that tried the candidates of [tried], each
    paired with the code its request returned. *)
Definition negotiation_events (tried : list (mbox_api * Z)) : list event :=
  map (fun p => Mbx (NegotiateApi (fst p)) (snd p)) tried.

(** The two operations of the interrupt mask controller, and runs of them. *)
Inductive intr_op := IntrDisable | IntrEnable.

Definition run_intr_op (op : intr_op) : M unit :=
  match op with
  | IntrDisable => txgbevf_intr_disable
  | IntrEnable => txgbevf_intr_enable
  end.

Fixpoint run_intr_ops (ops : list intr_op) : M unit :=
  match ops with
  | [] => ret tt
  | op :: rest => run_intr_op op ;;; run_intr_ops rest
  end.

(** The mirror an operation leaves. *)
Definition implied_mask (op : intr_op) : Z :=
  match op with
  | IntrDisable => u32 (TXGBE_VFIMS_MASK K)
  | IntrEnable => 0
  end.

Definition intr_disable_events : list event :=
  [Log DEBUG FuncTrace; Wr32 (TXGBE_VFIMS K) (u32 (TXGBE_VFIMS_MASK K)); Flush].

Definition intr_enable_events : list event :=
  [Log DEBUG FuncTrace; Wr32 (TXGBE_VFIMC K) (u32 (TXGBE_VFIMC_MASK K)); Flush].

(** *** The run of the primary init, as a function of the answers

    [rc0] is the code of the shared-code init, [rc1] that of the reset and
    [perm] the permanent address present after it, [tried] the negotiation
    attempts, [rcq] the code of the queue query, [ok] whether the allocation
    succeeded, [v] the random number, [rc2] the code of the installation of
    the random address and [rc3] that of the hardware start. *)

Definition reset_failed (rc : Z) : bool :=
  negb (rc =? 0) && negb (rc =? TXGBE_ERR_INVALID_MAC_ADDR K).

Definition table_bytes : Z := u32 (RTE_ETHER_ADDR_LEN * 128).

Definition start_events (d : rte_eth_dev) (rc3 : Z) : list event :=
  StartHw rc3 ::
  (if negb (rc3 =? 0) then [Log ERR (VfInitializationFailure rc3)]
   else intr_enable_events
        ++ [Log DEBUG (PortDescription (port_id d) (pci_vendor_id (pci_dev d))
                         (pci_device_id (pci_dev d)))]).

Definition start_result (rc3 : Z) : Z :=
  if negb (rc3 =? 0) then - EIO K else 0.

Definition resolve_events (d : rte_eth_dev) (perm : rte_ether_addr)
  (v rc2 rc3 : Z) : list event :=
  if rte_is_zero_ether_addr perm then
    RteRand v ::
    Mbx (SetRarVf 1 (random_mac_addr v) 0 1) rc2 ::
    (if negb (rc2 =? 0) then [RteFree]
     else Log INFO MacNotAssignedByPf ::
          Log INFO (AssignRandomMac (random_mac_addr v)) ::
          start_events d rc3)
  else start_events d rc3.

Definition resolve_result (perm : rte_ether_addr) (rc2 rc3 : Z) : Z :=
  if rte_is_zero_ether_addr perm && negb (rc2 =? 0) then rc2
  else start_result rc3.

Definition resolve_perm (perm : rte_ether_addr) (v : Z) : rte_ether_addr :=
  if rte_is_zero_ether_addr perm then random_mac_addr v else perm.

Definition resolve_table (perm : rte_ether_addr) (v rc2 : Z)
  : option (list rte_ether_addr) :=
  if rte_is_zero_ether_addr perm && negb (rc2 =? 0) then None
  else Some (resolve_perm perm v :: repeat zero_ether_addr 127).

Definition after_reset_events (d : rte_eth_dev) (perm : rte_ether_addr)
  (tried : list (mbox_api * Z)) (rcq : Z) (ok : bool) (v rc2 rc3 : Z)
  : list event :=
  negotiation_events tried
  ++ Mbx GetQueues rcq :: RteZmalloc table_bytes ok ::
     (if ok then resolve_events d perm v rc2 rc3
      else [Log ERR (MacAllocFailed table_bytes)]).

Definition after_reset_result (perm : rte_ether_addr) (ok : bool)
  (rc2 rc3 : Z) : Z :=
  if ok then resolve_result perm rc2 rc3 else - ENOMEM K.

Definition primary_events (d : rte_eth_dev) (rc0 rc1 : Z)
  (perm : rte_ether_addr) (tried : list (mbox_api * Z)) (rcq : Z) (ok : bool)
  (v rc2 rc3 : Z) : list event :=
  CopyPciInfo :: InitSharedCode rc0 ::
  (if negb (rc0 =? 0) then [Log ERR (SharedCodeInitFailed rc0)]
   else InitMbxParams ::
        intr_disable_events
        ++ ResetHw rc1 perm ::
           (if reset_failed rc1 then [Log ERR (VfInitializationFailure rc1)]
            else after_reset_events d perm tried rcq ok v rc2 rc3)).

Definition primary_result (rc0 rc1 : Z) (perm : rte_ether_addr) (ok : bool)
  (rc2 rc3 : Z) : Z :=
  if negb (rc0 =? 0) then - EIO K
  else if reset_failed rc1 then - EAGAIN K
  else after_reset_result perm ok rc2 rc3.

(** Did the run get as far as resolving the permanent address? *)
Definition reaches_resolve (rc0 rc1 : Z) (ok : bool) : bool :=
  negb (negb (rc0 =? 0)) && negb (reset_failed rc1) && ok.

(** *** Further views: replay events, the operations table, uninit *)

(** The events of one slot submitted again: the exchange, and a log line
    when the PF refused it (lines 444-456). *)
Definition readd_events (a : rte_ether_addr) (rc : Z) : list event :=
  Mbx (add_unicast a) rc ::
  (if negb (rc =? 0) then [Log ERR (AddingAgainFailed a rc)] else []).

Definition replay_events (answers : list (rte_ether_addr * Z)) : list event :=
  flat_map (fun p => readd_events (fst p) (snd p)) answers.

(** A call through [txgbevf_eth_dev_ops] (lines 475-482), for the entries
    this file implements. *)
Inductive eth_dev_call :=
| dev_infos_get
| mac_addr_add (mac_addr : rte_ether_addr) (index pool : Z)
| mac_addr_remove (index : Z)
| mac_addr_set (addr : rte_ether_addr).

Definition dispatch (c : eth_dev_call) : M unit :=
  match c with
  | dev_infos_get => _ <- txgbevf_dev_info_get ;; ret tt
  | mac_addr_add a index pool => _ <- txgbevf_add_mac_addr a index pool ;; ret tt
  | mac_addr_remove index => txgbevf_remove_mac_addr index
  | mac_addr_set a => _ <- txgbevf_set_default_mac_addr a ;; ret tt
  end.

Fixpoint dispatch_all (calls : list eth_dev_call) : M unit :=
  match calls with
  | [] => ret tt
  | c :: rest => dispatch c ;;; dispatch_all rest
  end.

(** Device uninit (lines 230-241). *)
Definition eth_txgbevf_dev_uninit : M Z :=
  log DEBUG FuncTrace ;;;
  match rte_eal_process_type E with
  | RTE_PROC_SECONDARY => ret 0
  | RTE_PROC_PRIMARY =>
      _ <- txgbevf_dev_close ;;
      ret 0
  end.

(** Events that calls through the operations table may leave: unicast
    mailbox requests, the slot primitive, and the two error log lines. *)
Definition table_call_event (e : event) : bool :=
  match e with
  | Mbx (SetUcAddr _ _) _ => true
  | SetRar _ _ _ _ _ => true
  | Log ERR (UnableToAddMac _ _) => true
  | Log ERR (AddingAgainFailed _ _) => true
  | _ => false
  end.

(** *** The state a primary init ends in, as a function of the answers *)

(** The mask mirror: untouched when the shared-code init failed, cleared
    when the hardware start succeeded, the full mask otherwise. *)
Definition primary_mask (d : rte_eth_dev) (rc0 rc1 : Z)
  (perm : rte_ether_addr) (ok : bool) (rc2 rc3 : Z) : Z :=
  if negb (rc0 =? 0) then mask_misc d
  else if reset_failed rc1 then u32 (TXGBE_VFIMS_MASK K)
  else if ok then
    if rte_is_zero_ether_addr perm && negb (rc2 =? 0)
    then u32 (TXGBE_VFIMS_MASK K)
    else if negb (rc3 =? 0) then u32 (TXGBE_VFIMS_MASK K) else 0
  else u32 (TXGBE_VFIMS_MASK K).

(** The address list pointer. *)
Definition primary_table (d : rte_eth_dev) (rc0 rc1 : Z)
  (perm : rte_ether_addr) (ok : bool) (v rc2 : Z)
  : option (list rte_ether_addr) :=
  if negb (rc0 =? 0) then mac_addrs d
  else if reset_failed rc1 then mac_addrs d
  else if ok then resolve_table perm v rc2
  else None.

(** The register accesses among a list of events, in order. *)
Definition register_events (evs : list event) : list event :=
  filter (fun e => match e with
                   | Wr32 _ _ | Flush => true
                   | _ => false
                   end) evs.

(** ** Properties *)

Arguments memcmp : simpl never.
Arguments rte_is_zero_ether_addr : simpl never.

(** [memcmp] over two addresses is an equality test. *)
Lemma memcmp_ether_addr (a b : rte_ether_addr) :
  memcmp (addr_bytes a) (addr_bytes b) sizeof_rte_ether_addr = 0 <-> a = b.
Proof.
  destruct a as [a0 a1 a2 a3 a4 a5], b as [b0 b1 b2 b3 b4 b5].
  unfold addr_bytes, sizeof_rte_ether_addr, memcmp; simpl.
  split.
  - repeat match goal with
           | |- context [Byte.eqb ?x ?y] =>
               destruct (Byte.eqb x y) eqn:?
           | |- context [?x <? ?y] => destruct (x <? y)
           end; try discriminate.
    intros _.
    repeat match goal with
           | H : Byte.eqb _ _ = true |- _ => apply Byte.byte_dec_bl in H
           end.
    congruence.
  - intros H; injection H as -> -> -> -> -> ->.
    rewrite !Byte.byte_dec_lb by reflexivity. reflexivity.
Qed.

Lemma memcmp_ether_addr_eqb (a b : rte_ether_addr) :
  (memcmp (addr_bytes a) (addr_bytes b) sizeof_rte_ether_addr =? 0) = true
  <-> a = b.
Proof. rewrite Z.eqb_eq. apply memcmp_ether_addr. Qed.

Lemma memcmp_ether_addr_neqb (a b : rte_ether_addr) :
  (memcmp (addr_bytes a) (addr_bytes b) sizeof_rte_ether_addr =? 0) = false
  <-> a <> b.
Proof. rewrite Z.eqb_neq, memcmp_ether_addr. tauto. Qed.

Lemma set_trace_same (d : rte_eth_dev) : set_trace (trace d) d = d.
Proof. destruct d; reflexivity. Qed.

Lemma set_trace_nil (d : rte_eth_dev) : set_trace (trace d ++ []) d = d.
Proof. rewrite app_nil_r. apply set_trace_same. Qed.

Lemma set_trace_app (e1 e2 : list event) (d : rte_eth_dev) :
  set_trace (trace (set_trace (trace d ++ e1) d) ++ e2)
            (set_trace (trace d ++ e1) d)
  = set_trace (trace d ++ e1 ++ e2) d.
Proof. unfold set_trace; simpl. now rewrite app_assoc. Qed.

Lemma mbx_requests_app (e1 e2 : list event) :
  mbx_requests (e1 ++ e2) = mbx_requests e1 ++ mbx_requests e2.
Proof.
  induction e1 as [|e e1 IH]; simpl; [reflexivity|].
  destruct e; simpl; now rewrite ?IH.
Qed.

Lemma mbx_requests_add_events (a : rte_ether_addr) (rc : Z) :
  mbx_requests (add_events a rc) = [add_unicast a].
Proof. unfold add_events; simpl. now destruct (rc =? 0). Qed.

Lemma add_mac_addr_perm (index pool : Z) (d : rte_eth_dev) :
  txgbevf_add_mac_addr (perm_addr (hw d)) index pool d = Done (-1) d.
Proof.
  unfold txgbevf_add_mac_addr, bind, gets.
  now rewrite (proj2 (memcmp_ether_addr_eqb _ _) eq_refl).
Qed.

Lemma add_mac_addr_other (mac_addr : rte_ether_addr) (index pool : Z)
  (d : rte_eth_dev) :
  mac_addr <> perm_addr (hw d) ->
  txgbevf_add_mac_addr mac_addr index pool d
  = Done (mbx_reply E (trace d) (add_unicast mac_addr))
      (set_trace
         (trace d
          ++ add_events mac_addr (mbx_reply E (trace d) (add_unicast mac_addr)))
         d).
Proof.
  intros Hne.
  unfold txgbevf_add_mac_addr, bind, gets.
  rewrite (proj2 (memcmp_ether_addr_neqb (perm_addr (hw d)) mac_addr))
    by congruence.
  unfold txgbevf_set_uc_addr_vf, mailbox, add_events, log, emit, modify, ret.
  fold (add_unicast mac_addr).
  destruct (mbx_reply E (trace d) (add_unicast mac_addr) =? 0); simpl;
    unfold set_trace; simpl; rewrite <- ?app_assoc; reflexivity.
Qed.

(** C3 (add): adding the permanent address is rejected with -1 without any
    mailbox request and without any change of state; adding any other
    address issues exactly one add-unicast request and returns the code
    that request gave (0 or the error), the device being changed by nothing
    but the traced exchange and, on failure, a log line.  The address table
    is not consulted: the statement holds whatever [mac_addrs d] contains. *)
Theorem add_mac_addr_result (mac_addr : rte_ether_addr) (index pool : Z)
  (d : rte_eth_dev) :
  (mac_addr = perm_addr (hw d) ->
   txgbevf_add_mac_addr mac_addr index pool d = Done (-1) d) /\
  (mac_addr <> perm_addr (hw d) ->
   let rc := mbx_reply E (trace d) (add_unicast mac_addr) in
   txgbevf_add_mac_addr mac_addr index pool d
   = Done rc (set_trace (trace d ++ add_events mac_addr rc) d) /\
   mbx_requests (add_events mac_addr rc) = [add_unicast mac_addr]).
Proof.
  split.
  - intros ->. apply add_mac_addr_perm.
  - intros Hne rc. split.
    + now apply add_mac_addr_other.
    + apply mbx_requests_add_events.
Qed.

Lemma replay_slot_run (index i : Z) (d : rte_eth_dev)
  (tbl : list rte_ether_addr) (a : rte_ether_addr) :
  mac_addrs d = Some tbl ->
  0 <= i ->
  nth_error tbl (Z.to_nat i) = Some a ->
  exists ev,
    replay_slot index i d = Done tt (set_trace (trace d ++ ev) d) /\
    mbx_requests ev
    = if replays (perm_addr (hw d)) index i a then [add_unicast a] else [].
Proof.
  intros Htbl Hi Hnth.
  unfold replay_slot, replays.
  destruct (i =? index) eqn:Hidx; simpl.
  - exists []. now rewrite set_trace_nil.
  - unfold bind at 1. unfold gets at 1. rewrite Htbl.
    unfold bind at 1. unfold load.
    destruct (i <? 0) eqn:Hneg; [apply Z.ltb_lt in Hneg; lia|].
    rewrite Hnth. unfold ret at 1.
    destruct (rte_is_zero_ether_addr a); simpl.
    + exists []. now rewrite set_trace_nil.
    + unfold bind at 1. unfold gets at 1.
      destruct (memcmp _ _ _ =? 0); simpl.
      * exists []. now rewrite set_trace_nil.
      * unfold bind, txgbevf_set_uc_addr_vf, mailbox.
        fold (add_unicast a).
        set (rc := mbx_reply E (trace d) (add_unicast a)).
        destruct (rc =? 0); simpl.
        -- exists [Mbx (add_unicast a) rc]. split; reflexivity.
        -- exists [Mbx (add_unicast a) rc; Log ERR (AddingAgainFailed a rc)].
           split; [|reflexivity].
           unfold log, emit, modify, set_trace; simpl.
           now rewrite <- app_assoc.
Qed.

Lemma replay_loop_run (index : Z) (l pre : list rte_ether_addr) :
  forall d : rte_eth_dev,
    mac_addrs d = Some (pre ++ l) ->
    exists ev,
      for_loop (length l) (Z.of_nat (length pre)) (replay_slot index) d
      = Done tt (set_trace (trace d ++ ev) d) /\
      mbx_requests ev
      = map (fun p => add_unicast (snd p))
            (replayed_from (perm_addr (hw d)) index (Z.of_nat (length pre)) l).
Proof.
  revert pre. induction l as [|a t IH]; intros pre d Htbl.
  - exists []. simpl. split; [now rewrite set_trace_nil | reflexivity].
  - simpl for_loop. unfold bind.
    destruct (@replay_slot_run index (Z.of_nat (length pre)) d (pre ++ a :: t) a)
      as (ev1 & Hrun & Hreq); trivial; [lia | |].
    { rewrite Nat2Z.id, nth_error_app2, Nat.sub_diag by lia. reflexivity. }
    rewrite Hrun.
    set (d1 := set_trace (trace d ++ ev1) d).
    destruct (IH (pre ++ [a]) d1) as (ev2 & Hrun2 & Hreq2).
    { subst d1; simpl. rewrite Htbl, <- app_assoc. reflexivity. }
    rewrite length_app in Hrun2, Hreq2; simpl length in Hrun2, Hreq2.
    replace (Z.of_nat (length pre + 1)) with (Z.of_nat (length pre) + 1)
      in Hrun2, Hreq2 by lia.
    rewrite Hrun2. exists (ev1 ++ ev2). split.
    + subst d1. now rewrite set_trace_app.
    + rewrite mbx_requests_app, Hreq, Hreq2. simpl replayed_from.
      rewrite map_app. subst d1; simpl.
      now destruct (replays _ _ _ _).
Qed.

Lemma replayed_from_in (perm : rte_ether_addr) (index : Z)
  (l : list rte_ether_addr) :
  forall (i j : Z) (a : rte_ether_addr),
    In (j, a) (replayed_from perm index i l) <->
    i <= j /\ nth_error l (Z.to_nat (j - i)) = Some a /\
    replays perm index j a = true.
Proof.
  induction l as [|b t IH]; intros i j a; simpl.
  - split; [tauto|]. intros (_ & H & _). now destruct (Z.to_nat (j - i)).
  - rewrite in_app_iff, IH. split.
    + intros [H | (Hle & Hnth & Hrep)].
      * destruct (replays perm index i b) eqn:Hrep; [|destruct H].
        destruct H as [H|[]]; injection H as <- <-.
        rewrite Z.sub_diag. simpl. auto with zarith.
      * split; [lia|]. split; [|assumption].
        replace (Z.to_nat (j - i)) with (S (Z.to_nat (j - (i + 1)))) by lia.
        assumption.
    + intros (Hle & Hnth & Hrep).
      destruct (Z.eq_dec i j) as [<-|Hne].
      * left. rewrite Z.sub_diag in Hnth; simpl in Hnth.
        injection Hnth as ->. rewrite Hrep. now left.
      * right. split; [lia|]. split; [|assumption].
        replace (Z.to_nat (j - i)) with (S (Z.to_nat (j - (i + 1)))) in Hnth
          by lia.
        assumption.
Qed.

Lemma replayed_from_sorted (perm : rte_ether_addr) (index : Z)
  (l : list rte_ether_addr) :
  forall i : Z,
    StronglySorted Z.lt (map fst (replayed_from perm index i l)).
Proof.
  induction l as [|b t IH]; intros i; simpl; [constructor|].
  assert (Hlater : Forall (Z.lt i) (map fst (replayed_from perm index (i + 1) t))).
  { apply Forall_forall. intros j Hj. apply in_map_iff in Hj.
    destruct Hj as ([j' a] & <- & Hin). apply replayed_from_in in Hin.
    simpl. lia. }
  destruct (replays perm index i b); simpl; [constructor|]; auto.
Qed.

Lemma replays_true (perm : rte_ether_addr) (index i : Z) (a : rte_ether_addr) :
  replays perm index i a = true <->
  i <> index /\ rte_is_zero_ether_addr a = false /\ a <> perm.
Proof.
  unfold replays. rewrite !andb_true_iff, !negb_true_iff, Z.eqb_neq.
  rewrite memcmp_ether_addr_neqb. intuition congruence.
Qed.

Lemma replayed_from_slot (perm : rte_ether_addr) (index : Z)
  (tbl : list rte_ether_addr) :
  map (fun p => add_unicast (snd p)) (replayed_from perm index 0 tbl)
  = map (fun j => add_unicast (slot tbl j))
        (map fst (replayed_from perm index 0 tbl)).
Proof.
  rewrite map_map. apply map_ext_in. intros [j a] Hin.
  apply replayed_from_in in Hin. destruct Hin as (Hle & Hnth & _).
  rewrite Z.sub_0_r in Hnth. simpl. unfold slot.
  now rewrite (nth_error_nth _ _ _ Hnth).
Qed.

Lemma replayed_slots (perm : rte_ether_addr) (index : Z)
  (tbl : list rte_ether_addr) (j : Z) :
  In j (map fst (replayed_from perm index 0 tbl)) <->
  0 <= j < Z.of_nat (length tbl) /\ j <> index /\
  rte_is_zero_ether_addr (slot tbl j) = false /\
  slot tbl j <> perm.
Proof.
  rewrite in_map_iff. split.
  - intros ([j' a] & <- & Hin). simpl.
    apply replayed_from_in in Hin. destruct Hin as (Hle & Hnth & Hrep).
    rewrite Z.sub_0_r in Hnth. apply replays_true in Hrep.
    assert (Hlt : (Z.to_nat j' < length tbl)%nat)
      by (apply nth_error_Some; congruence).
    unfold slot. rewrite (nth_error_nth _ _ _ Hnth).
    repeat split; try tauto; lia.
  - intros (Hrange & Hne & Hnz & Hperm).
    exists (j, slot tbl j). split; [reflexivity|].
    apply replayed_from_in. rewrite Z.sub_0_r.
    split; [lia|]. split; [|apply replays_true; auto].
    unfold slot. apply nth_error_nth'. lia.
Qed.

Lemma remove_mac_addr_run (index : Z) (d : rte_eth_dev)
  (tbl : list rte_ether_addr) :
  mac_addrs d = Some tbl ->
  Z.of_nat (length tbl) = num_rar_entries (hw d) ->
  exists ev : list event,
    txgbevf_remove_mac_addr index d
    = Done tt
        (set_trace
           (trace d
            ++ Mbx clear_all_unicast (mbx_reply E (trace d) clear_all_unicast)
            :: ev) d) /\
    mbx_requests ev
    = map (fun j => add_unicast (slot tbl j))
          (map fst (replayed_from (perm_addr (hw d)) index 0 tbl)).
Proof.
  intros Htbl Hlen.
  set (rc := mbx_reply E (trace d) clear_all_unicast).
  set (d1 := set_trace (trace d ++ [Mbx clear_all_unicast rc]) d).
  destruct (@replay_loop_run index tbl [] d1) as (ev & Hrun & Hreq);
    [exact Htbl|].
  simpl in Hrun, Hreq.
  exists ev. split.
  - unfold txgbevf_remove_mac_addr, bind, txgbevf_set_uc_addr_vf, mailbox, gets.
    fold clear_all_unicast. fold rc. fold d1.
    replace (num_rar_entries (hw d1)) with (num_rar_entries (hw d))
      by reflexivity.
    rewrite <- Hlen, Nat2Z.id, Hrun. subst d1.
    unfold set_trace; simpl. now rewrite <- app_assoc.
  - rewrite Hreq. apply replayed_from_slot.
Qed.

(** C1 (remove): on a table of [num_rar_entries] slots, a removal of
    [index] never faults and changes only the trace.  Its first event is
    one clear-all request, whose return code [rc] plays no further role;
    the mailbox requests that follow are add-unicast requests for the
    slots listed in [slots], a strictly increasing list of positions (so
    every slot is submitted once, in table order) that contains [j] exactly
    when slot [j] is in the table, is not [index], holds a non-zero address
    and that address differs from the permanent one.  Hence neither the
    permanent address nor slot [index] is submitted again, whatever the
    mailbox answers. *)
Theorem remove_mac_addr_replay (index : Z) (d : rte_eth_dev)
  (tbl : list rte_ether_addr) :
  mac_addrs d = Some tbl ->
  Z.of_nat (length tbl) = num_rar_entries (hw d) ->
  exists (ev : list event) (slots : list Z),
    txgbevf_remove_mac_addr index d
    = Done tt
        (set_trace
           (trace d
            ++ Mbx clear_all_unicast (mbx_reply E (trace d) clear_all_unicast)
            :: ev) d) /\
    mbx_requests ev = map (fun j => add_unicast (slot tbl j)) slots /\
    StronglySorted Z.lt slots /\
    (forall j : Z,
        In j slots <->
        0 <= j < Z.of_nat (length tbl) /\ j <> index /\
        rte_is_zero_ether_addr (slot tbl j) = false /\
        slot tbl j <> perm_addr (hw d)) /\
    ~ In index slots /\
    ~ In (add_unicast (perm_addr (hw d))) (mbx_requests ev) /\
    ~ In clear_all_unicast (mbx_requests ev).
Proof.
  intros Htbl Hlen.
  destruct (remove_mac_addr_run index d Htbl Hlen) as (ev & Hrun & Hreq).
  exists ev, (map fst (replayed_from (perm_addr (hw d)) index 0 tbl)).
  split; [exact Hrun|]. split; [exact Hreq|].
  split; [apply replayed_from_sorted|].
  split; [apply replayed_slots|].
  split; [rewrite replayed_slots; tauto|]. split.
  - rewrite Hreq, in_map_iff.
    intros (j & Heq & Hin). apply replayed_slots in Hin.
    injection Heq as Heq. tauto.
  - rewrite Hreq, in_map_iff. intros (p & Heq & _). discriminate.
Qed.

Lemma negotiate_from_run (candidates : list mbox_api) :
  forall d : rte_eth_dev,
  exists tried : list (mbox_api * Z),
    (exists rest, candidates = map fst tried ++ rest) /\
    (forall k v rc,
        nth_error tried k = Some (v, rc) ->
        rc = mbx_reply E (trace d ++ negotiation_events (firstn k tried))
               (NegotiateApi v)) /\
    ((exists failed v,
         tried = failed ++ [(v, 0)] /\
         Forall (fun p => snd p <> 0) failed /\
         negotiate_from candidates d
         = Done tt (set_trace (trace d ++ negotiation_events tried)
                      (set_hw (set_api_version v (hw d)) d)))
     \/
     (map fst tried = candidates /\
      Forall (fun p => snd p <> 0) tried /\
      negotiate_from candidates d
      = Done tt (set_trace (trace d ++ negotiation_events tried) d))).
Proof.
  induction candidates as [|v rest IH]; intros d.
  - exists []. split; [now exists []|]. split.
    { intros [|k] w rc H; discriminate H. }
    right. simpl. unfold ret. now rewrite set_trace_nil.
  - set (rc := mbx_reply E (trace d) (NegotiateApi v)).
    set (d1 := set_trace (trace d ++ [Mbx (NegotiateApi v) rc]) d).
    assert (Hstep : negotiate_from (v :: rest) d
                    = if rc =? 0
                      then Done tt (set_hw (set_api_version v (hw d)) d1)
                      else negotiate_from rest d1).
    { subst d1 rc. simpl.
      unfold bind, txgbevf_negotiate_api_version, bind, mailbox.
      destruct (mbx_reply E (trace d) (NegotiateApi v) =? 0) eqn:H0;
        unfold modify_hw, modify, ret; simpl; rewrite H0; reflexivity. }
    destruct (rc =? 0) eqn:Hrc.
    + apply Z.eqb_eq in Hrc.
      exists [(v, rc)]. split; [now exists rest|]. split.
      { intros [|[|k]] w rc' H; try discriminate H.
        injection H as <- <-. simpl. now rewrite app_nil_r. }
      left. exists [], v. rewrite Hrc at 1. repeat split; [constructor|].
      rewrite Hstep. reflexivity.
    + apply Z.eqb_neq in Hrc.
      destruct (IH d1) as (tried & (rest' & Hpre) & Hans & Hcases).
      exists ((v, rc) :: tried). split.
      { exists rest'. simpl. now rewrite Hpre. }
      split.
      { intros [|k] w rc' H.
        - injection H as <- <-. simpl. now rewrite app_nil_r.
        - simpl in H. apply Hans in H. rewrite H. subst d1. simpl.
          now rewrite <- app_assoc. }
      destruct Hcases as [(failed & w & Htried & Hfailed & Hrun)
                         | (Hall & Hfailed & Hrun)].
      * left. exists ((v, rc) :: failed), w.
        split; [now rewrite Htried|]. split; [now constructor|].
        rewrite Hstep, Hrun. subst d1.
        unfold set_trace, set_hw; simpl. now rewrite <- app_assoc.
      * right. split; [simpl; now rewrite Hall|]. split; [now constructor|].
        rewrite Hstep, Hrun. subst d1.
        unfold set_trace; simpl. now rewrite <- app_assoc.
Qed.

(** C2 (negotiate): the candidates actually tried, [tried], each with the
    code the PF returned for it, form a non-empty initial segment of the
    list v13, v12, v11, v10 (so version 1.3 is always asked first, the order
    is fixed and no candidate is tried twice), and the run never faults and
    returns no code.  Either the last request tried succeeded, every earlier
    one failed, and the version of that last candidate is the active one; or
    all four candidates v13, v12, v11, v10 were tried in this order and
    failed, and the device is unchanged apart from the traced requests, so
    that the version in effect before (the baseline [txgbe_mbox_api_10]
    after a reset) is still in effect. *)
Theorem negotiate_api_first_success (d : rte_eth_dev) :
  exists tried : list (mbox_api * Z),
    (exists rest,
        [txgbe_mbox_api_13; txgbe_mbox_api_12; txgbe_mbox_api_11;
         txgbe_mbox_api_10] = map fst tried ++ rest) /\
    (exists rc tl, tried = (txgbe_mbox_api_13, rc) :: tl) /\
    NoDup (map fst tried) /\
    (forall k v rc,
        nth_error tried k = Some (v, rc) ->
        rc = mbx_reply E (trace d ++ negotiation_events (firstn k tried))
               (NegotiateApi v)) /\
    ((exists failed v,
         tried = failed ++ [(v, 0)] /\
         Forall (fun p => snd p <> 0) failed /\
         txgbevf_negotiate_api d
         = Done tt (set_trace (trace d ++ negotiation_events tried)
                      (set_hw (set_api_version v (hw d)) d)))
     \/
     (map fst tried
      = [txgbe_mbox_api_13; txgbe_mbox_api_12; txgbe_mbox_api_11;
         txgbe_mbox_api_10] /\
      Forall (fun p => snd p <> 0) tried /\
      txgbevf_negotiate_api d
      = Done tt (set_trace (trace d ++ negotiation_events tried) d))).
Proof.
  unfold txgbevf_negotiate_api.
  destruct (negotiate_from_run sup_ver d) as (tried & Hpre & Hans & Hcases).
  unfold sup_ver in *.
  exists tried. split; [exact Hpre|].
  assert (Hne : tried <> []).
  { destruct Hcases as [(failed & v & -> & _) | (Hall & _)].
    - now destruct failed.
    - intros ->. discriminate. }
  split; [|split; [|split; [exact Hans | exact Hcases]]].
  - destruct Hpre as (rest & Hpre).
    destruct tried as [|[v rc] tl]; [congruence|].
    injection Hpre as Hv _. subst v. now exists rc, tl.
  - destruct Hpre as (rest & Hpre).
    assert (Hnd : NoDup [txgbe_mbox_api_13; txgbe_mbox_api_12;
                         txgbe_mbox_api_11; txgbe_mbox_api_10]).
    { repeat constructor; simpl; intuition discriminate. }
    rewrite Hpre in Hnd. now apply NoDup_app_remove_r in Hnd.
Qed.

Lemma intr_disable_run (d : rte_eth_dev) :
  txgbevf_intr_disable d
  = Done tt (set_mask_misc (u32 (TXGBE_VFIMS_MASK K))
               (set_trace (trace d ++ intr_disable_events) d)).
Proof.
  unfold txgbevf_intr_disable, txgbevf_intr_disable_body,
    intr_disable_events, exec, exec_stmt, bind, ret, log, wr32, txgbe_flush,
    emit, modify, set_mask_misc, set_trace; simpl.
  now rewrite <- !app_assoc.
Qed.

Lemma intr_enable_run (d : rte_eth_dev) :
  txgbevf_intr_enable d
  = Done tt (set_mask_misc 0 (set_trace (trace d ++ intr_enable_events) d)).
Proof.
  unfold txgbevf_intr_enable, txgbevf_intr_enable_body,
    intr_enable_events, exec, exec_stmt, bind, ret, log, wr32, txgbe_flush,
    emit, modify, set_mask_misc, set_trace; simpl.
  now rewrite <- !app_assoc.
Qed.

Lemma run_intr_op_mask (op : intr_op) (d : rte_eth_dev) :
  exists d', run_intr_op op d = Done tt d' /\ mask_misc d' = implied_mask op.
Proof.
  destruct op; simpl.
  - rewrite intr_disable_run. eexists; split; reflexivity.
  - rewrite intr_enable_run. eexists; split; reflexivity.
Qed.

Lemma run_intr_ops_last (ops : list intr_op) (op : intr_op) :
  forall d : rte_eth_dev,
  exists d', run_intr_ops (ops ++ [op]) d = Done tt d' /\
             mask_misc d' = implied_mask op.
Proof.
  induction ops as [|o ops IH]; intros d; simpl; unfold bind.
  - destruct (run_intr_op_mask op d) as (d' & -> & Hm).
    exists d'. split; [reflexivity | exact Hm].
  - destruct (run_intr_op_mask o d) as (d1 & -> & _). apply IH.
Qed.

(** Running a body is running a first part and then the rest. *)
Lemma exec_app (body pre post : list intr_stmt) (d s : rte_eth_dev) :
  body = pre ++ post ->
  exec pre d = Done tt s ->
  exec post s = exec body d.
Proof.
  intros ->. revert d. induction pre as [|st pre IH]; intros d Hpre.
  - cbn in Hpre. injection Hpre as <-. reflexivity.
  - cbn [app exec] in *. unfold bind in *.
    destruct (exec_stmt st d) as [[] d1|f] eqn:Hst; [|discriminate].
    now apply IH.
Qed.

(** Trace, register write, flush: the events are appended, nothing else
    changes. *)
Lemma exec_register_traffic (reg val : Z) (d : rte_eth_dev) :
  exec [TraceStmt; Wr32Stmt reg val; FlushStmt] d
  = Done tt (set_trace
               (trace d ++ [Log DEBUG FuncTrace; Wr32 reg (u32 val); Flush])
               d).
Proof.
  unfold exec, exec_stmt, bind, ret, log, wr32, txgbe_flush, emit, modify,
    set_trace; simpl.
  now rewrite <- !app_assoc.
Qed.

(** In a body that ends with its only store to the mirror, after the
    register traffic, the mirror keeps its entry value up to that store. *)
Lemma exec_mirror_last (reg val m : Z) (pre post : list intr_stmt)
  (d s : rte_eth_dev) :
  [TraceStmt; Wr32Stmt reg val; FlushStmt; MaskMiscStmt m] = pre ++ post ->
  exec pre d = Done tt s ->
  mask_misc s <> mask_misc d ->
  trace s = trace d ++ [Log DEBUG FuncTrace; Wr32 reg (u32 val); Flush].
Proof.
  intros Hsplit Hpre Hmask.
  destruct pre as [|s1 [|s2 [|s3 [|s4 [|s5 pre]]]]];
    cbn [app] in Hsplit; try discriminate Hsplit;
    try (injection Hsplit; intros); subst;
    unfold exec, exec_stmt, bind, ret, log, wr32, txgbe_flush, emit, modify,
      set_trace in Hpre; simpl in Hpre;
    injection Hpre as <-; simpl in *;
    try (exfalso; apply Hmask; reflexivity).
  now rewrite <- !app_assoc.
Qed.

(** C9 (interrupt mask mirror): [disable] writes the full mask to the
    mask-set register, flushes, and only then sets the mirror to the full
    mask: its body is the register traffic followed by the store as last
    statement, the state reached after the flush still has the mirror (and
    everything but the trace) as at entry, and at no point of the run does
    the mirror differ from its entry value before the write and the flush
    are in the trace.  [enable] does the same with the mask-clear register
    and the value 0.  After any non-empty sequence of the two operations
    the mirror is the value implied by the last operation of the
    sequence. *)
Theorem intr_mask_mirror (d : rte_eth_dev) :
  (txgbevf_intr_disable d
   = Done tt (set_mask_misc (u32 (TXGBE_VFIMS_MASK K))
                (set_trace
                   (trace d
                    ++ [Log DEBUG FuncTrace;
                        Wr32 (TXGBE_VFIMS K) (u32 (TXGBE_VFIMS_MASK K));
                        Flush]) d)) /\
   (exists pre,
       txgbevf_intr_disable_body
       = pre ++ [MaskMiscStmt (TXGBE_VFIMS_MASK K)] /\
       exec pre d
       = Done tt
           (set_trace
              (trace d
               ++ [Log DEBUG FuncTrace;
                   Wr32 (TXGBE_VFIMS K) (u32 (TXGBE_VFIMS_MASK K));
                   Flush]) d)) /\
   (forall pre post s,
       txgbevf_intr_disable_body = pre ++ post ->
       exec pre d = Done tt s ->
       exec post s = txgbevf_intr_disable d /\
       (mask_misc s <> mask_misc d ->
        trace s
        = trace d
          ++ [Log DEBUG FuncTrace;
              Wr32 (TXGBE_VFIMS K) (u32 (TXGBE_VFIMS_MASK K)); Flush]))) /\
  (txgbevf_intr_enable d
   = Done tt (set_mask_misc 0
                (set_trace
                   (trace d
                    ++ [Log DEBUG FuncTrace;
                        Wr32 (TXGBE_VFIMC K) (u32 (TXGBE_VFIMC_MASK K));
                        Flush]) d)) /\
   (exists pre,
       txgbevf_intr_enable_body = pre ++ [MaskMiscStmt 0] /\
       exec pre d
       = Done tt
           (set_trace
              (trace d
               ++ [Log DEBUG FuncTrace;
                   Wr32 (TXGBE_VFIMC K) (u32 (TXGBE_VFIMC_MASK K));
                   Flush]) d)) /\
   (forall pre post s,
       txgbevf_intr_enable_body = pre ++ post ->
       exec pre d = Done tt s ->
       exec post s = txgbevf_intr_enable d /\
       (mask_misc s <> mask_misc d ->
        trace s
        = trace d
          ++ [Log DEBUG FuncTrace;
              Wr32 (TXGBE_VFIMC K) (u32 (TXGBE_VFIMC_MASK K)); Flush]))) /\
  (forall (ops : list intr_op) (op : intr_op),
      exists d',
        run_intr_ops (ops ++ [op]) d = Done tt d' /\
        mask_misc d' = match op with
                       | IntrDisable => u32 (TXGBE_VFIMS_MASK K)
                       | IntrEnable => 0
                       end).
Proof.
  split; [|split].
  - split; [exact (intr_disable_run d)|]. split.
    + exists [TraceStmt; Wr32Stmt (TXGBE_VFIMS K) (TXGBE_VFIMS_MASK K);
              FlushStmt].
      split; [reflexivity|]. apply exec_register_traffic.
    + intros pre post s Hsplit Hpre.
      split; [exact (@exec_app _ pre post d s Hsplit Hpre)|].
      unfold txgbevf_intr_disable_body in Hsplit.
      exact (@exec_mirror_last _ _ _ pre post d s Hsplit Hpre).
  - split; [exact (intr_enable_run d)|]. split.
    + exists [TraceStmt; Wr32Stmt (TXGBE_VFIMC K) (TXGBE_VFIMC_MASK K);
              FlushStmt].
      split; [reflexivity|]. apply exec_register_traffic.
    + intros pre post s Hsplit Hpre.
      split; [exact (@exec_app _ pre post d s Hsplit Hpre)|].
      unfold txgbevf_intr_enable_body in Hsplit.
      exact (@exec_mirror_last _ _ _ pre post d s Hsplit Hpre).
  - intros ops op.
    destruct (run_intr_ops_last ops op d) as (d' & Hrun & Hm).
    exists d'. split; [exact Hrun|]. destruct op; exact Hm.
Qed.

Lemma set_default_mac_addr_run (addr : rte_ether_addr) (d : rte_eth_dev) :
  txgbevf_set_default_mac_addr addr d
  = Done 0 (set_trace
              (trace d ++ [SetRar 0 addr 0 0 (set_rar_reply E (trace d))]) d).
Proof. reflexivity. Qed.

(** C10 (set_default): the call hands the new address to the hardware slot
    0 primitive, outside the mailbox, and returns 0; the device keeps its
    [hw] fields (the stored permanent address among them) and its address
    table.  So afterwards [add] still rejects the stored permanent address
    and forwards every other address, the new default included, and the
    replay of [remove] still submits exactly the slots that differ from the
    stored permanent address. *)
Theorem set_default_mac_addr_frame (addr : rte_ether_addr) (d : rte_eth_dev) :
  exists d',
    txgbevf_set_default_mac_addr addr d = Done 0 d' /\
    d' = set_trace
           (trace d ++ [SetRar 0 addr 0 0 (set_rar_reply E (trace d))]) d /\
    mbx_requests [SetRar 0 addr 0 0 (set_rar_reply E (trace d))] = [] /\
    hw d' = hw d /\
    mac_addrs d' = mac_addrs d /\
    (forall index pool,
        txgbevf_add_mac_addr (perm_addr (hw d)) index pool d' = Done (-1) d') /\
    (forall a index pool,
        a <> perm_addr (hw d) ->
        txgbevf_add_mac_addr a index pool d'
        = Done (mbx_reply E (trace d') (add_unicast a))
            (set_trace
               (trace d'
                ++ add_events a (mbx_reply E (trace d') (add_unicast a))) d')) /\
    (forall index tbl,
        mac_addrs d = Some tbl ->
        Z.of_nat (length tbl) = num_rar_entries (hw d) ->
        exists ev slots,
          txgbevf_remove_mac_addr index d'
          = Done tt
              (set_trace
                 (trace d'
                  ++ Mbx clear_all_unicast
                       (mbx_reply E (trace d') clear_all_unicast) :: ev) d') /\
          mbx_requests ev = map (fun j => add_unicast (slot tbl j)) slots /\
          (forall j : Z,
              In j slots <->
              0 <= j < Z.of_nat (length tbl) /\ j <> index /\
              rte_is_zero_ether_addr (slot tbl j) = false /\
              slot tbl j <> perm_addr (hw d))).
Proof.
  set (d' := set_trace
               (trace d ++ [SetRar 0 addr 0 0 (set_rar_reply E (trace d))]) d).
  exists d'. split; [apply set_default_mac_addr_run|].
  split; [reflexivity|]. split; [reflexivity|].
  split; [reflexivity|]. split; [reflexivity|].
  split; [|split].
  - intros index pool. exact (add_mac_addr_perm index pool d').
  - intros a index pool Hne. exact (@add_mac_addr_other a index pool d' Hne).
  - intros index tbl Htbl Hlen.
    destruct (@remove_mac_addr_run index d' tbl) as (ev & Hrun & Hreq);
      [exact Htbl | exact Hlen |].
    exists ev, (map fst (replayed_from (perm_addr (hw d)) index 0 tbl)).
    split; [exact Hrun|]. split; [exact Hreq|]. apply replayed_slots.
Qed.


Lemma set_api_version_same (d : rte_eth_dev) :
  set_hw (set_api_version (api_version (hw d)) (hw d)) d = d.
Proof. destruct d as [h ? ? ? ? ? ? ? ?]. now destruct h. Qed.

Lemma negotiate_api_frame (d : rte_eth_dev) :
  exists (tried : list (mbox_api * Z)) (v : mbox_api),
    txgbevf_negotiate_api d
    = Done tt (set_trace (trace d ++ negotiation_events tried)
                 (set_hw (set_api_version v (hw d)) d)) /\
    exists rc tl, tried = (txgbe_mbox_api_13, rc) :: tl.
Proof.
  destruct (negotiate_from_run sup_ver d)
    as (tried & (rest & Hpre) & _ & Hcases).
  assert (Hhead : tried <> [] -> exists rc tl, tried = (txgbe_mbox_api_13, rc) :: tl).
  { destruct tried as [|[v rc] tl]; [congruence|]. intros _.
    injection Hpre as Hv _. subst v. now exists rc, tl. }
  destruct Hcases as [(failed & v & Htried & _ & Hrun) | (Hall & _ & Hrun)].
  - exists tried, v. split; [exact Hrun|]. apply Hhead.
    rewrite Htried. now destruct failed.
  - exists tried, (api_version (hw d)). split.
    + now rewrite set_api_version_same.
    + apply Hhead. intros ->. discriminate.
Qed.

Lemma start_events_ext (d1 d2 : rte_eth_dev) (rc3 : Z) :
  port_id d1 = port_id d2 -> pci_dev d1 = pci_dev d2 ->
  start_events d1 rc3 = start_events d2 rc3.
Proof. unfold start_events. now intros -> ->. Qed.

Lemma resolve_events_ext (d1 d2 : rte_eth_dev) (perm : rte_ether_addr)
  (v rc2 rc3 : Z) :
  port_id d1 = port_id d2 -> pci_dev d1 = pci_dev d2 ->
  resolve_events d1 perm v rc2 rc3 = resolve_events d2 perm v rc2 rc3.
Proof.
  intros Hp Hq. unfold resolve_events.
  now rewrite (start_events_ext d1 d2 rc3 Hp Hq).
Qed.

Ltac run_prims :=
  cbv beta iota zeta delta
    [bind gets modify emit ret log wr32 txgbe_flush modify_hw mailbox
     undefined store_mac rte_rand rte_zmalloc mac_start_hw mac_reset_hw
     txgbe_init_shared_code mbx_init_params txgbe_set_rar_vf
     txgbevf_get_queues txgbevf_set_uc_addr_vf mac_set_rar
     txgbe_set_tx_function txgbe_set_rx_function txgbe_dev_free_queues
     generate_random_mac_addr txgbevf_intr_enable txgbevf_intr_disable
     txgbevf_intr_enable_body txgbevf_intr_disable_body exec exec_stmt];
  cbn [trace hw mask_misc mac_addrs nb_tx_queues tx_queues port_id dev_ops
       pci_dev set_trace set_hw set_mask_misc set_mac_addrs set_dev_ops
       fst snd].

Lemma init_start_run (d : rte_eth_dev) (x : rte_ether_addr)
  (t : list rte_ether_addr) :
  mac_addrs d = Some (x :: t) ->
  exists d',
    init_start d = Done (start_result (start_hw_reply E (trace d))) d' /\
    trace d' = trace d ++ start_events d (start_hw_reply E (trace d)) /\
    hw d' = hw d /\
    mac_addrs d' = Some (perm_addr (hw d) :: t).
Proof.
  intros Htbl.
  unfold init_start, start_result, start_events, intr_enable_events.
  run_prims. rewrite Htbl. cbn [Z.ltb Z.compare Z.to_nat list_store].
  run_prims.
  destruct (start_hw_reply E (trace d) =? 0); cbn [negb];
    (eexists; split; [reflexivity|]); run_prims;
    rewrite <- !app_assoc; repeat split.
Qed.

Lemma init_resolve_address_run (d : rte_eth_dev) (x : rte_ether_addr)
  (t : list rte_ether_addr) :
  mac_addrs d = Some (x :: t) ->
  exists (v rc2 rc3 : Z) (d' : rte_eth_dev),
    init_resolve_address d
    = Done (resolve_result (perm_addr (hw d)) rc2 rc3) d' /\
    trace d' = trace d ++ resolve_events d (perm_addr (hw d)) v rc2 rc3 /\
    perm_addr (hw d') = resolve_perm (perm_addr (hw d)) v /\
    mac_addrs d'
    = if rte_is_zero_ether_addr (perm_addr (hw d)) && negb (rc2 =? 0)
      then None
      else Some (resolve_perm (perm_addr (hw d)) v :: t).
Proof.
  intros Htbl.
  unfold init_resolve_address, resolve_result, resolve_events, resolve_perm.
  run_prims.
  destruct (rte_is_zero_ether_addr (perm_addr (hw d))) eqn:Hzero;
    cbn [andb].
  - set (v := u64 (rte_rand_reply E (trace d))).
    set (new := random_mac_addr v).
    set (rc2 := mbx_reply E (trace d ++ [RteRand v]) (SetRarVf 1 new 0 1)).
    destruct (rc2 =? 0) eqn:Hrc2; cbn [negb].
    + match goal with
      | |- context [init_start ?s] => set (d1 := s)
      end.
      destruct (@init_start_run d1 x t) as (d' & Hrun & Htr & Hhw & Hmac);
        [exact Htbl|].
      exists v, rc2, (start_hw_reply E (trace d1)), d'.
      rewrite Hrc2. split; [exact Hrun|].
      rewrite Htr, Hhw, Hmac. subst d1. run_prims.
      rewrite <- !app_assoc. cbn [app].
      rewrite (@start_events_ext _ d) by reflexivity. repeat split.
    + exists v, rc2, 0. eexists. rewrite Hrc2. cbn [negb].
      split; [reflexivity|]. run_prims. rewrite <- !app_assoc. repeat split.
  - destruct (@init_start_run d x t) as (d' & Hrun & Htr & Hhw & Hmac);
      [exact Htbl|].
    exists 0, 0, (start_hw_reply E (trace d)), d'.
    split; [exact Hrun|]. rewrite Htr, Hhw, Hmac. repeat split.
Qed.

Lemma table_entries :
  repeat zero_ether_addr (Z.to_nat (table_bytes / RTE_ETHER_ADDR_LEN))
  = zero_ether_addr :: repeat zero_ether_addr 127.
Proof. reflexivity. Qed.

Lemma refresh_queue_limits_frame (lim : option (Z * Z)) (h : txgbe_hw) :
  num_rar_entries (refresh_queue_limits lim h) = num_rar_entries h /\
  perm_addr (refresh_queue_limits lim h) = perm_addr h.
Proof. destruct lim as [[rx tx]|]; split; reflexivity. Qed.

Lemma init_after_reset_run (d : rte_eth_dev) :
  num_rar_entries (hw d) = 128 ->
  exists (tried : list (mbox_api * Z)) (rcq : Z) (ok : bool) (v rc2 rc3 : Z)
         (d' : rte_eth_dev),
    init_after_reset d
    = Done (after_reset_result (perm_addr (hw d)) ok rc2 rc3) d' /\
    trace d'
    = trace d ++ after_reset_events d (perm_addr (hw d)) tried rcq ok v rc2 rc3 /\
    (exists rc tl, tried = (txgbe_mbox_api_13, rc) :: tl) /\
    (ok = true ->
     perm_addr (hw d') = resolve_perm (perm_addr (hw d)) v /\
     mac_addrs d' = resolve_table (perm_addr (hw d)) v rc2).
Proof.
  intros Hn.
  destruct (negotiate_api_frame d) as (tried & ver & Hneg & Hhead).
  unfold init_after_reset, after_reset_result, after_reset_events.
  unfold bind at 1. rewrite Hneg.
  run_prims.
  set (t4 := trace d ++ negotiation_events tried).
  set (rcq := mbx_reply E t4 GetQueues).
  set (h5 := refresh_queue_limits (queue_limits E t4)
               (set_api_version ver (hw d))).
  destruct (refresh_queue_limits_frame (queue_limits E t4)
              (set_api_version ver (hw d))) as (Hn5 & Hperm5).
  fold h5 in Hn5, Hperm5. cbn in Hn5, Hperm5.
  rewrite Hn5, Hn. fold table_bytes.
  set (ok := rte_zmalloc_reply E (t4 ++ [Mbx GetQueues rcq])).
  destruct ok eqn:Hok.
  - rewrite table_entries.
    match goal with
    | |- context [init_resolve_address ?s] => set (d6 := s)
    end.
    destruct (@init_resolve_address_run d6 zero_ether_addr
                (repeat zero_ether_addr 127))
      as (v & rc2 & rc3 & d' & Hrun & Htr & Hperm & Hmac); [reflexivity|].
    exists tried, rcq, true, v, rc2, rc3, d'.
    replace (perm_addr (hw d6)) with (perm_addr (hw d)) in *
      by (subst d6; cbn; now rewrite Hperm5).
    split; [exact Hrun|]. split.
    + rewrite Htr. subst d6 t4. cbn [trace set_trace set_mac_addrs set_hw].
      rewrite <- !app_assoc. cbn [app].
      rewrite (@resolve_events_ext _ d) by reflexivity. reflexivity.
    + split; [exact Hhead|]. intros _. split; [exact Hperm|].
      rewrite Hmac. reflexivity.
  - exists tried, rcq, false, 0, 0, 0. eexists.
    split; [reflexivity|]. split.
    + subst t4. cbn [trace set_trace set_mac_addrs set_hw].
      rewrite <- !app_assoc. reflexivity.
    + split; [exact Hhead|]. discriminate.
Qed.

Lemma after_reset_events_ext (d1 d2 : rte_eth_dev) (perm : rte_ether_addr)
  (tried : list (mbox_api * Z)) (rcq : Z) (ok : bool) (v rc2 rc3 : Z) :
  port_id d1 = port_id d2 -> pci_dev d1 = pci_dev d2 ->
  after_reset_events d1 perm tried rcq ok v rc2 rc3
  = after_reset_events d2 perm tried rcq ok v rc2 rc3.
Proof.
  intros Hp Hq. unfold after_reset_events.
  now rewrite (resolve_events_ext d1 d2 perm v rc2 rc3 Hp Hq).
Qed.

Lemma init_primary_run (d : rte_eth_dev) :
  exists (rc0 rc1 : Z) (perm : rte_ether_addr) (tried : list (mbox_api * Z))
         (rcq : Z) (ok : bool) (v rc2 rc3 : Z) (d' : rte_eth_dev),
    init_primary d = Done (primary_result rc0 rc1 perm ok rc2 rc3) d' /\
    trace d' = trace d ++ primary_events d rc0 rc1 perm tried rcq ok v rc2 rc3 /\
    (exists rc tl, tried = (txgbe_mbox_api_13, rc) :: tl) /\
    (reaches_resolve rc0 rc1 ok = true ->
     perm_addr (hw d') = resolve_perm perm v /\
     mac_addrs d' = resolve_table perm v rc2).
Proof.
  unfold init_primary. run_prims.
  set (rc0 := init_shared_code_reply E (trace d ++ [CopyPciInfo])).
  destruct (rc0 =? 0) eqn:Hrc0; cbn [negb andb].
  - match goal with
    | |- context [reset_hw_reply E ?t] => set (reply := reset_hw_reply E t)
    end.
    match goal with
    | |- context [ResetHw (fst reply) (perm_addr ?h)] => set (h3 := h)
    end.
    set (rc1 := fst reply). set (perm := perm_addr h3).
    fold (reset_failed rc1).
    destruct (reset_failed rc1) eqn:Hreset.
    + exists rc0, rc1, perm, [(txgbe_mbox_api_13, 0)], 0, false, 0, 0, 0.
      eexists.
      unfold primary_result, primary_events, reaches_resolve,
        intr_disable_events.
      rewrite Hrc0, Hreset. cbn [negb andb].
      split; [reflexivity|]. run_prims.
      rewrite <- !app_assoc. cbn [app].
      split; [reflexivity|]. split; [now exists 0, []|]. discriminate.
    + match goal with
      | |- context [init_after_reset ?s] => set (d3 := s)
      end.
      destruct (@init_after_reset_run d3)
        as (tried & rcq & ok & v & rc2 & rc3 & d' & Hrun & Htr & Hhead & Hres).
      { subst d3 h3. cbn. now destruct (snd reply). }
      exists rc0, rc1, perm, tried, rcq, ok, v, rc2, rc3, d'.
      change (perm_addr (hw d3)) with perm in *.
      unfold primary_result, primary_events, reaches_resolve,
        intr_disable_events.
      rewrite Hrc0, Hreset. cbn [negb andb].
      split; [exact Hrun|]. split.
      * rewrite Htr. subst d3. cbn [trace set_trace set_hw set_mask_misc].
        rewrite <- !app_assoc. cbn [app].
        rewrite (@after_reset_events_ext _ d) by reflexivity. reflexivity.
      * split; [exact Hhead|]. exact Hres.
  - exists rc0, 0, zero_ether_addr, [(txgbe_mbox_api_13, 0)], 0, false, 0, 0, 0.
    eexists.
    unfold primary_result, primary_events, reaches_resolve.
    rewrite Hrc0. cbn [negb andb].
    split; [reflexivity|]. run_prims.
    rewrite <- !app_assoc. cbn [app].
    split; [reflexivity|]. split; [now exists 0, []|]. discriminate.
Qed.

Lemma dev_init_primary_run (d : rte_eth_dev) :
  rte_eal_process_type E = RTE_PROC_PRIMARY ->
  exists (rc0 rc1 : Z) (perm : rte_ether_addr) (tried : list (mbox_api * Z))
         (rcq : Z) (ok : bool) (v rc2 rc3 : Z) (d' : rte_eth_dev),
    eth_txgbevf_dev_init d = Done (primary_result rc0 rc1 perm ok rc2 rc3) d' /\
    trace d'
    = trace d
      ++ Log DEBUG FuncTrace
         :: primary_events d rc0 rc1 perm tried rcq ok v rc2 rc3 /\
    (exists rc tl, tried = (txgbe_mbox_api_13, rc) :: tl) /\
    (reaches_resolve rc0 rc1 ok = true ->
     perm_addr (hw d') = resolve_perm perm v /\
     mac_addrs d' = resolve_table perm v rc2).
Proof.
  intros Hprimary. unfold eth_txgbevf_dev_init. rewrite Hprimary.
  run_prims.
  match goal with
  | |- context [init_primary ?s] => set (d0 := s)
  end.
  destruct (init_primary_run d0)
    as (rc0 & rc1 & perm & tried & rcq & ok & v & rc2 & rc3 & d'
        & Hrun & Htr & Hhead & Hres).
  exists rc0, rc1, perm, tried, rcq, ok, v, rc2, rc3, d'.
  split; [exact Hrun|]. split; [|split; assumption].
  rewrite Htr. subst d0. cbn [trace set_trace set_dev_ops].
  rewrite <- app_assoc. cbn [app].
  unfold primary_events.
  rewrite (@after_reset_events_ext _ d) by reflexivity. reflexivity.
Qed.

Lemma in_negotiation_events (e : event) (tried : list (mbox_api * Z)) :
  In e (negotiation_events tried) ->
  exists v rc, e = Mbx (NegotiateApi v) rc.
Proof.
  unfold negotiation_events. rewrite in_map_iff.
  intros ([v rc] & <- & _). now exists v, rc.
Qed.

Lemma reset_failed_true (rc : Z) :
  reset_failed rc = true <-> rc <> 0 /\ rc <> TXGBE_ERR_INVALID_MAC_ADDR K.
Proof.
  unfold reset_failed.
  now rewrite andb_true_iff, !negb_true_iff, !Z.eqb_neq.
Qed.

Lemma reset_failed_false (rc : Z) :
  reset_failed rc = false <-> rc = 0 \/ rc = TXGBE_ERR_INVALID_MAC_ADDR K.
Proof.
  unfold reset_failed.
  rewrite andb_false_iff, !negb_false_iff, !Z.eqb_eq. tauto.
Qed.

(** Case analysis on a membership in the events of a run. *)
Ltac unfold_run :=
  unfold primary_result, primary_events, after_reset_result,
    after_reset_events, resolve_result, resolve_events, start_result,
    start_events, intr_disable_events, intr_enable_events in *.

Ltac split_in H :=
  repeat first
    [ progress cbn [In app] in H
    | rewrite in_app_iff in H ];
  repeat match type of H with
         | _ \/ _ => destruct H as [H | H]
         end;
  try (exfalso; exact H);
  try discriminate H;
  try (apply in_negotiation_events in H; destruct H as (? & ? & H);
       discriminate H).

Ltac split_run :=
  repeat match goal with
         | H : context [if ?c then _ else _] |- _ =>
             destruct c eqn:?; cbn [negb andb] in *
         | |- context [if ?c then _ else _] =>
             destruct c eqn:?; cbn [negb andb] in *
         end.

Section RunFacts.

Variables (d : rte_eth_dev) (rc0 rc1 : Z) (perm : rte_ether_addr)
  (tried : list (mbox_api * Z)) (rcq : Z) (ok : bool) (v rc2 rc3 : Z).

Let ev := primary_events d rc0 rc1 perm tried rcq ok v rc2 rc3.
Let r := primary_result rc0 rc1 perm ok rc2 rc3.

Lemma run_shared_code (rc : Z) :
  In (InitSharedCode rc) ev -> rc = rc0.
Proof.
  subst ev. unfold_run. intros H. split_run; split_in H; congruence.
Qed.

Lemma run_shared_code_failed : rc0 <> 0 -> r = - EIO K.
Proof.
  subst r. unfold primary_result. intros H.
  apply Z.eqb_neq in H. now rewrite H.
Qed.

Lemma run_reset (rc : Z) (a : rte_ether_addr) :
  In (ResetHw rc a) ev -> rc0 = 0 /\ rc = rc1 /\ a = perm.
Proof.
  subst ev. unfold_run. intros H.
  destruct (rc0 =? 0) eqn:Hrc0; cbn [negb] in H.
  - apply Z.eqb_eq in Hrc0. split_run; split_in H;
      injection H as <- <-; auto.
  - split_in H.
Qed.

Lemma run_reset_failed :
  rc0 = 0 -> rc1 <> 0 -> rc1 <> TXGBE_ERR_INVALID_MAC_ADDR K ->
  r = - EAGAIN K.
Proof.
  intros -> H1 H2. subst r. unfold primary_result. cbn [Z.eqb negb].
  now rewrite (proj2 (reset_failed_true rc1) (conj H1 H2)).
Qed.

Lemma run_reset_benign :
  rc0 = 0 -> rc1 = 0 \/ rc1 = TXGBE_ERR_INVALID_MAC_ADDR K ->
  forall rc tl, tried = (txgbe_mbox_api_13, rc) :: tl ->
  In (Mbx (NegotiateApi txgbe_mbox_api_13) rc) ev.
Proof.
  intros -> H rc tl ->. subst ev. unfold primary_events. cbn [Z.eqb negb].
  rewrite (proj2 (reset_failed_false rc1) H).
  unfold after_reset_events, intr_disable_events. cbn. auto 10.
Qed.

Lemma run_alloc (size : Z) (b : bool) :
  In (RteZmalloc size b) ev ->
  rc0 = 0 /\ reset_failed rc1 = false /\ b = ok.
Proof.
  subst ev. unfold_run. intros H.
  destruct (rc0 =? 0) eqn:Hrc0; cbn [negb] in H; [|split_in H].
  apply Z.eqb_eq in Hrc0.
  destruct (reset_failed rc1) eqn:Hreset; [split_in H|].
  split_run; split_in H; injection H as <- <-; auto.
Qed.

Lemma run_alloc_failed :
  rc0 = 0 -> reset_failed rc1 = false -> ok = false -> r = - ENOMEM K.
Proof.
  intros -> H ->. subst r. unfold primary_result, after_reset_result.
  cbn [Z.eqb negb]. now rewrite H.
Qed.

Lemma run_start (rc : Z) :
  In (StartHw rc) ev ->
  rc = rc3 /\ r = start_result rc3.
Proof.
  subst ev r. unfold_run. intros H.
  destruct (rc0 =? 0) eqn:Hrc0; cbn [negb] in *; [|split_in H].
  destruct (reset_failed rc1) eqn:Hreset; [split_in H|].
  destruct ok; [|split_in H].
  destruct (rte_is_zero_ether_addr perm); cbn [andb] in *.
  - destruct (rc2 =? 0); cbn [negb] in *; [|split_in H].
    destruct (rc3 =? 0); cbn [negb] in *; split_in H;
      injection H as <-; auto.
  - destruct (rc3 =? 0); cbn [negb] in *; split_in H;
      injection H as <-; auto.
Qed.

Lemma run_random (x : Z) :
  In (RteRand x) ev ->
  x = v /\ reaches_resolve rc0 rc1 ok = true /\
  rte_is_zero_ether_addr perm = true.
Proof.
  subst ev. unfold_run. unfold reaches_resolve. intros H.
  destruct (rc0 =? 0) eqn:Hrc0; cbn [negb] in *; [|split_in H].
  destruct (reset_failed rc1) eqn:Hreset; [split_in H|].
  destruct ok; [|split_in H].
  destruct (rte_is_zero_ether_addr perm); cbn [andb negb] in *.
  - destruct (rc2 =? 0); cbn [negb] in *;
      destruct (rc3 =? 0); cbn [negb] in *; split_in H;
      injection H as <-; auto.
  - destruct (rc3 =? 0); cbn [negb] in *; split_in H.
Qed.

Lemma run_resolves_zero :
  reaches_resolve rc0 rc1 ok = true ->
  rte_is_zero_ether_addr perm = true ->
  In (RteRand v) ev /\
  In (Mbx (SetRarVf 1 (random_mac_addr v) 0 1) rc2) ev.
Proof.
  unfold reaches_resolve. rewrite !andb_true_iff, !negb_true_iff.
  intros ((Hrc0 & Hreset) & ->) Hzero.
  subst ev. unfold primary_events, after_reset_events, resolve_events.
  rewrite Hrc0, Hreset, Hzero. cbn [negb].
  split.
  - do 3 right. apply in_or_app. right. right.
    apply in_or_app. right. cbn. auto.
  - do 3 right. apply in_or_app. right. right.
    apply in_or_app. right. cbn. auto.
Qed.

Lemma run_install (i : Z) (a : rte_ether_addr) (q e rc : Z) :
  In (Mbx (SetRarVf i a q e) rc) ev ->
  rc = rc2 /\ i = 1 /\ a = random_mac_addr v /\ q = 0 /\ e = 1 /\
  reaches_resolve rc0 rc1 ok = true /\
  rte_is_zero_ether_addr perm = true.
Proof.
  subst ev. unfold_run. unfold reaches_resolve. intros H.
  destruct (rc0 =? 0) eqn:Hrc0; cbn [negb] in *; [|split_in H].
  destruct (reset_failed rc1) eqn:Hreset; [split_in H|].
  destruct ok; [|split_in H].
  destruct (rte_is_zero_ether_addr perm); cbn [andb negb] in *.
  - destruct (rc2 =? 0); cbn [negb] in *;
      destruct (rc3 =? 0); cbn [negb] in *; split_in H;
      injection H as <- <- <- <- <-; auto 10.
  - destruct (rc3 =? 0); cbn [negb] in *; split_in H.
Qed.

Lemma run_install_failed :
  reaches_resolve rc0 rc1 ok = true ->
  rte_is_zero_ether_addr perm = true ->
  rc2 <> 0 ->
  r = rc2 /\
  resolve_table perm v rc2 = None /\
  exists pre,
    ev = pre ++ [RteZmalloc table_bytes true; RteRand v;
                 Mbx (SetRarVf 1 (random_mac_addr v) 0 1) rc2; RteFree].
Proof.
  unfold reaches_resolve. rewrite !andb_true_iff, !negb_true_iff.
  intros ((Hrc0 & Hreset) & ->) Hzero Hrc2.
  apply Z.eqb_neq in Hrc2.
  subst ev r. unfold_run. unfold resolve_table.
  rewrite Hrc0, Hreset, Hzero, Hrc2. cbn [negb andb].
  split; [reflexivity|]. split; [reflexivity|].
  exists (CopyPciInfo :: InitSharedCode rc0 :: InitMbxParams ::
          [Log DEBUG FuncTrace;
           Wr32 (TXGBE_VFIMS K) (u32 (TXGBE_VFIMS_MASK K)); Flush]
          ++ ResetHw rc1 perm :: negotiation_events tried
          ++ [Mbx GetQueues rcq]).
  cbn [app]. do 7 f_equal. rewrite <- app_assoc. reflexivity.
Qed.

End RunFacts.

(** C4 (init error classes): in the primary process init always returns.
    With [ev] the events of the run: a shared-code init that failed gives
    -EIO; a reset that failed with a code other than
    TXGBE_ERR_INVALID_MAC_ADDR gives -EAGAIN, while after a reset that
    succeeded or returned that code init goes on to the negotiation; a
    failed allocation of the address table gives -ENOMEM; a hardware start
    that failed gives -EIO, and one that succeeded gives 0. *)
Theorem init_error_classes (d : rte_eth_dev) :
  rte_eal_process_type E = RTE_PROC_PRIMARY ->
  exists (r : Z) (d' : rte_eth_dev) (ev : list event),
    eth_txgbevf_dev_init d = Done r d' /\
    trace d' = trace d ++ ev /\
    (forall rc, In (InitSharedCode rc) ev -> rc <> 0 -> r = - EIO K) /\
    (forall rc a,
        In (ResetHw rc a) ev ->
        rc <> 0 -> rc <> TXGBE_ERR_INVALID_MAC_ADDR K ->
        r = - EAGAIN K) /\
    (forall rc a,
        In (ResetHw rc a) ev ->
        rc = 0 \/ rc = TXGBE_ERR_INVALID_MAC_ADDR K ->
        exists rc', In (Mbx (NegotiateApi txgbe_mbox_api_13) rc') ev) /\
    (forall size, In (RteZmalloc size false) ev -> r = - ENOMEM K) /\
    (forall rc, In (StartHw rc) ev -> rc <> 0 -> r = - EIO K) /\
    (In (StartHw 0) ev -> r = 0).
Proof.
  intros Hprimary.
  destruct (dev_init_primary_run d Hprimary)
    as (rc0 & rc1 & perm & tried & rcq & ok & v & rc2 & rc3 & d'
        & Hrun & Htr & (rc13 & tl & Hhead) & _).
  exists (primary_result rc0 rc1 perm ok rc2 rc3), d'.
  eexists. split; [exact Hrun|]. split; [exact Htr|].
  split; [|split; [|split; [|split; [|split]]]].
  - intros rc [H|H] Hrc; [discriminate|].
    apply run_shared_code in H. subst rc. now apply run_shared_code_failed.
  - intros rc a [H|H] H1 H2; [discriminate|].
    apply run_reset in H. destruct H as (H0 & -> & _).
    now apply run_reset_failed.
  - intros rc a [H|H] Hrc; [discriminate|].
    apply run_reset in H. destruct H as (H0 & -> & _).
    exists rc13. right. eapply run_reset_benign; eassumption.
  - intros size [H|H]; [discriminate|].
    apply run_alloc in H. destruct H as (H0 & Hreset & Hok).
    now apply run_alloc_failed.
  - intros rc [H|H] Hrc; [discriminate|].
    apply run_start in H. destruct H as (-> & ->).
    unfold start_result. apply Z.eqb_neq in Hrc. now rewrite Hrc.
  - intros [H|H]; [discriminate|].
    apply run_start in H. destruct H as (<- & ->). reflexivity.
Qed.

Lemma random_mac_addr_bytes (v : Z) :
  byte0 (random_mac_addr v)
  = byte_of_Z (Z.lor 0x00 (RTE_ETHER_LOCAL_ADMIN_ADDR K)) /\
  byte1 (random_mac_addr v) = x09 /\
  byte2 (random_mac_addr v) = xc0 /\
  [byte3 (random_mac_addr v); byte4 (random_mac_addr v);
   byte5 (random_mac_addr v)] = firstn 3 (u64_object_bytes v) /\
  (RTE_BYTE_ORDER K = RTE_LITTLE_ENDIAN ->
   byte3 (random_mac_addr v) = byte_of_Z v /\
   byte4 (random_mac_addr v) = byte_of_Z (Z.shiftr v 8) /\
   byte5 (random_mac_addr v) = byte_of_Z (Z.shiftr v 16)) /\
  rte_is_zero_ether_addr (random_mac_addr v) = false.
Proof.
  unfold random_mac_addr, u64_object_bytes.
  split; [reflexivity|]. split; [reflexivity|]. split; [reflexivity|].
  split; [|split].
  - destruct (RTE_BYTE_ORDER K); reflexivity.
  - intros ->. cbn [nth firstn map byte3 byte4 byte5].
    change (8 * 0) with 0. change (8 * 1) with 8. change (8 * 2) with 16.
    rewrite Z.shiftr_0_r. auto.
  - unfold rte_is_zero_ether_addr, addr_bytes. cbn [byte0 byte1 byte2 forallb].
    change (byte_of_Z 9) with x09. cbn [Byte.eqb].
    now rewrite andb_false_r.
Qed.

(** C5 (random permanent address): for every random number [v] the address
    built from it has byte 0 equal to 0x00 OR'd with the locally
    administered bit, bytes 1 and 2 equal to 0x09 and 0xC0, and its last
    three bytes are the first three bytes of the object representation of
    [v] (its three low-order bytes on a little-endian host), so it is not
    all-zero.  In a primary init that allocated the table and found the
    permanent address all-zero after the reset, a random number [v] is
    drawn, the address built from it becomes the permanent address and is
    submitted for slot 1 of the PF; when that request succeeds the address
    is also copied into slot 0 of the address list. *)
Theorem init_random_perm_addr (d : rte_eth_dev) :
  rte_eal_process_type E = RTE_PROC_PRIMARY ->
  (forall v : Z,
      byte0 (random_mac_addr v)
      = byte_of_Z (Z.lor 0x00 (RTE_ETHER_LOCAL_ADMIN_ADDR K)) /\
      byte1 (random_mac_addr v) = x09 /\
      byte2 (random_mac_addr v) = xc0 /\
      [byte3 (random_mac_addr v); byte4 (random_mac_addr v);
       byte5 (random_mac_addr v)] = firstn 3 (u64_object_bytes v) /\
      (RTE_BYTE_ORDER K = RTE_LITTLE_ENDIAN ->
       byte3 (random_mac_addr v) = byte_of_Z v /\
       byte4 (random_mac_addr v) = byte_of_Z (Z.shiftr v 8) /\
       byte5 (random_mac_addr v) = byte_of_Z (Z.shiftr v 16)) /\
      rte_is_zero_ether_addr (random_mac_addr v) = false) /\
  exists (r : Z) (d' : rte_eth_dev) (ev : list event),
    eth_txgbevf_dev_init d = Done r d' /\
    trace d' = trace d ++ ev /\
    (forall rc a size,
        In (ResetHw rc a) ev ->
        rte_is_zero_ether_addr a = true ->
        In (RteZmalloc size true) ev ->
        exists v rc2,
          In (RteRand v) ev /\
          In (Mbx (SetRarVf 1 (random_mac_addr v) 0 1) rc2) ev /\
          perm_addr (hw d') = random_mac_addr v /\
          rte_is_zero_ether_addr (perm_addr (hw d')) = false /\
          (rc2 = 0 ->
           exists rest, mac_addrs d' = Some (random_mac_addr v :: rest))).
Proof.
  intros Hprimary. split; [exact random_mac_addr_bytes|].
  destruct (dev_init_primary_run d Hprimary)
    as (rc0 & rc1 & perm & tried & rcq & ok & v & rc2 & rc3 & d'
        & Hrun & Htr & _ & Hres).
  exists (primary_result rc0 rc1 perm ok rc2 rc3), d'.
  eexists. split; [exact Hrun|]. split; [exact Htr|].
  intros rc a size [H|H] Hzero [Ha|Ha]; try discriminate.
  apply run_reset in H. destruct H as (H0 & _ & ->).
  apply run_alloc in Ha. destruct Ha as (_ & Hreset & <-).
  assert (Hreach : reaches_resolve rc0 rc1 true = true).
  { unfold reaches_resolve. subst rc0. now rewrite Hreset. }
  destruct (Hres Hreach) as (Hperm & Hmac).
  destruct (@run_resolves_zero d rc0 rc1 perm tried rcq true v rc2 rc3
              Hreach Hzero)
    as (Hrand & Hinst).
  unfold resolve_perm in Hperm. unfold resolve_table, resolve_perm in Hmac.
  rewrite Hzero in Hperm, Hmac.
  exists v, rc2. split; [now right|]. split; [now right|].
  split; [exact Hperm|]. split.
  - rewrite Hperm. apply random_mac_addr_bytes.
  - intros ->. rewrite Hmac. cbn. eauto.
Qed.

(** C6 (failed installation): when, in a primary init, the request that
    installs the random permanent address returns a non-zero code, init
    returns that code, the allocation is followed by its release, which is
    the last event of the run, and the address list pointer is NULL
    afterwards. *)
Theorem init_install_failure_frees_table (d : rte_eth_dev) :
  rte_eal_process_type E = RTE_PROC_PRIMARY ->
  exists (r : Z) (d' : rte_eth_dev) (ev : list event),
    eth_txgbevf_dev_init d = Done r d' /\
    trace d' = trace d ++ ev /\
    (forall i a q e rc,
        In (Mbx (SetRarVf i a q e) rc) ev ->
        rc <> 0 ->
        r = rc /\
        mac_addrs d' = None /\
        exists pre size v,
          ev = pre ++ [RteZmalloc size true; RteRand v;
                       Mbx (SetRarVf i a q e) rc; RteFree]).
Proof.
  intros Hprimary.
  destruct (dev_init_primary_run d Hprimary)
    as (rc0 & rc1 & perm & tried & rcq & ok & v & rc2 & rc3 & d'
        & Hrun & Htr & _ & Hres).
  exists (primary_result rc0 rc1 perm ok rc2 rc3), d'.
  eexists. split; [exact Hrun|]. split; [exact Htr|].
  intros i a q e rc [H|H] Hrc; [discriminate|].
  apply run_install in H.
  destruct H as (-> & -> & -> & -> & -> & Hreach & Hzero).
  destruct (Hres Hreach) as (_ & Hmac).
  destruct (@run_install_failed d rc0 rc1 perm tried rcq ok v rc2 rc3
              Hreach Hzero Hrc)
    as (Hr & Htbl & pre & Hev).
  split; [exact Hr|]. split; [now rewrite Hmac|].
  exists (Log DEBUG FuncTrace :: pre), table_bytes, v.
  cbn [app]. now rewrite Hev.
Qed.

(** C7 (secondary attach): in a secondary process that finds zero transmit
    queues configured, init returns 0; it only logs, selects the receive
    function and sets the operations table: no event reaches the hardware,
    no transmit function is selected (the default one stays bound) and the
    queue array is not indexed.  The guard of line 119 is on the queue array,
    which the ethdev layer leaves NULL while the count is zero; this file
    writes neither of the two fields. *)
Theorem init_secondary_tx_function (d : rte_eth_dev) :
  rte_eal_process_type E = RTE_PROC_SECONDARY ->
  (nb_tx_queues d = 0 -> tx_queues d = None) ->
  nb_tx_queues d = 0 ->
  exists ev,
    eth_txgbevf_dev_init d
    = Done 0 (set_trace (trace d ++ ev)
                (set_dev_ops (Some txgbevf_eth_dev_ops) d)) /\
    ev = [Log DEBUG FuncTrace; Log NOTICE NoTxQueuesConfigured;
          SetRxFunction] /\
    Forall (fun e => touches_hardware e = false) ev /\
    (forall txq, ~ In (SetTxFunction txq) ev).
Proof.
  intros Hsecondary Harray Hcount.
  pose proof (Harray Hcount) as Hnull.
  eexists. split; [|split; [reflexivity|split]].
  - unfold eth_txgbevf_dev_init, init_secondary. rewrite Hsecondary.
    run_prims. rewrite Hnull. run_prims.
    rewrite <- !app_assoc. reflexivity.
  - repeat constructor.
  - intros txq H. cbn in H. intuition discriminate.
Qed.

(** ** Further properties of the address table operations *)

Lemma mbx_requests_replay_events (answers : list (rte_ether_addr * Z)) :
  mbx_requests (replay_events answers)
  = map (fun p => add_unicast (fst p)) answers.
Proof.
  induction answers as [|[a rc] t IH]; simpl; [reflexivity|].
  destruct (rc =? 0); simpl; now rewrite IH.
Qed.

Lemma replay_slot_events (index i : Z) (d : rte_eth_dev)
  (tbl : list rte_ether_addr) (a : rte_ether_addr) :
  mac_addrs d = Some tbl ->
  0 <= i ->
  nth_error tbl (Z.to_nat i) = Some a ->
  exists answers,
    replay_slot index i d
    = Done tt (set_trace (trace d ++ replay_events answers) d) /\
    map fst answers
    = if replays (perm_addr (hw d)) index i a then [a] else [].
Proof.
  intros Htbl Hi Hnth.
  unfold replay_slot, replays.
  destruct (i =? index) eqn:Hidx; simpl.
  - exists []. simpl. now rewrite set_trace_nil.
  - unfold bind at 1. unfold gets at 1. rewrite Htbl.
    unfold bind at 1. unfold load.
    destruct (i <? 0) eqn:Hneg; [apply Z.ltb_lt in Hneg; lia|].
    rewrite Hnth. unfold ret at 1.
    destruct (rte_is_zero_ether_addr a); simpl.
    + exists []. simpl. now rewrite set_trace_nil.
    + unfold bind at 1. unfold gets at 1.
      destruct (memcmp _ _ _ =? 0); simpl.
      * exists []. simpl. now rewrite set_trace_nil.
      * unfold bind, txgbevf_set_uc_addr_vf, mailbox.
        fold (add_unicast a).
        set (rc := mbx_reply E (trace d) (add_unicast a)).
        exists [(a, rc)]. split; [|reflexivity].
        unfold replay_events, readd_events. simpl.
        destruct (rc =? 0); simpl; [reflexivity|].
        unfold log, emit, modify, set_trace; simpl.
        now rewrite <- app_assoc.
Qed.

Lemma replay_loop_events (index : Z) (l pre : list rte_ether_addr) :
  forall d : rte_eth_dev,
    mac_addrs d = Some (pre ++ l) ->
    exists answers,
      for_loop (length l) (Z.of_nat (length pre)) (replay_slot index) d
      = Done tt (set_trace (trace d ++ replay_events answers) d) /\
      map fst answers
      = map snd (replayed_from (perm_addr (hw d)) index
                   (Z.of_nat (length pre)) l).
Proof.
  revert pre. induction l as [|a t IH]; intros pre d Htbl.
  - exists []. simpl. split; [now rewrite set_trace_nil | reflexivity].
  - simpl for_loop. unfold bind.
    destruct (@replay_slot_events index (Z.of_nat (length pre)) d
                (pre ++ a :: t) a)
      as (ans1 & Hrun & Hans); trivial; [lia | |].
    { rewrite Nat2Z.id, nth_error_app2, Nat.sub_diag by lia. reflexivity. }
    rewrite Hrun.
    set (d1 := set_trace (trace d ++ replay_events ans1) d).
    destruct (IH (pre ++ [a]) d1) as (ans2 & Hrun2 & Hans2).
    { subst d1; simpl. rewrite Htbl, <- app_assoc. reflexivity. }
    rewrite length_app in Hrun2, Hans2; simpl length in Hrun2, Hans2.
    replace (Z.of_nat (length pre + 1)) with (Z.of_nat (length pre) + 1)
      in Hrun2, Hans2 by lia.
    rewrite Hrun2. exists (ans1 ++ ans2). split.
    + subst d1. unfold replay_events. rewrite flat_map_app.
      unfold set_trace; simpl. now rewrite <- app_assoc.
    + rewrite map_app, Hans, Hans2. simpl replayed_from.
      rewrite map_app. subst d1; simpl.
      now destruct (replays _ _ _ _).
Qed.

Lemma remove_mac_addr_events_run (index : Z) (d : rte_eth_dev)
  (tbl : list rte_ether_addr) :
  mac_addrs d = Some tbl ->
  Z.of_nat (length tbl) = num_rar_entries (hw d) ->
  exists answers : list (rte_ether_addr * Z),
    txgbevf_remove_mac_addr index d
    = Done tt
        (set_trace
           (trace d
            ++ Mbx clear_all_unicast (mbx_reply E (trace d) clear_all_unicast)
            :: replay_events answers) d) /\
    map fst answers
    = map snd (replayed_from (perm_addr (hw d)) index 0 tbl).
Proof.
  intros Htbl Hlen.
  set (rc := mbx_reply E (trace d) clear_all_unicast).
  set (d1 := set_trace (trace d ++ [Mbx clear_all_unicast rc]) d).
  destruct (@replay_loop_events index tbl [] d1) as (answers & Hrun & Hans);
    [exact Htbl|].
  simpl in Hrun, Hans.
  exists answers. split; [|exact Hans].
  unfold txgbevf_remove_mac_addr, bind, txgbevf_set_uc_addr_vf, mailbox, gets.
  fold clear_all_unicast. fold rc. fold d1.
  replace (num_rar_entries (hw d1)) with (num_rar_entries (hw d))
    by reflexivity.
  rewrite <- Hlen, Nat2Z.id, Hrun. subst d1.
  unfold set_trace; simpl. now rewrite <- app_assoc.
Qed.

Lemma replay_events_logs (answers : list (rte_ether_addr * Z)) :
  (forall a code,
      In (Log ERR (AddingAgainFailed a code)) (replay_events answers) <->
      In (a, code) answers /\ code <> 0) /\
  (forall lvl m,
      In (Log lvl m) (replay_events answers) ->
      exists a code, lvl = ERR /\ m = AddingAgainFailed a code).
Proof.
  split.
  - intros a code. unfold replay_events. rewrite in_flat_map. split.
    + intros ([a' code'] & Hin & Hlog). unfold readd_events in Hlog.
      simpl in Hlog. destruct Hlog as [Hlog|Hlog]; [discriminate|].
      destruct (code' =? 0) eqn:Hcode; simpl in Hlog; [destruct Hlog|].
      destruct Hlog as [Hlog|[]]. injection Hlog as <- <-.
      apply Z.eqb_neq in Hcode. auto.
    + intros (Hin & Hcode). exists (a, code). split; [exact Hin|].
      unfold readd_events. simpl. apply Z.eqb_neq in Hcode.
      rewrite Hcode. simpl. auto.
  - intros lvl m. unfold replay_events. rewrite in_flat_map.
    intros ([a code] & _ & Hlog). unfold readd_events in Hlog. simpl in Hlog.
    destruct Hlog as [Hlog|Hlog]; [discriminate|].
    destruct (code =? 0); simpl in Hlog; [destruct Hlog|].
    destruct Hlog as [Hlog|[]]. injection Hlog as <- <-. eauto.
Qed.

(** X1 (replay trace): on a table of [num_rar_entries] slots the events of
    a removal are the clear-all exchange followed, for each slot submitted
    again and in table order, by its add exchange and, exactly when that
    exchange returned a non-zero code, one error log line for that address;
    a refusal never ends the replay. *)
Theorem remove_mac_addr_events (index : Z) (d : rte_eth_dev)
  (tbl : list rte_ether_addr) :
  mac_addrs d = Some tbl ->
  Z.of_nat (length tbl) = num_rar_entries (hw d) ->
  exists (rc : Z) (answers : list (rte_ether_addr * Z)),
    txgbevf_remove_mac_addr index d
    = Done tt
        (set_trace
           (trace d ++ Mbx clear_all_unicast rc :: replay_events answers) d) /\
    map fst answers
    = map snd (replayed_from (perm_addr (hw d)) index 0 tbl) /\
    (forall a code,
        In (Log ERR (AddingAgainFailed a code)) (replay_events answers) <->
        In (a, code) answers /\ code <> 0) /\
    (forall lvl m,
        In (Log lvl m) (replay_events answers) ->
        exists a code, lvl = ERR /\ m = AddingAgainFailed a code).
Proof.
  intros Htbl Hlen.
  destruct (remove_mac_addr_events_run index d Htbl Hlen)
    as (answers & Hrun & Hans).
  exists (mbx_reply E (trace d) clear_all_unicast), answers.
  split; [exact Hrun|]. split; [exact Hans|]. apply replay_events_logs.
Qed.

Lemma replayed_from_length (perm : rte_ether_addr) (index : Z)
  (l : list rte_ether_addr) :
  forall i : Z,
    Z.of_nat (length (replayed_from perm index i l))
    + (if (i <=? index) && (index <? i + Z.of_nat (length l)) then 1 else 0)
    <= Z.of_nat (length l).
Proof.
  induction l as [|a t IH]; intros i.
  - simpl. destruct (i <=? index) eqn:H1, (index <? i + 0) eqn:H2; simpl;
      rewrite ?Z.leb_le, ?Z.ltb_lt in *; lia.
  - simpl replayed_from. rewrite length_app, Nat2Z.inj_add.
    specialize (IH (i + 1)). simpl length. rewrite Nat2Z.inj_succ.
    assert (Hhead : Z.of_nat (length (if replays perm index i a
                                      then [(i, a)] else []))
                    <= (if i =? index then 0 else 1)).
    { unfold replays. destruct (i =? index); simpl; [lia|].
      destruct (negb (rte_is_zero_ether_addr a)
                && negb (memcmp (addr_bytes perm) (addr_bytes a)
                           sizeof_rte_ether_addr =? 0)); simpl; lia. }
    destruct (i =? index) eqn:Hidx;
      destruct ((i <=? index) && (index <? i + Z.succ (Z.of_nat (length t))))
        eqn:H1;
      destruct ((i + 1 <=? index) && (index <? i + 1 + Z.of_nat (length t)))
        eqn:H2;
      rewrite ?andb_true_iff, ?andb_false_iff, ?Z.leb_le, ?Z.leb_gt,
        ?Z.ltb_lt, ?Z.ltb_ge, ?Z.eqb_eq, ?Z.eqb_neq in *;
      lia.
Qed.

(** X2 (replay bound): a removal sends at most one mailbox request per
    slot of the table plus the clear-all request, and at most one request
    per slot in total when the removed index designates a slot. *)
Theorem remove_mac_addr_request_bound (index : Z) (d : rte_eth_dev)
  (tbl : list rte_ether_addr) :
  mac_addrs d = Some tbl ->
  Z.of_nat (length tbl) = num_rar_entries (hw d) ->
  exists ev,
    txgbevf_remove_mac_addr index d = Done tt (set_trace (trace d ++ ev) d) /\
    Z.of_nat (length (mbx_requests ev)) <= num_rar_entries (hw d) + 1 /\
    (0 <= index < num_rar_entries (hw d) ->
     Z.of_nat (length (mbx_requests ev)) <= num_rar_entries (hw d)).
Proof.
  intros Htbl Hlen.
  destruct (remove_mac_addr_run index d Htbl Hlen) as (ev & Hrun & Hreq).
  eexists. split; [exact Hrun|].
  change (mbx_requests (Mbx clear_all_unicast
                          (mbx_reply E (trace d) clear_all_unicast) :: ev))
    with (clear_all_unicast :: mbx_requests ev).
  simpl length. rewrite Hreq, !length_map, Nat2Z.inj_succ.
  pose proof (replayed_from_length (perm_addr (hw d)) index tbl 0) as Hb.
  rewrite <- Hlen. split.
  - destruct ((0 <=? index) && (index <? 0 + Z.of_nat (length tbl))); lia.
  - intros Hidx.
    replace ((0 <=? index) && (index <? 0 + Z.of_nat (length tbl))) with true
      in Hb.
    + lia.
    + symmetry. apply andb_true_iff. split;
        [apply Z.leb_le | apply Z.ltb_lt]; lia.
Qed.

Lemma replay_slot_null (index i : Z) (d : rte_eth_dev) :
  mac_addrs d = None ->
  i <> index ->
  replay_slot index i d = Undefined NullDereference.
Proof.
  intros Hnull Hne. unfold replay_slot.
  apply Z.eqb_neq in Hne. rewrite Hne.
  unfold bind, gets. rewrite Hnull. reflexivity.
Qed.

Lemma replay_slot_removed (index : Z) (d : rte_eth_dev) :
  replay_slot index index d = Done tt d.
Proof. unfold replay_slot. now rewrite Z.eqb_refl. Qed.

Lemma remove_mac_addr_null_run (index : Z) (d : rte_eth_dev) :
  mac_addrs d = None ->
  2 <= num_rar_entries (hw d) ->
  txgbevf_remove_mac_addr index d = Undefined NullDereference.
Proof.
  intros Hnull Hn.
  unfold txgbevf_remove_mac_addr, bind, txgbevf_set_uc_addr_vf, mailbox, gets.
  cbn [hw set_trace].
  destruct (Z.to_nat (num_rar_entries (hw d))) as [|[|k]] eqn:Hk; try lia.
  set (d1 := set_trace _ d).
  assert (Hnull1 : mac_addrs d1 = None) by exact Hnull.
  simpl for_loop. unfold bind.
  destruct (Z.eq_dec 0 index) as [<-|Hne].
  - rewrite replay_slot_removed.
    rewrite (@replay_slot_null 0 1 d1 Hnull1); [reflexivity | lia].
  - now rewrite (@replay_slot_null index 0 d1 Hnull1).
Qed.

(** X3 (removal without a table): when the address list pointer is NULL a
    removal still sends the clear-all request, and then dereferences the
    NULL pointer as soon as the loop meets a slot other than the removed
    one; it is defined only when there is no such slot, and then it sends
    nothing else. *)
Theorem remove_mac_addr_null_table (index : Z) (d : rte_eth_dev) :
  mac_addrs d = None ->
  (2 <= num_rar_entries (hw d) \/
   (num_rar_entries (hw d) = 1 /\ index <> 0) ->
   txgbevf_remove_mac_addr index d = Undefined NullDereference) /\
  (num_rar_entries (hw d) <= 0 \/
   (num_rar_entries (hw d) = 1 /\ index = 0) ->
   txgbevf_remove_mac_addr index d
   = Done tt
       (set_trace
          (trace d
           ++ [Mbx clear_all_unicast
                 (mbx_reply E (trace d) clear_all_unicast)]) d)).
Proof.
  intros Hnull. split.
  - intros [Hn | (Hn & Hidx)]; [now apply remove_mac_addr_null_run|].
    unfold txgbevf_remove_mac_addr, bind, txgbevf_set_uc_addr_vf, mailbox, gets.
    cbn [hw set_trace]. rewrite Hn. simpl for_loop. unfold bind.
    rewrite replay_slot_null; [reflexivity | exact Hnull | lia].
  - intros [Hn | (Hn & ->)];
      unfold txgbevf_remove_mac_addr, bind, txgbevf_set_uc_addr_vf, mailbox,
        gets; cbn [hw set_trace].
    + destruct (Z.to_nat (num_rar_entries (hw d))) eqn:Hk; [reflexivity|lia].
    + rewrite Hn. simpl for_loop. unfold bind.
      now rewrite replay_slot_removed.
Qed.

Lemma table_call_add_events (a : rte_ether_addr) (rc : Z) :
  Forall (fun e => table_call_event e = true) (add_events a rc).
Proof.
  unfold add_events. destruct (negb (rc =? 0)); repeat constructor.
Qed.

Lemma table_call_replay_events (answers : list (rte_ether_addr * Z)) :
  Forall (fun e => table_call_event e = true) (replay_events answers).
Proof.
  induction answers as [|[a rc] t IH]; [constructor|].
  unfold replay_events in *. simpl. unfold readd_events at 1.
  destruct (negb (rc =? 0)); simpl; repeat (constructor; [reflexivity|]);
    exact IH.
Qed.

Lemma dispatch_run (c : eth_dev_call) (d : rte_eth_dev)
  (tbl : list rte_ether_addr) :
  mac_addrs d = Some tbl ->
  Z.of_nat (length tbl) = num_rar_entries (hw d) ->
  exists ev,
    dispatch c d = Done tt (set_trace (trace d ++ ev) d) /\
    Forall (fun e => table_call_event e = true) ev.
Proof.
  intros Htbl Hlen. destruct c as [|a index pool|index|a]; simpl.
  - exists []. split; [|constructor].
    unfold bind. rewrite set_trace_nil. reflexivity.
  - unfold bind.
    destruct (memcmp (addr_bytes (perm_addr (hw d))) (addr_bytes a)
                sizeof_rte_ether_addr =? 0) eqn:Hcmp.
    + apply memcmp_ether_addr_eqb in Hcmp. subst a.
      rewrite add_mac_addr_perm. exists []. split; [|constructor].
      now rewrite set_trace_nil.
    + apply memcmp_ether_addr_neqb in Hcmp.
      rewrite add_mac_addr_other by congruence.
      eexists. split; [reflexivity|]. apply table_call_add_events.
  - destruct (remove_mac_addr_events_run index d Htbl Hlen)
      as (answers & Hrun & _).
    eexists. split; [exact Hrun|].
    constructor; [reflexivity|]. apply table_call_replay_events.
  - unfold bind. rewrite set_default_mac_addr_run.
    eexists. split; [reflexivity|]. repeat constructor.
Qed.

Lemma dispatch_all_run (calls : list eth_dev_call) :
  forall (d : rte_eth_dev) (tbl : list rte_ether_addr),
    mac_addrs d = Some tbl ->
    Z.of_nat (length tbl) = num_rar_entries (hw d) ->
    exists ev,
      dispatch_all calls d = Done tt (set_trace (trace d ++ ev) d) /\
      Forall (fun e => table_call_event e = true) ev.
Proof.
  induction calls as [|c rest IH]; intros d tbl Htbl Hlen.
  - exists []. split; [|constructor].
    simpl. unfold ret. now rewrite set_trace_nil.
  - simpl. unfold bind.
    destruct (dispatch_run c d Htbl Hlen) as (ev1 & Hrun1 & Hev1).
    rewrite Hrun1.
    destruct (IH (set_trace (trace d ++ ev1) d) tbl Htbl Hlen)
      as (ev2 & Hrun2 & Hev2).
    rewrite Hrun2. exists (ev1 ++ ev2). split.
    + unfold set_trace; simpl. now rewrite <- app_assoc.
    + apply Forall_app. split; assumption.
Qed.

(** X4 (calls through the operations table): starting from a device whose
    address list has [num_rar_entries] slots, no sequence of get-info, add,
    remove and set-default calls faults, and the device comes out of it
    unchanged but for its trace, in which the calls leave only unicast
    mailbox requests, slot-0 writes and error log lines.  A removal issued
    after the calls therefore submits the same slots as before them: what
    was added or made default in between is not remembered by the driver. *)
Theorem dispatch_all_frame (calls : list eth_dev_call) (d : rte_eth_dev)
  (tbl : list rte_ether_addr) :
  mac_addrs d = Some tbl ->
  Z.of_nat (length tbl) = num_rar_entries (hw d) ->
  exists ev d',
    dispatch_all calls d = Done tt d' /\
    d' = set_trace (trace d ++ ev) d /\
    Forall (fun e => table_call_event e = true) ev /\
    (forall index,
        exists after,
          txgbevf_remove_mac_addr index d'
          = Done tt (set_trace (trace d' ++ after) d') /\
          mbx_requests after
          = clear_all_unicast
            :: map (fun j => add_unicast (slot tbl j))
                 (map fst (replayed_from (perm_addr (hw d)) index 0 tbl))).
Proof.
  intros Htbl Hlen.
  destruct (dispatch_all_run calls d Htbl Hlen) as (ev & Hrun & Hev).
  exists ev, (set_trace (trace d ++ ev) d).
  split; [exact Hrun|]. split; [reflexivity|]. split; [exact Hev|].
  intros index.
  destruct (@remove_mac_addr_run index (set_trace (trace d ++ ev) d) tbl
              Htbl Hlen) as (after & Hrem & Hreq).
  eexists. split; [exact Hrem|].
  cbn [mbx_requests]. now rewrite Hreq.
Qed.

(** ** Device close *)

Lemma assign_perm_addr_frame (a : option rte_ether_addr) (h : txgbe_hw) :
  num_rar_entries (assign_perm_addr a h) = num_rar_entries h.
Proof. now destruct a. Qed.

Lemma dev_close_run (d : rte_eth_dev) (tbl : list rte_ether_addr) :
  rte_eal_process_type E = RTE_PROC_PRIMARY ->
  mac_addrs d = Some tbl ->
  Z.of_nat (length tbl) = num_rar_entries (hw d) ->
  exists (d' : rte_eth_dev) (rc rc' : Z) (answers : list (rte_ether_addr * Z)),
    txgbevf_dev_close d = Done 0 d' /\
    trace d'
    = trace d
      ++ Log DEBUG FuncTrace :: ResetHw rc (perm_addr (hw d')) :: FreeQueues
         :: Mbx clear_all_unicast rc'
         :: replay_events answers ++ intr_disable_events ++ [RteFree] /\
    map fst answers
    = map snd (replayed_from (perm_addr (hw d')) 0 0 tbl) /\
    mac_addrs d' = None /\
    mask_misc d' = u32 (TXGBE_VFIMS_MASK K) /\
    num_rar_entries (hw d') = num_rar_entries (hw d) /\
    api_version (hw d') = txgbe_mbox_api_10.
Proof.
  intros Hprimary Htbl Hlen.
  unfold txgbevf_dev_close. rewrite Hprimary. run_prims.
  set (reply := reset_hw_reply E (trace d ++ [Log DEBUG FuncTrace])).
  set (h1 := assign_perm_addr (snd reply)
               (set_api_version txgbe_mbox_api_10 (hw d))).
  match goal with
  | |- context [txgbevf_remove_mac_addr 0 ?s] => set (d1 := s)
  end.
  assert (Hn1 : num_rar_entries h1 = num_rar_entries (hw d)).
  { subst h1. now rewrite assign_perm_addr_frame. }
  destruct (@remove_mac_addr_events_run 0 d1 tbl) as (answers & Hrun & Hans).
  { exact Htbl. }
  { subst d1. cbn [hw set_trace set_hw]. now rewrite Hn1. }
  rewrite Hrun. run_prims.
  eexists. exists (fst reply), (mbx_reply E (trace d1) clear_all_unicast), answers.
  split; [reflexivity|]. cbn [trace hw mac_addrs mask_misc set_trace set_hw
                               set_mask_misc set_mac_addrs].
  split.
  - subst d1. cbn [trace hw set_trace set_hw]. unfold intr_disable_events.
    repeat (rewrite <- app_assoc; cbn [app]). reflexivity.
  - split; [exact Hans|]. split; [reflexivity|]. split; [reflexivity|].
    split; [exact Hn1|]. subst h1. now destruct (snd reply).
Qed.

(** X5 (close): in the primary process, on a device whose address list has
    [num_rar_entries] slots, close returns 0 and never faults.  It resets
    the hardware, releases the queues, sends the clear-all request and
    submits again every slot other than slot 0 that holds a non-zero
    address different from the permanent address left by the reset; then it
    masks the interrupts and releases the address list, which is its last
    event.  Afterwards the list pointer is NULL and the mask mirror holds
    the full mask. *)
Theorem dev_close_primary (d : rte_eth_dev) (tbl : list rte_ether_addr) :
  rte_eal_process_type E = RTE_PROC_PRIMARY ->
  mac_addrs d = Some tbl ->
  Z.of_nat (length tbl) = num_rar_entries (hw d) ->
  exists (d' : rte_eth_dev) (rc rc' : Z) (replay : list event)
         (slots : list Z),
    txgbevf_dev_close d = Done 0 d' /\
    trace d'
    = trace d
      ++ Log DEBUG FuncTrace :: ResetHw rc (perm_addr (hw d')) :: FreeQueues
         :: Mbx clear_all_unicast rc'
         :: replay ++ intr_disable_events ++ [RteFree] /\
    mbx_requests replay = map (fun j => add_unicast (slot tbl j)) slots /\
    (forall j : Z,
        In j slots <->
        0 <= j < Z.of_nat (length tbl) /\ j <> 0 /\
        rte_is_zero_ether_addr (slot tbl j) = false /\
        slot tbl j <> perm_addr (hw d')) /\
    mac_addrs d' = None /\
    mask_misc d' = u32 (TXGBE_VFIMS_MASK K).
Proof.
  intros Hprimary Htbl Hlen.
  destruct (dev_close_run d Hprimary Htbl Hlen)
    as (d' & rc & rc' & answers & Hrun & Htr & Hans & Hnull & Hmask & _).
  exists d', rc, rc', (replay_events answers),
    (map fst (replayed_from (perm_addr (hw d')) 0 0 tbl)).
  split; [exact Hrun|]. split; [exact Htr|]. split.
  - rewrite mbx_requests_replay_events, <- replayed_from_slot.
    rewrite <- (map_map fst add_unicast), Hans, map_map. reflexivity.
  - split; [apply replayed_slots|]. split; assumption.
Qed.

(** X6 (close twice): closing a second time, in the primary process, a
    device that had at least two slots dereferences the NULL pointer the
    first close left in the address list. *)
Theorem dev_close_twice (d : rte_eth_dev) (tbl : list rte_ether_addr) :
  rte_eal_process_type E = RTE_PROC_PRIMARY ->
  mac_addrs d = Some tbl ->
  Z.of_nat (length tbl) = num_rar_entries (hw d) ->
  2 <= num_rar_entries (hw d) ->
  exists d',
    txgbevf_dev_close d = Done 0 d' /\
    txgbevf_dev_close d' = Undefined NullDereference.
Proof.
  intros Hprimary Htbl Hlen Hn.
  destruct (dev_close_run d Hprimary Htbl Hlen)
    as (d' & rc & rc' & answers & Hrun & _ & _ & Hnull & _ & Hn' & _).
  exists d'. split; [exact Hrun|].
  unfold txgbevf_dev_close. rewrite Hprimary. run_prims.
  match goal with
  | |- context [txgbevf_remove_mac_addr 0 ?s] => set (d1 := s)
  end.
  rewrite (@remove_mac_addr_null_run 0 d1); [reflexivity | exact Hnull |].
  subst d1. cbn [hw set_trace set_hw].
  rewrite assign_perm_addr_frame. cbn. lia.
Qed.

(** ** The state after init *)

Lemma negotiate_api_attempts (d : rte_eth_dev) :
  exists (tried : list (mbox_api * Z)) (v : mbox_api),
    txgbevf_negotiate_api d
    = Done tt (set_trace (trace d ++ negotiation_events tried)
                 (set_hw (set_api_version v (hw d)) d)) /\
    tried <> [] /\
    exists rest, sup_ver = map fst tried ++ rest.
Proof.
  destruct (negotiate_from_run sup_ver d) as (tried & Hpre & _ & Hcases).
  destruct Hcases as [(failed & v & Htried & _ & Hrun) | (Hall & _ & Hrun)].
  - exists tried, v. split; [exact Hrun|]. split; [|exact Hpre].
    rewrite Htried. now destruct failed.
  - exists tried, (api_version (hw d)). split.
    + now rewrite set_api_version_same.
    + split; [|exact Hpre]. intros ->. discriminate.
Qed.

Lemma init_start_state (d : rte_eth_dev) (x : rte_ether_addr)
  (t : list rte_ether_addr) :
  mac_addrs d = Some (x :: t) ->
  exists d',
    init_start d = Done (start_result (start_hw_reply E (trace d))) d' /\
    trace d' = trace d ++ start_events d (start_hw_reply E (trace d)) /\
    hw d' = hw d /\
    mac_addrs d' = Some (perm_addr (hw d) :: t) /\
    mask_misc d'
    = (if negb (start_hw_reply E (trace d) =? 0) then mask_misc d else 0) /\
    dev_ops d' = dev_ops d.
Proof.
  intros Htbl.
  unfold init_start, start_result, start_events, intr_enable_events.
  run_prims. rewrite Htbl. cbn [Z.ltb Z.compare Z.to_nat list_store].
  run_prims.
  destruct (start_hw_reply E (trace d) =? 0); cbn [negb];
    (eexists; split; [reflexivity|]); run_prims;
    rewrite <- !app_assoc; repeat split.
Qed.

Lemma init_resolve_address_state (d : rte_eth_dev) (x : rte_ether_addr)
  (t : list rte_ether_addr) :
  mac_addrs d = Some (x :: t) ->
  exists (v rc2 rc3 : Z) (d' : rte_eth_dev),
    init_resolve_address d
    = Done (resolve_result (perm_addr (hw d)) rc2 rc3) d' /\
    trace d' = trace d ++ resolve_events d (perm_addr (hw d)) v rc2 rc3 /\
    perm_addr (hw d') = resolve_perm (perm_addr (hw d)) v /\
    num_rar_entries (hw d') = num_rar_entries (hw d) /\
    mac_addrs d'
    = (if rte_is_zero_ether_addr (perm_addr (hw d)) && negb (rc2 =? 0)
       then None
       else Some (resolve_perm (perm_addr (hw d)) v :: t)) /\
    mask_misc d'
    = (if rte_is_zero_ether_addr (perm_addr (hw d)) && negb (rc2 =? 0)
       then mask_misc d
       else if negb (rc3 =? 0) then mask_misc d else 0) /\
    dev_ops d' = dev_ops d.
Proof.
  intros Htbl.
  unfold init_resolve_address, resolve_result, resolve_events, resolve_perm.
  run_prims.
  destruct (rte_is_zero_ether_addr (perm_addr (hw d))) eqn:Hzero;
    cbn [andb].
  - set (v := u64 (rte_rand_reply E (trace d))).
    set (new := random_mac_addr v).
    set (rc2 := mbx_reply E (trace d ++ [RteRand v]) (SetRarVf 1 new 0 1)).
    destruct (rc2 =? 0) eqn:Hrc2; cbn [negb].
    + match goal with
      | |- context [init_start ?s] => set (d1 := s)
      end.
      destruct (@init_start_state d1 x t)
        as (d' & Hrun & Htr & Hhw & Hmac & Hmask & Hops); [exact Htbl|].
      exists v, rc2, (start_hw_reply E (trace d1)), d'.
      rewrite Hrc2. split; [exact Hrun|].
      rewrite Htr, Hhw, Hmac, Hmask, Hops. subst d1. run_prims.
      rewrite <- !app_assoc. cbn [app].
      rewrite (@start_events_ext _ d) by reflexivity. repeat split.
    + exists v, rc2, 0. eexists. rewrite Hrc2. cbn [negb].
      split; [reflexivity|]. run_prims. rewrite <- !app_assoc. repeat split.
  - destruct (@init_start_state d x t)
      as (d' & Hrun & Htr & Hhw & Hmac & Hmask & Hops); [exact Htbl|].
    exists 0, 0, (start_hw_reply E (trace d)), d'.
    split; [exact Hrun|]. rewrite Htr, Hhw, Hmac, Hmask, Hops. repeat split.
Qed.

Lemma init_after_reset_state (d : rte_eth_dev) :
  num_rar_entries (hw d) = 128 ->
  exists (tried : list (mbox_api * Z)) (rcq : Z) (ok : bool) (v rc2 rc3 : Z)
         (d' : rte_eth_dev),
    init_after_reset d
    = Done (after_reset_result (perm_addr (hw d)) ok rc2 rc3) d' /\
    trace d'
    = trace d ++ after_reset_events d (perm_addr (hw d)) tried rcq ok v rc2 rc3 /\
    num_rar_entries (hw d') = 128 /\
    mac_addrs d'
    = (if ok then resolve_table (perm_addr (hw d)) v rc2 else None) /\
    mask_misc d'
    = (if ok then
         if rte_is_zero_ether_addr (perm_addr (hw d)) && negb (rc2 =? 0)
         then mask_misc d
         else if negb (rc3 =? 0) then mask_misc d else 0
       else mask_misc d) /\
    (ok = true -> perm_addr (hw d') = resolve_perm (perm_addr (hw d)) v) /\
    (ok = false -> perm_addr (hw d') = perm_addr (hw d)) /\
    dev_ops d' = dev_ops d /\
    tried <> [] /\
    exists rest, sup_ver = map fst tried ++ rest.
Proof.
  intros Hn.
  destruct (negotiate_api_attempts d) as (tried & ver & Hneg & Hne & Hpre).
  unfold init_after_reset, after_reset_result, after_reset_events.
  unfold bind at 1. rewrite Hneg.
  run_prims.
  set (t4 := trace d ++ negotiation_events tried).
  set (rcq := mbx_reply E t4 GetQueues).
  set (h5 := refresh_queue_limits (queue_limits E t4)
               (set_api_version ver (hw d))).
  destruct (refresh_queue_limits_frame (queue_limits E t4)
              (set_api_version ver (hw d))) as (Hn5 & Hperm5).
  fold h5 in Hn5, Hperm5. cbn in Hn5, Hperm5.
  rewrite Hn5, Hn. fold table_bytes.
  set (ok := rte_zmalloc_reply E (t4 ++ [Mbx GetQueues rcq])).
  destruct ok eqn:Hok.
  - rewrite table_entries.
    match goal with
    | |- context [init_resolve_address ?s] => set (d6 := s)
    end.
    destruct (@init_resolve_address_state d6 zero_ether_addr
                (repeat zero_ether_addr 127))
      as (v & rc2 & rc3 & d' & Hrun & Htr & Hperm & Hnum & Hmac & Hmask & Hops);
      [reflexivity|].
    exists tried, rcq, true, v, rc2, rc3, d'.
    replace (perm_addr (hw d6)) with (perm_addr (hw d)) in *
      by (subst d6; cbn; now rewrite Hperm5).
    split; [exact Hrun|]. split.
    + rewrite Htr. subst d6 t4. cbn [trace set_trace set_mac_addrs set_hw].
      rewrite <- !app_assoc. cbn [app].
      rewrite (@resolve_events_ext _ d) by reflexivity. reflexivity.
    + split.
      { rewrite Hnum. subst d6. cbn. rewrite Hn5. exact Hn. }
      split; [rewrite Hmac; reflexivity|].
      split; [exact Hmask|]. split; [intros _; exact Hperm|].
      split; [discriminate|]. split; [exact Hops|]. split; assumption.
  - exists tried, rcq, false, 0, 0, 0. eexists.
    split; [reflexivity|]. split.
    + subst t4. cbn [trace set_trace set_mac_addrs set_hw].
      rewrite <- !app_assoc. reflexivity.
    + cbn. rewrite Hn5, Hperm5.
      split; [exact Hn|]. split; [reflexivity|]. split; [reflexivity|].
      split; [discriminate|]. split; [reflexivity|]. split; [reflexivity|].
      split; assumption.
Qed.

Lemma dev_init_primary_state (d : rte_eth_dev) :
  rte_eal_process_type E = RTE_PROC_PRIMARY ->
  exists (rc0 rc1 : Z) (perm : rte_ether_addr) (tried : list (mbox_api * Z))
         (rcq : Z) (ok : bool) (v rc2 rc3 : Z) (d' : rte_eth_dev),
    eth_txgbevf_dev_init d = Done (primary_result rc0 rc1 perm ok rc2 rc3) d' /\
    trace d'
    = trace d
      ++ Log DEBUG FuncTrace
         :: primary_events d rc0 rc1 perm tried rcq ok v rc2 rc3 /\
    mask_misc d' = primary_mask d rc0 rc1 perm ok rc2 rc3 /\
    mac_addrs d' = primary_table d rc0 rc1 perm ok v rc2 /\
    dev_ops d' = Some txgbevf_eth_dev_ops /\
    (rc0 = 0 -> num_rar_entries (hw d') = 128) /\
    (reaches_resolve rc0 rc1 ok = true ->
     perm_addr (hw d') = resolve_perm perm v) /\
    tried <> [] /\
    exists rest, sup_ver = map fst tried ++ rest.
Proof.
  intros Hprimary. unfold eth_txgbevf_dev_init. rewrite Hprimary.
  unfold init_primary. run_prims.
  set (rc0 := init_shared_code_reply E
                ((trace d ++ [Log DEBUG FuncTrace]) ++ [CopyPciInfo])).
  destruct (rc0 =? 0) eqn:Hrc0; cbn [negb andb].
  - match goal with
    | |- context [reset_hw_reply E ?t] => set (reply := reset_hw_reply E t)
    end.
    match goal with
    | |- context [ResetHw (fst reply) (perm_addr ?h)] => set (h3 := h)
    end.
    set (rc1 := fst reply). set (perm := perm_addr h3).
    fold (reset_failed rc1).
    destruct (reset_failed rc1) eqn:Hreset.
    + exists rc0, rc1, perm, [(txgbe_mbox_api_13, 0)], 0, false, 0, 0, 0.
      eexists.
      unfold primary_result, primary_events, primary_mask, primary_table,
        reaches_resolve, intr_disable_events.
      rewrite Hrc0, Hreset. cbn [negb andb].
      split; [reflexivity|]. run_prims.
      rewrite <- !app_assoc. cbn [app].
      split; [reflexivity|].
      split; [reflexivity|]. split; [reflexivity|]. split; [reflexivity|].
      split; [intros _; subst h3; cbn; now rewrite assign_perm_addr_frame|].
      split; [discriminate|]. split; [discriminate|].
      now exists [txgbe_mbox_api_12; txgbe_mbox_api_11; txgbe_mbox_api_10].
    + match goal with
      | |- context [init_after_reset ?s] => set (d3 := s)
      end.
      destruct (@init_after_reset_state d3)
        as (tried & rcq & ok & v & rc2 & rc3 & d' & Hrun & Htr & Hnum & Hmac
            & Hmask & Hperm & _ & Hops & Hne & Hpre).
      { subst d3 h3. cbn. now rewrite assign_perm_addr_frame. }
      exists rc0, rc1, perm, tried, rcq, ok, v, rc2, rc3, d'.
      change (perm_addr (hw d3)) with perm in *.
      unfold primary_result, primary_events, primary_mask, primary_table,
        reaches_resolve, intr_disable_events.
      rewrite Hrc0, Hreset. cbn [negb andb].
      split; [exact Hrun|]. split.
      * rewrite Htr. subst d3. cbn [trace set_trace set_hw set_mask_misc].
        rewrite <- !app_assoc. cbn [app].
        rewrite (@after_reset_events_ext _ d) by reflexivity. reflexivity.
      * split.
        { rewrite Hmask. subst d3. cbn [mask_misc set_trace set_hw
                                         set_mask_misc].
          destruct ok; [|reflexivity].
          destruct (rte_is_zero_ether_addr perm && negb (rc2 =? 0));
            [reflexivity|].
          now destruct (negb (rc3 =? 0)). }
        split; [exact Hmac|]. split; [exact Hops|].
        split; [intros _; exact Hnum|].
        split; [intros Hok; apply Hperm; exact Hok|]. split; assumption.
  - exists rc0, 0, zero_ether_addr, [(txgbe_mbox_api_13, 0)], 0, false, 0, 0, 0.
    eexists.
    unfold primary_result, primary_events, primary_mask, primary_table,
      reaches_resolve.
    rewrite Hrc0. cbn [negb andb].
    split; [reflexivity|]. run_prims.
    rewrite <- !app_assoc. cbn [app].
    split; [reflexivity|].
    split; [reflexivity|]. split; [reflexivity|]. split; [reflexivity|].
    split; [intros H0; apply Z.eqb_neq in Hrc0; contradiction|].
    split; [discriminate|]. split; [discriminate|].
    now exists [txgbe_mbox_api_12; txgbe_mbox_api_11; txgbe_mbox_api_10].
Qed.

Lemma register_events_app (e1 e2 : list event) :
  register_events (e1 ++ e2) = register_events e1 ++ register_events e2.
Proof. apply filter_app. Qed.

Lemma register_events_negotiation (tried : list (mbox_api * Z)) :
  register_events (negotiation_events tried) = [].
Proof. induction tried as [|p t IH]; [reflexivity | exact IH]. Qed.

Lemma mbx_requests_negotiation (tried : list (mbox_api * Z)) :
  mbx_requests (negotiation_events tried)
  = map (fun p => NegotiateApi (fst p)) tried.
Proof.
  induction tried as [|p t IH]; [reflexivity|]. simpl. now rewrite IH.
Qed.

Lemma replayed_from_zeros (perm : rte_ether_addr) (index : Z) (n : nat) :
  forall i, replayed_from perm index i (repeat zero_ether_addr n) = [].
Proof.
  induction n as [|n IH]; intros i; [reflexivity|].
  simpl. rewrite IH. unfold replays.
  change (rte_is_zero_ether_addr zero_ether_addr) with true.
  now rewrite andb_false_r.
Qed.

Lemma resolve_perm_nonzero (perm : rte_ether_addr) (v : Z) :
  rte_is_zero_ether_addr (resolve_perm perm v) = false.
Proof.
  unfold resolve_perm.
  destruct (rte_is_zero_ether_addr perm) eqn:Hzero; [|exact Hzero].
  apply random_mac_addr_bytes.
Qed.

Section RunState.

Variables (d : rte_eth_dev) (rc0 rc1 : Z) (perm : rte_ether_addr)
  (tried : list (mbox_api * Z)) (rcq : Z) (ok : bool) (v rc2 rc3 : Z).

Let ev := primary_events d rc0 rc1 perm tried rcq ok v rc2 rc3.

Lemma run_start_reached (rc : Z) :
  In (StartHw rc) ev ->
  rc0 = 0 /\ reset_failed rc1 = false /\ ok = true /\
  rte_is_zero_ether_addr perm && negb (rc2 =? 0) = false /\ rc = rc3.
Proof.
  subst ev. unfold_run. intros H.
  destruct (rc0 =? 0) eqn:Hrc0; cbn [negb] in *; [|split_in H].
  apply Z.eqb_eq in Hrc0.
  destruct (reset_failed rc1) eqn:Hreset; [split_in H|].
  destruct ok; [|split_in H].
  destruct (rte_is_zero_ether_addr perm); cbn [andb] in *.
  - destruct (rc2 =? 0); cbn [negb] in *; [|split_in H].
    destruct (rc3 =? 0); cbn [negb] in *; split_in H;
      injection H as <-; auto.
  - destruct (rc3 =? 0); cbn [negb] in *; split_in H;
      injection H as <-; auto.
Qed.

Lemma run_start_happens :
  rc0 = 0 -> reset_failed rc1 = false -> ok = true ->
  rte_is_zero_ether_addr perm && negb (rc2 =? 0) = false ->
  In (StartHw rc3) ev.
Proof.
  intros -> Hreset -> Hinst. subst ev. unfold_run.
  cbn [Z.eqb negb]. rewrite Hreset.
  do 3 right. apply in_or_app. right. right.
  apply in_or_app. right. right. right.
  destruct (rte_is_zero_ether_addr perm); cbn [andb] in Hinst.
  - rewrite Hinst. cbn. auto 10.
  - cbn. auto 10.
Qed.

Lemma run_start_no_free (rc : Z) : In (StartHw rc) ev -> ~ In RteFree ev.
Proof.
  intros H. destruct (run_start_reached H) as (-> & Hreset & -> & Hinst & _).
  clear H. subst ev. unfold_run. cbn [Z.eqb negb]. rewrite Hreset.
  intros H.
  destruct (rte_is_zero_ether_addr perm); cbn [andb] in Hinst.
  - rewrite Hinst in H.
    destruct (rc3 =? 0); cbn [negb] in H; split_in H.
  - destruct (rc3 =? 0); cbn [negb] in H; split_in H.
Qed.

Lemma run_shared_code_failed_events :
  rc0 <> 0 ->
  ev = [CopyPciInfo; InitSharedCode rc0;
        Log ERR (SharedCodeInitFailed rc0)].
Proof.
  intros H. apply Z.eqb_neq in H. subst ev. unfold primary_events.
  now rewrite H.
Qed.

Lemma run_reset_failed_events :
  rc0 = 0 -> reset_failed rc1 = true ->
  ev = CopyPciInfo :: InitSharedCode 0 :: InitMbxParams
       :: intr_disable_events
       ++ [ResetHw rc1 perm; Log ERR (VfInitializationFailure rc1)].
Proof.
  intros -> H. subst ev. unfold primary_events. cbn [Z.eqb negb].
  now rewrite H.
Qed.

Lemma run_after_reset_shape :
  rc0 = 0 ->
  exists post,
    ev = CopyPciInfo :: InitSharedCode 0 :: InitMbxParams
         :: intr_disable_events ++ ResetHw rc1 perm :: post /\
    (register_events post = [] /\ ~ In (StartHw 0) post
     \/
     exists mid,
       post = mid ++ StartHw 0 :: intr_enable_events
                  ++ [Log DEBUG (PortDescription (port_id d)
                                   (pci_vendor_id (pci_dev d))
                                   (pci_device_id (pci_dev d)))] /\
       register_events mid = []).
Proof.
  intros ->. subst ev. unfold primary_events. cbn [Z.eqb negb].
  eexists. split; [reflexivity|].
  destruct (reset_failed rc1); [left; split; [reflexivity|]|].
  { intros H. split_in H. }
  unfold after_reset_events.
  destruct ok.
  - unfold resolve_events, start_events.
    destruct (rte_is_zero_ether_addr perm).
    + destruct (rc2 =? 0); cbn [negb].
      * destruct (rc3 =? 0) eqn:Hrc3; cbn [negb].
        -- apply Z.eqb_eq in Hrc3. subst rc3. right.
           exists (negotiation_events tried
                   ++ [Mbx GetQueues rcq; RteZmalloc table_bytes true;
                       RteRand v;
                       Mbx (SetRarVf 1 (random_mac_addr v) 0 1) rc2;
                       Log INFO MacNotAssignedByPf;
                       Log INFO (AssignRandomMac (random_mac_addr v))]).
           split; [now rewrite <- app_assoc|].
           rewrite register_events_app, register_events_negotiation.
           reflexivity.
        -- left. split.
           ++ rewrite register_events_app, register_events_negotiation.
              reflexivity.
           ++ intros H. split_in H. injection H as H.
              rewrite H in Hrc3. discriminate.
      * left. split.
        -- rewrite register_events_app, register_events_negotiation.
           reflexivity.
        -- intros H. split_in H.
    + destruct (rc3 =? 0) eqn:Hrc3; cbn [negb].
      * apply Z.eqb_eq in Hrc3. subst rc3. right.
        exists (negotiation_events tried
                ++ [Mbx GetQueues rcq; RteZmalloc table_bytes true]).
        split; [now rewrite <- app_assoc|].
        rewrite register_events_app, register_events_negotiation.
        reflexivity.
      * left. split.
        -- rewrite register_events_app, register_events_negotiation.
           reflexivity.
        -- intros H. split_in H. injection H as H.
           rewrite H in Hrc3. discriminate.
  - left. split.
    + rewrite register_events_app, register_events_negotiation. reflexivity.
    + intros H. split_in H.
Qed.

Lemma run_mbx_requests :
  mbx_requests ev
  = if negb (rc0 =? 0) || reset_failed rc1 then []
    else map (fun p => NegotiateApi (fst p)) tried
         ++ GetQueues ::
            (if ok && rte_is_zero_ether_addr perm
             then [SetRarVf 1 (random_mac_addr v) 0 1] else []).
Proof.
  subst ev. unfold primary_events.
  destruct (rc0 =? 0); cbn [negb orb]; [|reflexivity].
  destruct (reset_failed rc1); [reflexivity|].
  unfold after_reset_events.
  change (mbx_requests
            (CopyPciInfo :: InitSharedCode rc0 :: InitMbxParams ::
             intr_disable_events ++ ResetHw rc1 perm ::
             negotiation_events tried ++ Mbx GetQueues rcq ::
             RteZmalloc table_bytes ok ::
             (if ok then resolve_events d perm v rc2 rc3
              else [Log ERR (MacAllocFailed table_bytes)])))
    with (mbx_requests
            (negotiation_events tried ++ Mbx GetQueues rcq ::
             RteZmalloc table_bytes ok ::
             (if ok then resolve_events d perm v rc2 rc3
              else [Log ERR (MacAllocFailed table_bytes)]))).
  rewrite mbx_requests_app, mbx_requests_negotiation. f_equal.
  cbn [mbx_requests]. f_equal.
  destruct ok; cbn [andb]; [|reflexivity].
  unfold resolve_events, start_events.
  destruct (rte_is_zero_ether_addr perm).
  - cbn [mbx_requests]. f_equal.
    destruct (rc2 =? 0); cbn [negb]; [|reflexivity].
    destruct (rc3 =? 0); reflexivity.
  - destruct (rc3 =? 0); reflexivity.
Qed.

Lemma run_stops_before_queue_query (rc : Z) :
  negb (rc0 =? 0) || reset_failed rc1 = true -> ~ In (Mbx GetQueues rc) ev.
Proof.
  subst ev. unfold_run. intros Hstop H.
  destruct (rc0 =? 0); cbn [negb orb] in *; [rewrite Hstop in H|]; split_in H.
Qed.

End RunState.

Lemma dev_init_started (d : rte_eth_dev) :
  rte_eal_process_type E = RTE_PROC_PRIMARY ->
  exists (r : Z) (d' : rte_eth_dev) (ev : list event),
    eth_txgbevf_dev_init d = Done r d' /\
    trace d' = trace d ++ ev /\
    (In (StartHw 0) ev ->
     r = 0 /\
     mask_misc d' = 0 /\
     num_rar_entries (hw d') = 128 /\
     mac_addrs d'
     = Some (perm_addr (hw d') :: repeat zero_ether_addr 127) /\
     rte_is_zero_ether_addr (perm_addr (hw d')) = false /\
     dev_ops d' = Some txgbevf_eth_dev_ops).
Proof.
  intros Hprimary.
  destruct (dev_init_primary_state d Hprimary)
    as (rc0 & rc1 & perm & tried & rcq & ok & v & rc2 & rc3 & d'
        & Hrun & Htr & Hmask & Hmac & Hops & Hnum & Hperm & _).
  eexists. exists d'. eexists. split; [exact Hrun|]. split; [exact Htr|].
  intros [H|H]; [discriminate|].
  apply run_start_reached in H.
  destruct H as (H0 & Hreset & Hok & Hinst & Hrc3).
  subst rc0 ok rc3.
  assert (Hreach : reaches_resolve 0 rc1 true = true)
    by (unfold reaches_resolve; now rewrite Hreset).
  rewrite (Hperm Hreach), Hmask, Hmac, (Hnum eq_refl).
  unfold primary_result, after_reset_result, resolve_result, start_result,
    primary_mask, primary_table, resolve_table.
  cbn [Z.eqb negb]. rewrite Hreset, Hinst.
  repeat split; [apply resolve_perm_nonzero | exact Hops].
Qed.

(** X7 (state after a successful init): when a primary init got as far as
    a successful hardware start it returns 0 and leaves the interrupts
    enabled in the mirror, 128 receive address slots, an address list of
    128 entries whose slot 0 holds the permanent address and whose other
    slots are all-zero, a permanent address that is not all-zero, and the
    operations table installed. *)
Theorem init_success_state (d : rte_eth_dev) :
  rte_eal_process_type E = RTE_PROC_PRIMARY ->
  exists (r : Z) (d' : rte_eth_dev) (ev : list event),
    eth_txgbevf_dev_init d = Done r d' /\
    trace d' = trace d ++ ev /\
    (In (StartHw 0) ev ->
     r = 0 /\
     mask_misc d' = 0 /\
     num_rar_entries (hw d') = 128 /\
     mac_addrs d'
     = Some (perm_addr (hw d') :: repeat zero_ether_addr 127) /\
     rte_is_zero_ether_addr (perm_addr (hw d')) = false /\
     dev_ops d' = Some txgbevf_eth_dev_ops).
Proof. exact (dev_init_started d). Qed.

(** X8 (interrupts after a failed init): a primary init that got past the
    shared-code init and did not complete a successful hardware start
    leaves the mask mirror at the full mask, whichever step failed. *)
Theorem init_failure_keeps_interrupts_masked (d : rte_eth_dev) :
  rte_eal_process_type E = RTE_PROC_PRIMARY ->
  exists (r : Z) (d' : rte_eth_dev) (ev : list event),
    eth_txgbevf_dev_init d = Done r d' /\
    trace d' = trace d ++ ev /\
    (In (InitSharedCode 0) ev -> ~ In (StartHw 0) ev ->
     mask_misc d' = u32 (TXGBE_VFIMS_MASK K)).
Proof.
  intros Hprimary.
  destruct (dev_init_primary_state d Hprimary)
    as (rc0 & rc1 & perm & tried & rcq & ok & v & rc2 & rc3 & d'
        & Hrun & Htr & Hmask & _).
  eexists. exists d'. eexists. split; [exact Hrun|]. split; [exact Htr|].
  intros [H|H] Hnot; [discriminate|].
  apply run_shared_code in H. subst rc0.
  rewrite Hmask. unfold primary_mask. cbn [Z.eqb negb].
  destruct (reset_failed rc1) eqn:Hreset; [reflexivity|].
  destruct ok eqn:Hok; [|reflexivity].
  destruct (rte_is_zero_ether_addr perm && negb (rc2 =? 0)) eqn:Hinst;
    [reflexivity|].
  destruct (rc3 =? 0) eqn:Hrc3; [|reflexivity].
  exfalso. apply Hnot. right. apply Z.eqb_eq in Hrc3. rewrite <- Hrc3.
  now apply run_start_happens.
Qed.

(** X9 (failed hardware start): when the hardware start fails, init returns
    -EIO without releasing the address list: the list stays attached with
    the permanent address in slot 0, and no release is among the events. *)
Theorem init_start_failure_keeps_table (d : rte_eth_dev) :
  rte_eal_process_type E = RTE_PROC_PRIMARY ->
  exists (r : Z) (d' : rte_eth_dev) (ev : list event),
    eth_txgbevf_dev_init d = Done r d' /\
    trace d' = trace d ++ ev /\
    (forall rc,
        In (StartHw rc) ev -> rc <> 0 ->
        r = - EIO K /\
        mac_addrs d'
        = Some (perm_addr (hw d') :: repeat zero_ether_addr 127) /\
        ~ In RteFree ev).
Proof.
  intros Hprimary.
  destruct (dev_init_primary_state d Hprimary)
    as (rc0 & rc1 & perm & tried & rcq & ok & v & rc2 & rc3 & d'
        & Hrun & Htr & _ & Hmac & _ & _ & Hperm & _).
  eexists. exists d'. eexists. split; [exact Hrun|]. split; [exact Htr|].
  intros rc [H|H] Hrc; [discriminate|].
  pose proof (run_start_no_free H) as Hfree.
  apply run_start_reached in H.
  destruct H as (H0 & Hreset & Hok & Hinst & Hrc3).
  subst rc0 ok rc3.
  assert (Hreach : reaches_resolve 0 rc1 true = true)
    by (unfold reaches_resolve; now rewrite Hreset).
  rewrite (Hperm Hreach), Hmac.
  unfold primary_result, after_reset_result, resolve_result, start_result,
    primary_table, resolve_table.
  cbn [Z.eqb negb]. rewrite Hreset, Hinst.
  apply Z.eqb_neq in Hrc. rewrite Hrc. cbn [negb].
  repeat split. intros [Hf|Hf]; [discriminate | now apply Hfree].
Qed.

(** X10 (early failures): when the shared-code init fails, init does
    nothing after it but log, and when the reset fails with a code other
    than TXGBE_ERR_INVALID_MAC_ADDR, init has sent no mailbox request and
    made no allocation; in both cases the address list pointer is the one
    the device had before. *)
Theorem init_early_failure (d : rte_eth_dev) :
  rte_eal_process_type E = RTE_PROC_PRIMARY ->
  exists (r : Z) (d' : rte_eth_dev) (ev : list event),
    eth_txgbevf_dev_init d = Done r d' /\
    trace d' = trace d ++ ev /\
    (forall rc,
        In (InitSharedCode rc) ev -> rc <> 0 ->
        ev = [Log DEBUG FuncTrace; CopyPciInfo; InitSharedCode rc;
              Log ERR (SharedCodeInitFailed rc)] /\
        mask_misc d' = mask_misc d /\
        mac_addrs d' = mac_addrs d) /\
    (forall rc a,
        In (ResetHw rc a) ev ->
        rc <> 0 -> rc <> TXGBE_ERR_INVALID_MAC_ADDR K ->
        mbx_requests ev = [] /\
        (forall size ok, ~ In (RteZmalloc size ok) ev) /\
        mac_addrs d' = mac_addrs d).
Proof.
  intros Hprimary.
  destruct (dev_init_primary_state d Hprimary)
    as (rc0 & rc1 & perm & tried & rcq & ok & v & rc2 & rc3 & d'
        & Hrun & Htr & Hmask & Hmac & _).
  eexists. exists d'. eexists. split; [exact Hrun|]. split; [exact Htr|].
  split.
  - intros rc [H|H] Hrc; [discriminate|].
    apply run_shared_code in H. subst rc.
    rewrite (@run_shared_code_failed_events d rc0 rc1 perm tried rcq ok v
               rc2 rc3 Hrc).
    rewrite Hmask, Hmac. unfold primary_mask, primary_table.
    apply Z.eqb_neq in Hrc. rewrite Hrc. repeat split.
  - intros rc a [H|H] H1 H2; [discriminate|].
    apply run_reset in H. destruct H as (H0 & -> & _).
    assert (Hreset : reset_failed rc1 = true)
      by (apply reset_failed_true; auto).
    rewrite (@run_reset_failed_events d rc0 rc1 perm tried rcq ok v rc2 rc3
               H0 Hreset).
    rewrite Hmac. unfold primary_table. subst rc0. cbn [Z.eqb negb].
    rewrite Hreset. split; [reflexivity|]. split; [|reflexivity].
    intros size b H. unfold intr_disable_events in H. cbn in H.
    intuition discriminate.
Qed.

(** X11 (interrupt bracket): in every primary init that reaches the reset,
    the only events before it are the trace log, the PCI copy, the
    shared-code and mailbox initialisation and then the write of the mask
    register with its flush; after the reset there is no further register
    access, except that a successful hardware start is immediately followed
    by the write of the mask-clear register with its flush. *)
Theorem init_interrupt_bracket (d : rte_eth_dev) :
  rte_eal_process_type E = RTE_PROC_PRIMARY ->
  exists (r : Z) (d' : rte_eth_dev) (ev : list event),
    eth_txgbevf_dev_init d = Done r d' /\
    trace d' = trace d ++ ev /\
    (forall rc a,
        In (ResetHw rc a) ev ->
        exists post,
          ev = Log DEBUG FuncTrace :: CopyPciInfo :: InitSharedCode 0
               :: InitMbxParams :: intr_disable_events
               ++ ResetHw rc a :: post /\
          (register_events post = [] /\ ~ In (StartHw 0) post
           \/
           exists mid,
             post = mid ++ StartHw 0 :: intr_enable_events
                        ++ [Log DEBUG (PortDescription (port_id d)
                                         (pci_vendor_id (pci_dev d))
                                         (pci_device_id (pci_dev d)))] /\
             register_events mid = [])).
Proof.
  intros Hprimary.
  destruct (dev_init_primary_state d Hprimary)
    as (rc0 & rc1 & perm & tried & rcq & ok & v & rc2 & rc3 & d'
        & Hrun & Htr & _).
  eexists. exists d'. eexists. split; [exact Hrun|]. split; [exact Htr|].
  intros rc a [H|H]; [discriminate|].
  apply run_reset in H. destruct H as (H0 & -> & ->).
  destruct (@run_after_reset_shape d rc0 rc1 perm tried rcq ok v rc2 rc3 H0)
    as (post & Hev & Hpost).
  exists post. split; [now rewrite Hev | exact Hpost].
Qed.

(** ** Init followed by other operations *)

Lemma replayed_from_fresh_table (perm p : rte_ether_addr) (index : Z) :
  p = perm \/ index = 0 ->
  replayed_from perm index 0 (p :: repeat zero_ether_addr 127) = [].
Proof.
  intros H.
  change (replayed_from perm index 0 (p :: repeat zero_ether_addr 127))
    with ((if replays perm index 0 p then [(0, p)] else [])
          ++ replayed_from perm index (0 + 1) (repeat zero_ether_addr 127)).
  rewrite replayed_from_zeros, app_nil_r.
  replace (replays perm index 0 p) with false; [reflexivity|].
  symmetry. unfold replays. destruct H as [-> | ->].
  - rewrite (proj2 (memcmp_ether_addr_eqb perm perm) eq_refl).
    now rewrite andb_false_r.
  - reflexivity.
Qed.

Lemma map_fst_nil {A B} (l : list (A * B)) : map fst l = [] -> l = [].
Proof. now destruct l. Qed.

(** X12 (table operations after init): after a successful primary init,
    adding the address published in slot 0 of the address list is rejected
    with -1 without any event, and a removal of any index sends the
    clear-all request and nothing else, since the list holds no secondary
    address yet. *)
Theorem init_then_table_calls (d : rte_eth_dev) :
  rte_eal_process_type E = RTE_PROC_PRIMARY ->
  exists (r : Z) (d' : rte_eth_dev) (ev : list event),
    eth_txgbevf_dev_init d = Done r d' /\
    trace d' = trace d ++ ev /\
    (In (StartHw 0) ev ->
     exists a rest,
       mac_addrs d' = Some (a :: rest) /\
       (forall index pool,
           txgbevf_add_mac_addr a index pool d' = Done (-1) d') /\
       (forall index,
           txgbevf_remove_mac_addr index d'
           = Done tt
               (set_trace
                  (trace d'
                   ++ [Mbx clear_all_unicast
                         (mbx_reply E (trace d') clear_all_unicast)]) d'))).
Proof.
  intros Hprimary.
  destruct (dev_init_started d Hprimary)
    as (r & d' & ev & Hrun & Htr & Hok).
  exists r, d', ev. split; [exact Hrun|]. split; [exact Htr|].
  intros Hstart. destruct (Hok Hstart) as (_ & _ & Hnum & Hmac & _ & _).
  exists (perm_addr (hw d')), (repeat zero_ether_addr 127).
  split; [exact Hmac|]. split.
  - intros index pool. apply add_mac_addr_perm.
  - intros index.
    destruct (@remove_mac_addr_events_run index d'
                (perm_addr (hw d') :: repeat zero_ether_addr 127))
      as (answers & Hrem & Hans); [exact Hmac | now rewrite Hnum |].
    rewrite replayed_from_fresh_table in Hans by now left.
    apply map_fst_nil in Hans. subst answers. exact Hrem.
Qed.

Lemma dev_uninit_run (d : rte_eth_dev) (tbl : list rte_ether_addr) :
  rte_eal_process_type E = RTE_PROC_PRIMARY ->
  mac_addrs d = Some tbl ->
  Z.of_nat (length tbl) = num_rar_entries (hw d) ->
  exists (d' : rte_eth_dev) (rc rc' : Z) (answers : list (rte_ether_addr * Z)),
    eth_txgbevf_dev_uninit d = Done 0 d' /\
    trace d'
    = trace d
      ++ Log DEBUG FuncTrace :: Log DEBUG FuncTrace
         :: ResetHw rc (perm_addr (hw d')) :: FreeQueues
         :: Mbx clear_all_unicast rc'
         :: replay_events answers ++ intr_disable_events ++ [RteFree] /\
    map fst answers
    = map snd (replayed_from (perm_addr (hw d')) 0 0 tbl) /\
    mac_addrs d' = None /\
    mask_misc d' = u32 (TXGBE_VFIMS_MASK K).
Proof.
  intros Hprimary Htbl Hlen.
  unfold eth_txgbevf_dev_uninit. rewrite Hprimary.
  unfold bind at 1. unfold log, emit, modify.
  set (d1 := set_trace (trace d ++ [Log DEBUG FuncTrace]) d).
  destruct (@dev_close_run d1 tbl Hprimary Htbl Hlen)
    as (d' & rc & rc' & answers & Hrun & Htr & Hans & Hnull & Hmask & _).
  exists d', rc, rc', answers.
  unfold bind. rewrite Hrun. split; [reflexivity|].
  split; [|repeat split; assumption].
  rewrite Htr. subst d1. cbn [trace set_trace].
  now rewrite <- app_assoc.
Qed.

(** X13 (uninit after init): after a successful primary init, uninit
    returns 0 without fault; the only mailbox request it sends is the
    clear-all request, its last event is the release of the address list,
    and it leaves the list pointer NULL and the interrupts masked. *)
Theorem init_then_uninit (d : rte_eth_dev) :
  rte_eal_process_type E = RTE_PROC_PRIMARY ->
  exists (r : Z) (d' : rte_eth_dev) (ev : list event),
    eth_txgbevf_dev_init d = Done r d' /\
    trace d' = trace d ++ ev /\
    (In (StartHw 0) ev ->
     exists d'' out,
       eth_txgbevf_dev_uninit d' = Done 0 d'' /\
       trace d'' = trace d' ++ out ++ [RteFree] /\
       mbx_requests out = [clear_all_unicast] /\
       mac_addrs d'' = None /\
       mask_misc d'' = u32 (TXGBE_VFIMS_MASK K)).
Proof.
  intros Hprimary.
  destruct (dev_init_started d Hprimary)
    as (r & d' & ev & Hrun & Htr & Hok).
  exists r, d', ev. split; [exact Hrun|]. split; [exact Htr|].
  intros Hstart. destruct (Hok Hstart) as (_ & _ & Hnum & Hmac & _ & _).
  destruct (@dev_uninit_run d'
              (perm_addr (hw d') :: repeat zero_ether_addr 127) Hprimary Hmac)
    as (d'' & rc & rc' & answers & Hun & Htr' & Hans & Hnull & Hmask);
    [now rewrite Hnum|].
  rewrite replayed_from_fresh_table in Hans by now right.
  apply map_fst_nil in Hans. subst answers.
  exists d''. eexists. split; [exact Hun|]. split.
  - rewrite Htr'. cbn [replay_events flat_map app].
    unfold intr_disable_events.
    change (?a :: ?b :: ?c :: ?e :: ?f :: [?g; ?h; ?i] ++ [RteFree])
      with ([a; b; c; e; f; g; h; i] ++ [RteFree]).
    reflexivity.
  - split; [reflexivity|]. split; assumption.
Qed.

(** ** The generated address *)

Lemma Z_of_byte_of_Z (z : Z) : Z_of_byte (byte_of_Z z) = z mod 2 ^ 8.
Proof.
  unfold Z_of_byte, byte_of_Z, u8.
  assert (Hr : 0 <= z mod 2 ^ 8 < 2 ^ 8) by (apply Z.mod_pos_bound; lia).
  destruct (Byte.of_N (Z.to_N (z mod 2 ^ 8))) as [b|] eqn:Hb.
  - apply Byte.to_of_N in Hb. rewrite Hb. apply Z2N.id. lia.
  - apply Byte.of_N_None_iff in Hb. exfalso.
    apply N2Z.inj_lt in Hb. rewrite Z2N.id in Hb by lia.
    change (Z.of_N 255) with 255 in Hb. change (2 ^ 8) with 256 in *. lia.
Qed.

Lemma byte_of_Z_low_bits (v k : Z) :
  0 <= k -> k + 8 <= 24 ->
  byte_of_Z (Z.shiftr (v mod 2 ^ 24) k) = byte_of_Z (Z.shiftr v k).
Proof.
  intros Hk Hk8. unfold byte_of_Z, u8.
  replace (Z.shiftr (v mod 2 ^ 24) k mod 2 ^ 8)
    with (Z.shiftr v k mod 2 ^ 8); [reflexivity|].
  apply Z.bits_inj'. intros n Hn.
  destruct (Z.lt_ge_cases n 8) as [Hlt|Hge].
  - rewrite !Z.mod_pow2_bits_low, !Z.shiftr_spec by lia.
    rewrite Z.mod_pow2_bits_low by lia. reflexivity.
  - rewrite !Z.mod_pow2_bits_high by lia. reflexivity.
Qed.

Lemma low_24_bits (v : Z) :
  v mod 2 ^ 8 + 2 ^ 8 * (Z.shiftr v 8 mod 2 ^ 8)
  + 2 ^ 16 * (Z.shiftr v 16 mod 2 ^ 8)
  = v mod 2 ^ 24.
Proof.
  rewrite !Z.shiftr_div_pow2 by lia.
  change (2 ^ 24) with (2 ^ 8 * (2 ^ 8 * 2 ^ 8)).
  rewrite (Z.rem_mul_r v (2 ^ 8) (2 ^ 8 * 2 ^ 8)) by lia.
  rewrite (Z.rem_mul_r (v / 2 ^ 8) (2 ^ 8) (2 ^ 8)) by lia.
  rewrite Z.div_div by lia.
  change (2 ^ 8 * 2 ^ 8) with (2 ^ 16). lia.
Qed.

(** X14 (random bits of the generated address): on a little-endian host
    the last three bytes of the generated address, read back as a
    little-endian number, are the random number modulo 2^24; two random
    numbers give the same address exactly when they agree modulo 2^24. *)
Theorem random_mac_addr_low_bits (v w : Z) :
  RTE_BYTE_ORDER K = RTE_LITTLE_ENDIAN ->
  Z_of_byte (byte3 (random_mac_addr v))
  + 2 ^ 8 * Z_of_byte (byte4 (random_mac_addr v))
  + 2 ^ 16 * Z_of_byte (byte5 (random_mac_addr v))
  = v mod 2 ^ 24 /\
  (random_mac_addr v = random_mac_addr w <-> v mod 2 ^ 24 = w mod 2 ^ 24).
Proof.
  intros Hle.
  assert (Hbytes : forall x,
             byte3 (random_mac_addr x) = byte_of_Z x /\
             byte4 (random_mac_addr x) = byte_of_Z (Z.shiftr x 8) /\
             byte5 (random_mac_addr x) = byte_of_Z (Z.shiftr x 16))
    by (intros x; now apply random_mac_addr_bytes).
  assert (Hread : forall x,
             Z_of_byte (byte3 (random_mac_addr x))
             + 2 ^ 8 * Z_of_byte (byte4 (random_mac_addr x))
             + 2 ^ 16 * Z_of_byte (byte5 (random_mac_addr x))
             = x mod 2 ^ 24).
  { intros x. destruct (Hbytes x) as (-> & -> & ->).
    rewrite !Z_of_byte_of_Z. apply low_24_bits. }
  split; [apply Hread|]. split.
  - intros Heq. rewrite <- (Hread v), <- (Hread w), Heq. reflexivity.
  - intros Hmod.
    destruct (Hbytes v) as (Hv3 & Hv4 & Hv5).
    destruct (Hbytes w) as (Hw3 & Hw4 & Hw5).
    assert (Hb : forall k, 0 <= k -> k + 8 <= 24 ->
                      byte_of_Z (Z.shiftr v k) = byte_of_Z (Z.shiftr w k)).
    { intros k Hk Hk8.
      rewrite <- (@byte_of_Z_low_bits v k), <- (@byte_of_Z_low_bits w k)
        by lia.
      now rewrite Hmod. }
    assert (H3 : byte3 (random_mac_addr v) = byte3 (random_mac_addr w)).
    { rewrite Hv3, Hw3, <- (Z.shiftr_0_r v), <- (Z.shiftr_0_r w).
      apply Hb; lia. }
    assert (H4 : byte4 (random_mac_addr v) = byte4 (random_mac_addr w))
      by (rewrite Hv4, Hw4; apply Hb; lia).
    assert (H5 : byte5 (random_mac_addr v) = byte5 (random_mac_addr w))
      by (rewrite Hv5, Hw5; apply Hb; lia).
    clear Hv3 Hv4 Hv5 Hw3 Hw4 Hw5 Hbytes Hread Hb.
    destruct (random_mac_addr v) as [a0 a1 a2 a3 a4 a5] eqn:Ev.
    destruct (random_mac_addr w) as [b0 b1 b2 b3 b4 b5] eqn:Ew.
    cbn in H3, H4, H5. subst.
    assert (H012 : a0 = b0 /\ a1 = b1 /\ a2 = b2).
    { pose proof (f_equal byte0 Ev) as E0. pose proof (f_equal byte0 Ew) as F0.
      pose proof (f_equal byte1 Ev) as E1. pose proof (f_equal byte1 Ew) as F1.
      pose proof (f_equal byte2 Ev) as E2. pose proof (f_equal byte2 Ew) as F2.
      cbn in *. subst. repeat split. }
    destruct H012 as (-> & -> & ->). reflexivity.
Qed.

(** ** Secondary attach with a queue array *)

(** X15 (queue index in a secondary attach): when the transmit-queue array
    is present, a secondary init reads its entry [nb_tx_queues - 1]; the
    read is inside the array, and init returns 0 after selecting the
    functions, exactly when 1 <= nb_tx_queues <= length of the array, and
    it is an out-of-bounds read otherwise. *)
Theorem init_secondary_queue_index (d : rte_eth_dev)
  (qs : list txgbe_tx_queue) :
  rte_eal_process_type E = RTE_PROC_SECONDARY ->
  tx_queues d = Some qs ->
  (1 <= nb_tx_queues d <= Z.of_nat (length qs) ->
   exists txq,
     nth_error qs (Z.to_nat (nb_tx_queues d - 1)) = Some txq /\
     eth_txgbevf_dev_init d
     = Done 0 (set_trace
                 (trace d ++ [Log DEBUG FuncTrace; SetTxFunction txq;
                              SetRxFunction])
                 (set_dev_ops (Some txgbevf_eth_dev_ops) d))) /\
  (nb_tx_queues d < 1 \/ Z.of_nat (length qs) < nb_tx_queues d ->
   eth_txgbevf_dev_init d
   = Undefined (OutOfBounds (nb_tx_queues d - 1) (length qs))).
Proof.
  intros Hsecondary Hqs.
  assert (Hinit : eth_txgbevf_dev_init d
                  = match load (Some qs) (nb_tx_queues d - 1)
                            (set_dev_ops (Some txgbevf_eth_dev_ops)
                               (set_trace (trace d ++ [Log DEBUG FuncTrace]) d))
                    with
                    | Done txq _ =>
                        Done 0 (set_trace
                                  (trace d ++ [Log DEBUG FuncTrace;
                                               SetTxFunction txq;
                                               SetRxFunction])
                                  (set_dev_ops (Some txgbevf_eth_dev_ops) d))
                    | Undefined f => Undefined f
                    end).
  { unfold eth_txgbevf_dev_init, init_secondary. rewrite Hsecondary.
    run_prims. rewrite Hqs.
    destruct (load (Some qs) (nb_tx_queues d - 1) _) as [txq d1|f] eqn:Hload;
      [|reflexivity].
    unfold load in Hload.
    destruct (nb_tx_queues d - 1 <? 0); [discriminate|].
    destruct (nth_error qs (Z.to_nat (nb_tx_queues d - 1)));
      [|discriminate].
    injection Hload as <- <-. run_prims.
    rewrite <- !app_assoc. reflexivity. }
  rewrite Hinit. unfold load. split.
  - intros Hrange.
    destruct (nb_tx_queues d - 1 <? 0) eqn:Hneg;
      [apply Z.ltb_lt in Hneg; lia|].
    destruct (nth_error qs (Z.to_nat (nb_tx_queues d - 1))) as [txq|] eqn:Hnth.
    + exists txq. split; reflexivity.
    + apply nth_error_None in Hnth. lia.
  - intros Hout.
    destruct (nb_tx_queues d - 1 <? 0) eqn:Hneg; [reflexivity|].
    apply Z.ltb_ge in Hneg.
    destruct (nth_error qs (Z.to_nat (nb_tx_queues d - 1))) as [txq|] eqn:Hnth;
      [|reflexivity].
    assert (Hlt : (Z.to_nat (nb_tx_queues d - 1) < length qs)%nat)
      by (apply nth_error_Some; congruence).
    lia.
Qed.

(** ** The mailbox traffic of init *)

(** X16 (mailbox requests of init): the requests a primary init sends
    through the mailbox itself are either none, when the run stops before
    the negotiation, or the negotiation of a non-empty initial segment of
    the candidate versions 1.3, 1.2, 1.1, 1.0, one queue query and at most
    one installation of a random address in slot 0; so at most six, and
    never a unicast request. *)
Theorem init_mailbox_requests (d : rte_eth_dev) :
  rte_eal_process_type E = RTE_PROC_PRIMARY ->
  exists (r : Z) (d' : rte_eth_dev) (ev : list event),
    eth_txgbevf_dev_init d = Done r d' /\
    trace d' = trace d ++ ev /\
    ((mbx_requests ev = [] /\ forall rc, ~ In (Mbx GetQueues rc) ev)
     \/
     exists attempts rest install,
       sup_ver = attempts ++ rest /\ attempts <> [] /\
       mbx_requests ev = map NegotiateApi attempts ++ GetQueues :: install /\
       (install = [] \/
        exists v, install = [SetRarVf 1 (random_mac_addr v) 0 1])) /\
    (length (mbx_requests ev) <= 6)%nat /\
    (forall i a, ~ In (SetUcAddr i a) (mbx_requests ev)).
Proof.
  intros Hprimary.
  destruct (dev_init_primary_state d Hprimary)
    as (rc0 & rc1 & perm & tried & rcq & ok & v & rc2 & rc3 & d'
        & Hrun & Htr & _ & _ & _ & _ & _ & Hne & rest & Hpre).
  eexists. exists d'. eexists. split; [exact Hrun|]. split; [exact Htr|].
  assert (Hlen : (length tried <= 4)%nat).
  { rewrite <- (length_map fst tried).
    apply (f_equal (@length _)) in Hpre. rewrite length_app in Hpre.
    cbn in Hpre. lia. }
  pose proof (@run_mbx_requests d rc0 rc1 perm tried rcq ok v rc2 rc3) as Hreq.
  cbn [mbx_requests]. rewrite Hreq.
  destruct (negb (rc0 =? 0) || reset_failed rc1) eqn:Hstop.
  - split; [left; split; [reflexivity|] | split; [cbn; lia | intros i a []]].
    intros rc [H|H]; [discriminate|].
    exact (@run_stops_before_queue_query d rc0 rc1 perm tried rcq ok v rc2
             rc3 rc Hstop H).
  - split; [right | split].
    + exists (map fst tried), rest.
      exists (if ok && rte_is_zero_ether_addr perm
              then [SetRarVf 1 (random_mac_addr v) 0 1] else []).
      split; [exact Hpre|]. split.
      * intros Hnil. apply Hne. now apply map_fst_nil.
      * split; [now rewrite map_map|].
        destruct (ok && rte_is_zero_ether_addr perm);
          [right; now exists v | now left].
    + rewrite length_app, length_map. cbn [length].
      destruct (ok && rte_is_zero_ether_addr perm); cbn [length]; lia.
    + intros i a Hin. apply in_app_or in Hin. destruct Hin as [Hin | Hin].
      * apply in_map_iff in Hin. destruct Hin as (p & Hp & _). discriminate.
      * destruct Hin as [Hin | Hin]; [discriminate|].
        destruct (ok && rte_is_zero_ether_addr perm);
          [destruct Hin as [Hin | []]; discriminate | destruct Hin].
Qed.

End Driver.

(** ** The model on concrete inputs *)

(** The events of a run on a concrete input, computed. *)
Ltac compute_events Hrun Htr :=
  let Hc := fresh "Hc" in
  let Hd := fresh "Hd" in
  pose proof Hrun as Hc; vm_compute in Hc; injection Hc as _ Hd;
  rewrite <- Hd in Htr; vm_compute in Htr; clear Hd.

(** The scenario of slots 0 (permanent), 2 and 5 with slot 2 removed: one
    clear-all request, then one add request, for slot 5. *)
Example remove_slot_2_requests :
  observe (fun d => mbx_requests (trace d))
    (txgbevf_remove_mac_addr Sample.primary_ok 2 Sample.running)
  = Some (tt, [clear_all_unicast; add_unicast (Sample.mac x05)]).
Proof. vm_compute. reflexivity. Qed.

(** Removing slot 0 while the PF refuses every second request: both
    remaining slots are still submitted, the refused one is logged. *)
Example remove_slot_0_flaky_pf :
  observe trace (txgbevf_remove_mac_addr Sample.primary_flaky 0 Sample.running)
  = Some (tt,
          [Mbx clear_all_unicast 0;
           Mbx (add_unicast (Sample.mac x02)) (-100);
           Log ERR (AddingAgainFailed (Sample.mac x02) (-100));
           Mbx (add_unicast (Sample.mac x05)) 0]).
Proof. vm_compute. reflexivity. Qed.

Lemma remove_mac_addr_replay_witness :
  exists (ev : list event) (slots : list Z),
    txgbevf_remove_mac_addr Sample.primary_flaky 2 Sample.running
    = Done tt
        (set_trace
           (trace Sample.running
            ++ Mbx clear_all_unicast
                 (mbx_reply Sample.primary_flaky (trace Sample.running)
                    clear_all_unicast)
            :: ev) Sample.running) /\
    mbx_requests ev = map (fun j => add_unicast (slot Sample.table j)) slots /\
    StronglySorted Z.lt slots /\
    (forall j : Z,
        In j slots <->
        0 <= j < Z.of_nat (length Sample.table) /\ j <> 2 /\
        rte_is_zero_ether_addr (slot Sample.table j) = false /\
        slot Sample.table j <> perm_addr (hw Sample.running)) /\
    ~ In 2 slots /\
    ~ In (add_unicast (perm_addr (hw Sample.running))) (mbx_requests ev) /\
    ~ In clear_all_unicast (mbx_requests ev).
Proof.
  apply (@remove_mac_addr_replay Sample.primary_flaky 2 Sample.running
           Sample.table); reflexivity.
Defined.

(** A PF that accepts version 1.1 only: three attempts, 1.1 is active. *)
Example negotiate_stops_at_api_11 :
  observe (fun d => (trace d, api_version (hw d)))
    (txgbevf_negotiate_api Sample.primary_api_11 Sample.fresh)
  = Some (tt,
          (negotiation_events [(txgbe_mbox_api_13, -100);
                               (txgbe_mbox_api_12, -100);
                               (txgbe_mbox_api_11, 0)],
           txgbe_mbox_api_11)).
Proof. vm_compute. reflexivity. Qed.

(** A PF that refuses everything: four attempts, the baseline stays. *)
Example negotiate_keeps_baseline :
  observe (fun d => (mbx_requests (trace d), api_version (hw d)))
    (txgbevf_negotiate_api Sample.primary_no_mac_pf_down Sample.fresh)
  = Some (tt, ([NegotiateApi txgbe_mbox_api_13; NegotiateApi txgbe_mbox_api_12;
                NegotiateApi txgbe_mbox_api_11; NegotiateApi txgbe_mbox_api_10],
               txgbe_mbox_api_10)).
Proof. vm_compute. reflexivity. Qed.

Example add_permanent_rejected :
  observe trace
    (txgbevf_add_mac_addr Sample.primary_ok (Sample.mac x01) 0 0 Sample.running)
  = Some (-1, []).
Proof. vm_compute. reflexivity. Qed.

(** An address already in the table is passed to the mailbox again. *)
Example add_duplicate_forwarded :
  observe trace
    (txgbevf_add_mac_addr Sample.primary_ok (Sample.mac x05) 0 0 Sample.running)
  = Some (0, [Mbx (add_unicast (Sample.mac x05)) 0]).
Proof. vm_compute. reflexivity. Qed.

Example add_failure_reported :
  observe trace
    (txgbevf_add_mac_addr Sample.primary_no_mac_pf_down (Sample.mac x07) 0 0
       Sample.running)
  = Some (-100,
          [Mbx (add_unicast (Sample.mac x07)) (-100);
           Log ERR (UnableToAddMac (Sample.mac x07) (-100))]).
Proof. vm_compute. reflexivity. Qed.

(** The result of init in the outcome classes. *)
Example init_results :
  map (fun E => observe (fun _ => tt)
                  (eth_txgbevf_dev_init Sample.K E Sample.fresh))
    [Sample.primary_shared_code_fails; Sample.primary_reset_fails;
     Sample.primary_no_memory; Sample.primary_start_fails;
     Sample.primary_no_mac; Sample.primary_ok]
  = [Some (-5, tt); Some (-11, tt); Some (-12, tt); Some (-5, tt);
     Some (0, tt); Some (0, tt)].
Proof. vm_compute. reflexivity. Qed.

Lemma init_error_classes_witness :
  (exists d',
      eth_txgbevf_dev_init Sample.K Sample.primary_shared_code_fails
        Sample.fresh = Done (- EIO Sample.K) d') /\
  (exists d',
      eth_txgbevf_dev_init Sample.K Sample.primary_reset_fails Sample.fresh
      = Done (- EAGAIN Sample.K) d') /\
  (exists d',
      eth_txgbevf_dev_init Sample.K Sample.primary_no_memory Sample.fresh
      = Done (- ENOMEM Sample.K) d') /\
  (exists d',
      eth_txgbevf_dev_init Sample.K Sample.primary_start_fails Sample.fresh
      = Done (- EIO Sample.K) d') /\
  (exists d',
      eth_txgbevf_dev_init Sample.K Sample.primary_no_mac Sample.fresh
      = Done 0 d').
Proof.
  split; [|split; [|split; [|split]]].
  - destruct (@init_error_classes Sample.K Sample.primary_shared_code_fails
                Sample.fresh eq_refl)
      as (r & d' & ev & Hrun & Htr & Hshared & _).
    compute_events Hrun Htr.
    exists d'. rewrite <- (Hshared (-1)); [exact Hrun | | discriminate].
    subst ev. simpl. auto 20.
  - destruct (@init_error_classes Sample.K Sample.primary_reset_fails
                Sample.fresh eq_refl)
      as (r & d' & ev & Hrun & Htr & _ & Hreset & _).
    compute_events Hrun Htr.
    exists d'.
    rewrite <- (Hreset (-3) zero_ether_addr);
      [exact Hrun | | discriminate | discriminate].
    subst ev. simpl. auto 20.
  - destruct (@init_error_classes Sample.K Sample.primary_no_memory
                Sample.fresh eq_refl)
      as (r & d' & ev & Hrun & Htr & _ & _ & _ & Halloc & _).
    compute_events Hrun Htr.
    exists d'. rewrite <- (Halloc 768); [exact Hrun|].
    subst ev. simpl. auto 20.
  - destruct (@init_error_classes Sample.K Sample.primary_start_fails
                Sample.fresh eq_refl)
      as (r & d' & ev & Hrun & Htr & _ & _ & _ & _ & Hstart & _).
    compute_events Hrun Htr.
    exists d'. rewrite <- (Hstart (-2)); [exact Hrun | | discriminate].
    subst ev. simpl. auto 30.
  - destruct (@init_error_classes Sample.K Sample.primary_no_mac
                Sample.fresh eq_refl)
      as (r & d' & ev & Hrun & Htr & _ & _ & Hbenign & _ & _ & Hok).
    compute_events Hrun Htr.
    exists d'. rewrite <- Hok; [exact Hrun|].
    subst ev. simpl. auto 30.
Defined.

(** No address from the PF, random number 0x1122334455abcdef on a
    little-endian host: the permanent address becomes 02:09:c0:ef:cd:ab and
    is published in slot 0. *)
Example init_generates_address :
  observe (fun d => (perm_addr (hw d), option_map (firstn 1) (mac_addrs d),
                     mbx_requests (trace d)))
    (eth_txgbevf_dev_init Sample.K Sample.primary_no_mac Sample.fresh)
  = Some (0,
          (EtherAddr x02 x09 xc0 xef xcd xab,
           Some [EtherAddr x02 x09 xc0 xef xcd xab],
           [NegotiateApi txgbe_mbox_api_13; GetQueues;
            SetRarVf 1 (EtherAddr x02 x09 xc0 xef xcd xab) 0 1])).
Proof. vm_compute. reflexivity. Qed.

Lemma init_random_perm_addr_witness :
  exists d',
    eth_txgbevf_dev_init Sample.K Sample.primary_no_mac Sample.fresh
    = Done 0 d' /\
    perm_addr (hw d') = EtherAddr x02 x09 xc0 xef xcd xab /\
    rte_is_zero_ether_addr (perm_addr (hw d')) = false /\
    exists rest,
      mac_addrs d' = Some (EtherAddr x02 x09 xc0 xef xcd xab :: rest).
Proof.
  destruct (@init_random_perm_addr Sample.K Sample.primary_no_mac
              Sample.fresh eq_refl)
    as (_ & r & d' & ev & Hrun & Htr & Hzero).
  compute_events Hrun Htr.
  destruct (Hzero (-266) zero_ether_addr 768)
    as (v & rc2 & Hrand & Hinst & Hperm & Hnz & Hslot).
  { subst ev. simpl. auto 20. }
  { reflexivity. }
  { subst ev. simpl. auto 20. }
  assert (Hv : v = 0x1122334455abcdef).
  { subst ev. simpl in Hrand.
    repeat (destruct Hrand as [Hrand | Hrand]; try discriminate Hrand);
      [|destruct Hrand].
    now injection Hrand. }
  assert (Hrc2 : rc2 = 0).
  { subst ev v. simpl in Hinst.
    repeat (destruct Hinst as [Hinst | Hinst]; try discriminate Hinst);
      [|destruct Hinst].
    now injection Hinst. }
  subst v. exists d'. split.
  - pose proof Hrun as Hc. vm_compute in Hc. injection Hc as <- _. exact Hrun.
  - split; [exact Hperm|]. split; [exact Hnz|]. exact (Hslot Hrc2).
Defined.

(** The same device when the PF refuses the installation: init returns the
    refusal, and the table allocated a moment earlier is gone. *)
Example init_install_refused :
  observe (fun d => (mac_addrs d, skipn 13 (trace d)))
    (eth_txgbevf_dev_init Sample.K Sample.primary_no_mac_pf_down Sample.fresh)
  = Some (-100,
          (None,
           [RteZmalloc 768 true; RteRand 0x1122334455abcdef;
            Mbx (SetRarVf 1 (EtherAddr x02 x09 xc0 xef xcd xab) 0 1) (-100);
            RteFree])).
Proof. vm_compute. reflexivity. Qed.

Lemma init_install_failure_frees_table_witness :
  exists d',
    eth_txgbevf_dev_init Sample.K Sample.primary_no_mac_pf_down Sample.fresh
    = Done (-100) d' /\
    mac_addrs d' = None /\
    exists pre size v,
      trace d'
      = pre ++ [RteZmalloc size true; RteRand v;
                Mbx (SetRarVf 1 (EtherAddr x02 x09 xc0 xef xcd xab) 0 1) (-100);
                RteFree].
Proof.
  destruct (@init_install_failure_frees_table Sample.K
              Sample.primary_no_mac_pf_down Sample.fresh eq_refl)
    as (r & d' & ev & Hrun & Htr & Hfail).
  pose proof Htr as Hev0.
  compute_events Hrun Htr.
  destruct (Hfail 1 (EtherAddr x02 x09 xc0 xef xcd xab) 0 1 (-100))
    as (Hr & Hmac & pre & size & v & Hev);
    [subst ev; simpl; auto 20 | discriminate |].
  exists d'. subst r. split; [exact Hrun|]. split; [exact Hmac|].
  exists pre, size, v. rewrite Hev0. exact Hev.
Defined.

(** A secondary process that finds two configured queues takes the
    transmit function of the last one. *)
Example init_secondary_two_queues :
  observe trace
    (eth_txgbevf_dev_init Sample.K Sample.secondary Sample.two_tx_queues)
  = Some (0, [Log DEBUG FuncTrace; SetTxFunction (TxQueue 1); SetRxFunction]).
Proof. vm_compute. reflexivity. Qed.

Lemma init_secondary_tx_function_witness :
  exists ev,
    eth_txgbevf_dev_init Sample.K Sample.secondary Sample.fresh
    = Done 0 (set_trace (trace Sample.fresh ++ ev)
                (set_dev_ops (Some txgbevf_eth_dev_ops) Sample.fresh)) /\
    ev = [Log DEBUG FuncTrace; Log NOTICE NoTxQueuesConfigured;
          SetRxFunction] /\
    Forall (fun e => touches_hardware e = false) ev /\
    (forall txq, ~ In (SetTxFunction txq) ev).
Proof.
  apply (@init_secondary_tx_function Sample.K Sample.secondary Sample.fresh).
  - reflexivity.
  - intros _. reflexivity.
  - reflexivity.
Defined.

Example dev_info_get_rx_capa_union :
  observe (fun _ => tt)
    (bind (txgbevf_dev_info_get Sample.K Sample.primary_ok)
       (fun p => ret (fst p, rx_queue_offload_capa (snd p),
                      rx_offload_capa (snd p), max_mac_addrs (snd p),
                      hash_key_size (snd p)))
       Sample.running)
  = Some ((0, 0x1, 0xf, 128, 40), tt).
Proof. vm_compute. reflexivity. Qed.

Example intr_sequence_mirror :
  observe (fun d => (mask_misc d, skipn 9 (trace d)))
    (run_intr_ops Sample.K [IntrEnable; IntrDisable; IntrEnable; IntrDisable]
       Sample.running)
  = Some (tt, (7, [Log DEBUG FuncTrace; Wr32 0x108 7; Flush])).
Proof. vm_compute. reflexivity. Qed.

(** After a new default address is set, adding it is forwarded to the PF
    and adding the stored permanent address is still rejected. *)
Example add_after_set_default :
  observe trace
    (bind (txgbevf_set_default_mac_addr Sample.primary_ok (Sample.mac x09))
       (fun _ =>
          bind (txgbevf_add_mac_addr Sample.primary_ok (Sample.mac x01) 0 0)
            (fun r1 =>
               bind (txgbevf_add_mac_addr Sample.primary_ok (Sample.mac x09) 0 0)
                 (fun r2 => ret (r1, r2))))
       Sample.running)
  = Some ((-1, 0),
          [SetRar 0 (Sample.mac x09) 0 0 0;
           Mbx (add_unicast (Sample.mac x09)) 0]).
Proof. vm_compute. reflexivity. Qed.

Lemma add_mac_addr_result_witness :
  txgbevf_add_mac_addr Sample.primary_flaky (Sample.mac x01) 0 0 Sample.running
  = Done (-1) Sample.running /\
  (let rc := mbx_reply Sample.primary_flaky (trace Sample.running)
               (add_unicast (Sample.mac x05)) in
   txgbevf_add_mac_addr Sample.primary_flaky (Sample.mac x05) 0 0
     Sample.running
   = Done rc
       (set_trace (trace Sample.running ++ add_events (Sample.mac x05) rc)
          Sample.running) /\
   mbx_requests (add_events (Sample.mac x05) rc)
   = [add_unicast (Sample.mac x05)]).
Proof.
  split.
  - apply (proj1 (add_mac_addr_result Sample.primary_flaky (Sample.mac x01)
                    0 0 Sample.running)).
    reflexivity.
  - apply (proj2 (add_mac_addr_result Sample.primary_flaky (Sample.mac x05)
                    0 0 Sample.running)).
    vm_compute. discriminate.
Defined.


Lemma set_default_mac_addr_frame_witness :
  exists d',
    txgbevf_set_default_mac_addr Sample.primary_flaky (Sample.mac x05)
      Sample.running = Done 0 d' /\
    hw d' = hw Sample.running /\
    mac_addrs d' = mac_addrs Sample.running /\
    txgbevf_add_mac_addr Sample.primary_flaky (Sample.mac x01) 0 0 d'
    = Done (-1) d' /\
    txgbevf_add_mac_addr Sample.primary_flaky (Sample.mac x05) 0 0 d'
    = Done (mbx_reply Sample.primary_flaky (trace d')
              (add_unicast (Sample.mac x05)))
        (set_trace
           (trace d'
            ++ add_events (Sample.mac x05)
                 (mbx_reply Sample.primary_flaky (trace d')
                    (add_unicast (Sample.mac x05)))) d') /\
    exists ev slots,
      txgbevf_remove_mac_addr Sample.primary_flaky 2 d'
      = Done tt
          (set_trace
             (trace d'
              ++ Mbx clear_all_unicast
                   (mbx_reply Sample.primary_flaky (trace d') clear_all_unicast)
              :: ev) d') /\
      mbx_requests ev = map (fun j => add_unicast (slot Sample.table j)) slots /\
      (forall j : Z,
          In j slots <->
          0 <= j < Z.of_nat (length Sample.table) /\ j <> 2 /\
          rte_is_zero_ether_addr (slot Sample.table j) = false /\
          slot Sample.table j <> perm_addr (hw Sample.running)).
Proof.
  destruct (set_default_mac_addr_frame Sample.primary_flaky (Sample.mac x05)
              Sample.running)
    as (d' & Hrun & _ & _ & Hhw & Hmac & Hperm & Hother & Hremove).
  exists d'. split; [exact Hrun|]. split; [exact Hhw|]. split; [exact Hmac|].
  split; [apply Hperm|]. split.
  - apply Hother. vm_compute. discriminate.
  - apply (Hremove 2 Sample.table); reflexivity.
Defined.

(** ** The further properties on concrete inputs *)

Lemma remove_mac_addr_events_witness :
  exists (rc : Z) (answers : list (rte_ether_addr * Z)),
    txgbevf_remove_mac_addr Sample.primary_flaky 0 Sample.running
    = Done tt
        (set_trace
           (trace Sample.running
            ++ Mbx clear_all_unicast rc :: replay_events answers)
           Sample.running) /\
    map fst answers
    = map snd (replayed_from (perm_addr (hw Sample.running)) 0 0
                 Sample.table) /\
    (forall a code,
        In (Log ERR (AddingAgainFailed a code)) (replay_events answers) <->
        In (a, code) answers /\ code <> 0) /\
    (forall lvl m,
        In (Log lvl m) (replay_events answers) ->
        exists a code, lvl = ERR /\ m = AddingAgainFailed a code).
Proof.
  apply (@remove_mac_addr_events Sample.primary_flaky 0 Sample.running
           Sample.table); reflexivity.
Defined.

Lemma remove_mac_addr_request_bound_witness :
  exists ev,
    txgbevf_remove_mac_addr Sample.primary_ok 2 Sample.running
    = Done tt (set_trace (trace Sample.running ++ ev) Sample.running) /\
    Z.of_nat (length (mbx_requests ev)) <= 128.
Proof.
  destruct (@remove_mac_addr_request_bound Sample.primary_ok 2 Sample.running
              Sample.table eq_refl eq_refl) as (ev & Hrun & _ & Hbound).
  exists ev. split; [exact Hrun|]. apply Hbound. cbn. lia.
Defined.

Lemma remove_mac_addr_null_table_witness :
  txgbevf_remove_mac_addr Sample.primary_ok 3 Sample.closed
  = Undefined NullDereference /\
  txgbevf_remove_mac_addr Sample.primary_ok 3 Sample.fresh
  = Done tt (set_trace [Mbx clear_all_unicast 0] Sample.fresh).
Proof.
  split.
  - apply (@remove_mac_addr_null_table Sample.primary_ok 3 Sample.closed
             eq_refl).
    left. cbn. lia.
  - apply (@remove_mac_addr_null_table Sample.primary_ok 3 Sample.fresh
             eq_refl).
    left. cbn. lia.
Defined.

Lemma dispatch_all_frame_witness :
  exists ev d',
    dispatch_all Sample.K Sample.primary_flaky
      [mac_addr_add (Sample.mac x07) 3 0; mac_addr_remove 2;
       dev_infos_get; mac_addr_set (Sample.mac x09)] Sample.running
    = Done tt d' /\
    d' = set_trace (trace Sample.running ++ ev) Sample.running /\
    Forall (fun e => table_call_event e = true) ev /\
    (forall index,
        exists after,
          txgbevf_remove_mac_addr Sample.primary_flaky index d'
          = Done tt (set_trace (trace d' ++ after) d') /\
          mbx_requests after
          = clear_all_unicast
            :: map (fun j => add_unicast (slot Sample.table j))
                 (map fst (replayed_from (perm_addr (hw Sample.running))
                             index 0 Sample.table))).
Proof.
  apply (@dispatch_all_frame Sample.K Sample.primary_flaky _ Sample.running
           Sample.table); reflexivity.
Defined.

Lemma dev_close_primary_witness :
  exists (d' : rte_eth_dev) (rc rc' : Z) (replay : list event)
         (slots : list Z),
    txgbevf_dev_close Sample.K Sample.primary_ok Sample.running
    = Done 0 d' /\
    trace d'
    = trace Sample.running
      ++ Log DEBUG FuncTrace :: ResetHw rc (perm_addr (hw d')) :: FreeQueues
         :: Mbx clear_all_unicast rc'
         :: replay ++ intr_disable_events Sample.K ++ [RteFree] /\
    mbx_requests replay
    = map (fun j => add_unicast (slot Sample.table j)) slots /\
    (forall j : Z,
        In j slots <->
        0 <= j < Z.of_nat (length Sample.table) /\ j <> 0 /\
        rte_is_zero_ether_addr (slot Sample.table j) = false /\
        slot Sample.table j <> perm_addr (hw d')) /\
    mac_addrs d' = None /\
    mask_misc d' = u32 (TXGBE_VFIMS_MASK Sample.K).
Proof.
  apply (@dev_close_primary Sample.K Sample.primary_ok Sample.running
           Sample.table); reflexivity.
Defined.

Lemma dev_close_twice_witness :
  exists d',
    txgbevf_dev_close Sample.K Sample.primary_ok Sample.running
    = Done 0 d' /\
    txgbevf_dev_close Sample.K Sample.primary_ok d'
    = Undefined NullDereference.
Proof.
  apply (@dev_close_twice Sample.K Sample.primary_ok Sample.running
           Sample.table eq_refl eq_refl eq_refl).
  cbn. lia.
Defined.

Lemma init_success_state_witness :
  exists d',
    eth_txgbevf_dev_init Sample.K Sample.primary_no_mac Sample.fresh
    = Done 0 d' /\
    mask_misc d' = 0 /\
    num_rar_entries (hw d') = 128 /\
    mac_addrs d' = Some (perm_addr (hw d') :: repeat zero_ether_addr 127) /\
    rte_is_zero_ether_addr (perm_addr (hw d')) = false /\
    dev_ops d' = Some txgbevf_eth_dev_ops.
Proof.
  destruct (@init_success_state Sample.K Sample.primary_no_mac Sample.fresh
              eq_refl) as (r & d' & ev & Hrun & Htr & Hstate).
  compute_events Hrun Htr.
  destruct Hstate as (-> & Hstate).
  { subst ev. simpl. auto 30. }
  exists d'. split; [exact Hrun | exact Hstate].
Defined.

Lemma init_failure_keeps_interrupts_masked_witness :
  exists r d',
    eth_txgbevf_dev_init Sample.K Sample.primary_no_mac_pf_down Sample.fresh
    = Done r d' /\
    mask_misc d' = u32 (TXGBE_VFIMS_MASK Sample.K).
Proof.
  destruct (@init_failure_keeps_interrupts_masked Sample.K
              Sample.primary_no_mac_pf_down Sample.fresh eq_refl)
    as (r & d' & ev & Hrun & Htr & Hmask).
  compute_events Hrun Htr.
  exists r, d'. split; [exact Hrun|]. apply Hmask.
  - subst ev. simpl. auto 30.
  - subst ev. simpl. intros H.
    repeat (destruct H as [H | H]; try discriminate H). exact H.
Defined.

Lemma init_start_failure_keeps_table_witness :
  exists d',
    eth_txgbevf_dev_init Sample.K Sample.primary_start_fails Sample.fresh
    = Done (- EIO Sample.K) d' /\
    mac_addrs d' = Some (perm_addr (hw d') :: repeat zero_ether_addr 127).
Proof.
  destruct (@init_start_failure_keeps_table Sample.K
              Sample.primary_start_fails Sample.fresh eq_refl)
    as (r & d' & ev & Hrun & Htr & Hstart).
  compute_events Hrun Htr.
  destruct (Hstart (-2)) as (-> & Htable & _).
  { subst ev. simpl. auto 30. }
  { discriminate. }
  exists d'. split; [exact Hrun | exact Htable].
Defined.

Lemma init_early_failure_witness :
  (exists r d',
      eth_txgbevf_dev_init Sample.K Sample.primary_shared_code_fails
        Sample.fresh = Done r d' /\
      trace d' = [Log DEBUG FuncTrace; CopyPciInfo; InitSharedCode (-1);
                  Log ERR (SharedCodeInitFailed (-1))] /\
      mask_misc d' = 0 /\ mac_addrs d' = None) /\
  (exists r d',
      eth_txgbevf_dev_init Sample.K Sample.primary_reset_fails Sample.fresh
      = Done r d' /\
      mbx_requests (trace d') = [] /\ mac_addrs d' = None).
Proof.
  split.
  - destruct (@init_early_failure Sample.K Sample.primary_shared_code_fails
                Sample.fresh eq_refl)
      as (r & d' & ev & Hrun & Htr & Hshared & _).
    destruct (Hshared (-1)) as (Hev & Hmask & Hmac).
    { compute_events Hrun Htr. subst ev. simpl. auto 30. }
    { discriminate. }
    exists r, d'. split; [exact Hrun|]. split; [|split; assumption].
    rewrite Htr, Hev. reflexivity.
  - destruct (@init_early_failure Sample.K Sample.primary_reset_fails
                Sample.fresh eq_refl)
      as (r & d' & ev & Hrun & Htr & _ & Hreset).
    destruct (Hreset (-3) zero_ether_addr) as (Hreq & _ & Hmac).
    { compute_events Hrun Htr. subst ev. simpl. auto 30. }
    { discriminate. }
    { discriminate. }
    exists r, d'. split; [exact Hrun|]. split; [|exact Hmac].
    rewrite Htr. exact Hreq.
Defined.

Lemma init_interrupt_bracket_witness :
  exists r d' post,
    eth_txgbevf_dev_init Sample.K Sample.primary_ok Sample.fresh
    = Done r d' /\
    trace d'
    = Log DEBUG FuncTrace :: CopyPciInfo :: InitSharedCode 0
      :: InitMbxParams :: intr_disable_events Sample.K
      ++ ResetHw 0 (Sample.mac x01) :: post /\
    (register_events post = [] /\ ~ In (StartHw 0) post
     \/
     exists mid,
       post = mid ++ StartHw 0 :: intr_enable_events Sample.K
                  ++ [Log DEBUG (PortDescription 0 0x8088 0x1000)] /\
       register_events mid = []).
Proof.
  destruct (@init_interrupt_bracket Sample.K Sample.primary_ok Sample.fresh
              eq_refl) as (r & d' & ev & Hrun & Htr & Hshape).
  destruct (Hshape 0 (Sample.mac x01)) as (post & Hev & Hpost).
  { compute_events Hrun Htr. subst ev. simpl. auto 30. }
  exists r, d', post. split; [exact Hrun|]. split; [|exact Hpost].
  rewrite Htr, Hev. reflexivity.
Defined.

Lemma init_then_table_calls_witness :
  exists d' a rest,
    eth_txgbevf_dev_init Sample.K Sample.primary_ok Sample.fresh
    = Done 0 d' /\
    mac_addrs d' = Some (a :: rest) /\
    txgbevf_add_mac_addr Sample.primary_ok a 1 0 d' = Done (-1) d' /\
    txgbevf_remove_mac_addr Sample.primary_ok 1 d'
    = Done tt
        (set_trace
           (trace d'
            ++ [Mbx clear_all_unicast
                  (mbx_reply Sample.primary_ok (trace d')
                     clear_all_unicast)]) d').
Proof.
  destruct (@init_then_table_calls Sample.K Sample.primary_ok Sample.fresh
              eq_refl) as (r & d' & ev & Hrun & Htr & Hcalls).
  compute_events Hrun Htr.
  destruct Hcalls as (a & rest & Hmac & Hadd & Hremove).
  { subst ev. simpl. auto 30. }
  exists d', a, rest. split.
  - pose proof Hrun as Hc. vm_compute in Hc. injection Hc as <- _. exact Hrun.
  - split; [exact Hmac|]. split; [apply Hadd | apply Hremove].
Defined.

Lemma init_then_uninit_witness :
  exists d' d'' out,
    eth_txgbevf_dev_init Sample.K Sample.primary_ok Sample.fresh
    = Done 0 d' /\
    eth_txgbevf_dev_uninit Sample.K Sample.primary_ok d' = Done 0 d'' /\
    trace d'' = trace d' ++ out ++ [RteFree] /\
    mbx_requests out = [clear_all_unicast] /\
    mac_addrs d'' = None /\
    mask_misc d'' = u32 (TXGBE_VFIMS_MASK Sample.K).
Proof.
  destruct (@init_then_uninit Sample.K Sample.primary_ok Sample.fresh
              eq_refl) as (r & d' & ev & Hrun & Htr & Huninit).
  compute_events Hrun Htr.
  destruct Huninit as (d'' & out & Hout).
  { subst ev. simpl. auto 30. }
  exists d', d'', out. split; [|exact Hout].
  pose proof Hrun as Hc. vm_compute in Hc. injection Hc as <- _. exact Hrun.
Defined.

Lemma random_mac_addr_low_bits_witness :
  Z_of_byte (byte3 (random_mac_addr Sample.K 0x1122334455abcdef))
  + 2 ^ 8 * Z_of_byte (byte4 (random_mac_addr Sample.K 0x1122334455abcdef))
  + 2 ^ 16 * Z_of_byte (byte5 (random_mac_addr Sample.K 0x1122334455abcdef))
  = 0xabcdef /\
  random_mac_addr Sample.K 0x1122334455abcdef
  = random_mac_addr Sample.K 0xabcdef.
Proof.
  destruct (@random_mac_addr_low_bits Sample.K 0x1122334455abcdef 0xabcdef
              eq_refl) as (Hbits & Hsame).
  split; [exact Hbits | apply Hsame; reflexivity].
Defined.

Lemma init_secondary_queue_index_witness :
  eth_txgbevf_dev_init Sample.K Sample.secondary Sample.two_tx_queues
  = Done 0 (set_trace [Log DEBUG FuncTrace; SetTxFunction (TxQueue 1);
                       SetRxFunction]
              (set_dev_ops (Some txgbevf_eth_dev_ops) Sample.two_tx_queues)) /\
  eth_txgbevf_dev_init Sample.K Sample.secondary Sample.three_tx_queues_counted
  = Undefined (OutOfBounds 2 2).
Proof.
  split.
  - destruct (@init_secondary_queue_index Sample.K Sample.secondary
                Sample.two_tx_queues _ eq_refl eq_refl) as (Hin & _).
    destruct Hin as (txq & Hnth & Hrun); [cbn; lia|].
    injection Hnth as <-. exact Hrun.
  - apply (@init_secondary_queue_index Sample.K Sample.secondary
             Sample.three_tx_queues_counted _ eq_refl eq_refl).
    right. cbn. lia.
Defined.

Lemma init_mailbox_requests_witness :
  exists (r : Z) (d' : rte_eth_dev) (ev : list event),
    eth_txgbevf_dev_init Sample.K Sample.primary_api_11 Sample.fresh
    = Done r d' /\
    trace d' = trace Sample.fresh ++ ev /\
    ((mbx_requests ev = [] /\ forall rc, ~ In (Mbx GetQueues rc) ev)
     \/
     exists attempts rest install,
       sup_ver = attempts ++ rest /\ attempts <> [] /\
       mbx_requests ev = map NegotiateApi attempts ++ GetQueues :: install /\
       (install = [] \/
        exists v, install = [SetRarVf 1 (random_mac_addr Sample.K v) 0 1])) /\
    (length (mbx_requests ev) <= 6)%nat /\
    (forall i a, ~ In (SetUcAddr i a) (mbx_requests ev)).
Proof.
  apply (@init_mailbox_requests Sample.K Sample.primary_api_11 Sample.fresh).
  reflexivity.
Defined.
